(** * Student management system: a shallow embedding and its properties

    The repository holds two managers over a list of student objects:

    - the persistent variant, [models/student.py] and [services/manager.py]
      ([Student], [StudentValidator], [StudentManager]), which saves the
      list to a JSON file after every mutation;
    - the in-memory variant of [ui/app.py] ([Student], [StudentValidator],
      [AdvancedStudentManager]), which adds attendance and activities and
      keeps nothing on disk.

    Module [Py] models the fragment of Python both are written in (as
    CPython 3.11 runs it), module [Persistent] the first variant, module
    [Advanced] the second; module [Rules] states the rules of the
    specification.  The theorems follow the definitions. *)

From Stdlib Require Import ZArith QArith String Ascii List Bool Lia.
From Stdlib Require Import DecimalString DecimalPos DecimalN.
From Stdlib Require Import Floats.SpecFloat.
From stdpp Require Import base strings gmap list.
Import ListNotations.
Local Open Scope string_scope.
Local Open Scope list_scope.
Local Open Scope Z_scope.

(** ** Python values, exceptions and the library functions the code calls *)

Module Py.

(** Exceptions are modelled by their class. *)
Inductive exn :=
| ValueError | TypeError | AttributeError | KeyError | OverflowError
| ZeroDivisionError | OSError | EmptyDataError | ParserError.

(** A computation either returns or raises. *)
Inductive pyres (A : Type) :=
| Ok (a : A)
| Raise (e : exn).
Arguments Ok {A} a.
Arguments Raise {A} e.

#[export] Instance pyres_ret : MRet pyres := fun A a => Ok a.
#[export] Instance pyres_bind : MBind pyres := fun A B k c =>
  match c with
  | Ok a => k a
  | Raise e => Raise e
  end.
#[export] Instance pyres_fmap : FMap pyres := fun A B f c =>
  match c with
  | Ok a => Ok (f a)
  | Raise e => Raise e
  end.

(** [try: c except ValueError: h]. *)
Definition except_ValueError {A} (c : pyres A) (h : pyres A) : pyres A :=
  match c with
  | Raise ValueError => h
  | r => r
  end.

(** *** Floats

    A float is an IEEE 754 binary64 number; the operations round to the
    nearest float, ties to even, as the hardware does. *)

Definition prec : Z := 53.
Definition emax : Z := 1024.

Abbreviation float := spec_float.

Definition fadd : float -> float -> float := SFadd prec emax.
Definition fsub : float -> float -> float := SFsub prec emax.
Definition fmul : float -> float -> float := SFmul prec emax.
Definition fdiv : float -> float -> float := SFdiv prec emax.
Definition fsqrt : float -> float := SFsqrt prec emax.

Definition is_zero (x : float) : bool :=
  match x with S754_zero _ => true | _ => false end.

Definition is_infinite (x : float) : bool :=
  match x with S754_infinity _ => true | _ => false end.

Definition is_nan (x : float) : bool :=
  match x with S754_nan => true | _ => false end.

(** The float nearest to the quotient [n / d] of two positive integers,
    under the sign given: the quotient is computed to the precision of
    the result, with the position of the remainder, and rounded once. *)
Definition nearest (negative : bool) (n d : positive) : float :=
  let '(m, e, l) := SFdiv_core_binary prec emax (Z.pos n) 0 (Z.pos d) 0 in
  binary_round_aux prec emax negative m e l.

(** The float nearest to [mantissa * 10 ** exponent], under the sign
    given: what a decimal numeral denotes. *)
Definition decimal (negative : bool) (mantissa : N) (exponent : Z) : float :=
  match mantissa with
  | N0 => S754_zero negative
  | Npos m =>
      if 0 <=? exponent
      then nearest negative (Pos.mul m (Z.to_pos (10 ^ exponent))) 1
      else nearest negative m (Z.to_pos (10 ^ (- exponent)))
  end.

(** The float nearest to an integer; an infinity when the integer is
    beyond the largest float. *)
Definition float_of_Z (z : Z) : float := binary_normalize prec emax z 0 false.

(** [float(z)] for an int. *)
Definition float_of_int (z : Z) : pyres float :=
  let x := float_of_Z z in
  if is_infinite x then Raise OverflowError else Ok x.

(** A number is an int or a float. *)
Inductive num :=
| NInt (z : Z)
| NFloat (x : float).

(** The place of a number on the real line, with its two ends: numbers
    compare by their exact values, be they ints or floats.  A nan has no
    place. *)
Inductive point :=
| Below
| At (q : Q)
| Above.

Definition float_point (x : float) : option point :=
  match x with
  | S754_nan => None
  | S754_infinity negative => Some (if negative then Below else Above)
  | S754_zero _ => Some (At 0)
  | S754_finite negative m e =>
      let v := if negative then Z.neg m else Z.pos m in
      Some (At (if 0 <=? e then inject_Z (v * 2 ^ e)
                else Qmake v (Z.to_pos (2 ^ (- e)))))
  end.

Definition num_point (a : num) : option point :=
  match a with
  | NInt z => Some (At (inject_Z z))
  | NFloat x => float_point x
  end.

Definition point_compare (p q : point) : comparison :=
  match p, q with
  | Below, Below | Above, Above => Eq
  | Below, _ | _, Above => Lt
  | _, Below | Above, _ => Gt
  | At a, At b => (a ?= b)%Q
  end.

(** The order of two numbers; none when one is a nan. *)
Definition num_compare (a b : num) : option comparison :=
  match num_point a, num_point b with
  | Some p, Some q => Some (point_compare p q)
  | _, _ => None
  end.

(** [x < y] and [x > y] for two floats. *)
Definition flt (x y : float) : bool :=
  match num_compare (NFloat x) (NFloat y) with Some Lt => true | _ => false end.

Definition fgt (x y : float) : bool := flt y x.

Definition to_float (a : num) : pyres float :=
  match a with
  | NInt z => float_of_int z
  | NFloat x => Ok x
  end.

(** [a + b]: ints add exactly; an int met by a float is converted. *)
Definition num_add (a b : num) : pyres num :=
  match a, b with
  | NInt x, NInt y => Ok (NInt (x + y))
  | _, _ =>
      x ← to_float a;
      y ← to_float b;
      Ok (NFloat (fadd x y))
  end.

(** [a / b] for two ints, [b] not zero: the float nearest to the
    quotient. *)
Definition int_truediv (a b : Z) : pyres float :=
  let negative := xorb (a <? 0) (b <? 0) in
  match Z.abs a, Z.abs b with
  | Z.pos n, Z.pos d =>
      let x := nearest negative n d in
      if is_infinite x then Raise OverflowError else Ok x
  | _, _ => Ok (S754_zero negative)
  end.

(** [a / b]. *)
Definition num_truediv (a b : num) : pyres float :=
  match a, b with
  | NInt x, NInt y =>
      if y =? 0 then Raise ZeroDivisionError else int_truediv x y
  | _, _ =>
      x ← to_float a;
      y ← to_float b;
      if is_zero y then Raise ZeroDivisionError else Ok (fdiv x y)
  end.

(** [a * b]. *)
Definition num_mul (a b : num) : pyres num :=
  match a, b with
  | NInt x, NInt y => Ok (NInt (x * y))
  | _, _ =>
      x ← to_float a;
      y ← to_float b;
      Ok (NFloat (fmul x y))
  end.

(** One entry of a student's activity list (a dict with these four keys). *)
Record activity := {
  activity_type : string;
  activity_description : string;
  activity_date : string;
  activity_id : Z
}.

Definition activity_eqb (a b : activity) : bool :=
  String.eqb (activity_type a) (activity_type b)
  && String.eqb (activity_description a) (activity_description b)
  && String.eqb (activity_date a) (activity_date b)
  && Z.eqb (activity_id a) (activity_id b).

(** The values the program stores in a student and reads from a row:
    None, booleans, ints, floats, strings and lists of activities. *)
Inductive value :=
| VNone
| VBool (b : bool)
| VInt (z : Z)
| VFloat (x : float)
| VStr (s : string)
| VList (l : list activity).

(** The number a value is in arithmetic and comparisons, if any; a
    boolean is the int 0 or 1. *)
Definition number (v : value) : option num :=
  match v with
  | VBool b => Some (NInt (if b then 1 else 0))
  | VInt z => Some (NInt z)
  | VFloat x => Some (NFloat x)
  | _ => None
  end.

Fixpoint activities_eqb (l1 l2 : list activity) : bool :=
  match l1, l2 with
  | [], [] => true
  | a :: l1', b :: l2' => activity_eqb a b && activities_eqb l1' l2'
  | _, _ => false
  end.

(** [a == b]. *)
Definition py_eq (a b : value) : bool :=
  match number a, number b with
  | Some x, Some y =>
      match num_compare x y with Some Eq => true | _ => false end
  | None, None =>
      match a, b with
      | VNone, VNone => true
      | VStr s, VStr t => String.eqb s t
      | VList l1, VList l2 => activities_eqb l1 l2
      | _, _ => false
      end
  | _, _ => false
  end.

(** [bool(v)]. *)
Definition truthy (v : value) : bool :=
  match v with
  | VNone => false
  | VBool b => b
  | VInt z => negb (z =? 0)
  | VFloat x => negb (is_zero x)
  | VStr s => negb (String.eqb s "")
  | VList l => match l with [] => false | _ => true end
  end.

(** Lists compare lexicographically; their elements are dicts, which have
    no order, so the comparison raises TypeError at the first position
    where the two lists differ and otherwise compares the lengths. *)
Fixpoint list_order (l1 l2 : list activity) : pyres comparison :=
  match l1, l2 with
  | [], [] => Ok Eq
  | [], _ :: _ => Ok Lt
  | _ :: _, [] => Ok Gt
  | a :: l1', b :: l2' =>
      if activity_eqb a b then list_order l1' l2' else Raise TypeError
  end.

(** [a < b], [a <= b] and their mirrors: numbers compare by value (a nan
    is neither below, above nor equal), strings lexicographically,
    anything else raises TypeError. *)
Definition py_lt (a b : value) : pyres bool :=
  match number a, number b with
  | Some x, Some y =>
      Ok (match num_compare x y with Some Lt => true | _ => false end)
  | _, _ =>
      match a, b with
      | VStr s, VStr t => Ok (String.ltb s t)
      | VList l1, VList l2 =>
          c ← list_order l1 l2; Ok (match c with Lt => true | _ => false end)
      | _, _ => Raise TypeError
      end
  end.

Definition py_le (a b : value) : pyres bool :=
  match number a, number b with
  | Some x, Some y =>
      Ok (match num_compare x y with Some (Lt | Eq) => true | _ => false end)
  | _, _ =>
      match a, b with
      | VStr s, VStr t => Ok (String.leb s t)
      | VList l1, VList l2 =>
          c ← list_order l1 l2; Ok (match c with Gt => false | _ => true end)
      | _, _ => Raise TypeError
      end
  end.

Definition py_gt (a b : value) : pyres bool := py_lt b a.
Definition py_ge (a b : value) : pyres bool := py_le b a.

(** *** Strings

    A string is the sequence of its code points, each a character of the
    type [ascii]: the model covers the strings whose code points are below
    256.  The classes of characters are those of the Unicode database on
    that range. *)

Definition code (c : ascii) : nat := nat_of_ascii c.

Definition within (lo hi : nat) (c : ascii) : bool :=
  (lo <=? code c)%nat && (code c <=? hi)%nat.

(** [c.isspace()], which is also the class [\s] of a pattern and what
    [strip] removes. *)
Definition is_space (c : ascii) : bool :=
  within 9 13 c || within 28 32 c || (code c =? 133)%nat || (code c =? 160)%nat.

(** The class [[0-9]]. *)
Definition is_digit (c : ascii) : bool := within 48 57 c.

(** The class [[a-zA-Z]]. *)
Definition is_ascii_letter (c : ascii) : bool := within 65 90 c || within 97 122 c.

(** [c.isalpha()]: the letters of the Latin alphabet, the two ordinal
    indicators, the micro sign and the accented letters. *)
Definition is_alpha (c : ascii) : bool :=
  is_ascii_letter c || (code c =? 170)%nat || (code c =? 181)%nat
  || (code c =? 186)%nat || within 192 214 c || within 216 246 c
  || within 248 255 c.

Definition chars (s : string) : list ascii := list_ascii_of_string s.
Definition of_chars (l : list ascii) : string := string_of_list_ascii l.

Fixpoint lstrip_by (p : ascii -> bool) (l : list ascii) : list ascii :=
  match l with
  | c :: l' => if p c then lstrip_by p l' else l
  | [] => []
  end.

Definition strip_by (p : ascii -> bool) (l : list ascii) : list ascii :=
  rev (lstrip_by p (rev (lstrip_by p l))).

(** [s.strip()]. *)
Definition strip (s : string) : string := of_chars (strip_by is_space (chars s)).

(** [s[n:]]. *)
Definition slice_from (n : nat) (s : string) : string :=
  of_chars (drop n (chars s)).

(** [sep.join(l)]. *)
Definition join (sep : string) (l : list string) : string :=
  String.concat sep l.

(** [c in s] for a character [c]. *)
Definition contains_char (c : ascii) (s : string) : bool :=
  existsb (Ascii.eqb c) (chars s).

(** [c.lower()] and [s.lower()]: the capital letters, plain and accented,
    are 32 code points below their small letters. *)
Definition lower_char (c : ascii) : ascii :=
  if within 65 90 c || (within 192 222 c && negb (code c =? 215)%nat)
  then ascii_of_nat (code c + 32)
  else c.

Definition lower (s : string) : string := of_chars (map lower_char (chars s)).

(** *** [int(...)] and [f"{n:03d}"] *)

(** The white space [int] and [float] allow around a number: the six
    characters of C, and the two other white spaces above 127, which are
    read as blanks.  The separators 28 to 31, which [strip] removes, are
    not among them. *)
Definition is_number_space (c : ascii) : bool :=
  within 9 13 c || (code c =? 32)%nat || (code c =? 133)%nat
  || (code c =? 160)%nat.

(** The digit a character stands for, as a constructor of decimal numbers. *)
Definition digit_of (c : ascii) : option (Decimal.uint -> Decimal.uint) :=
  match c with
  | "0"%char => Some Decimal.D0 | "1"%char => Some Decimal.D1
  | "2"%char => Some Decimal.D2 | "3"%char => Some Decimal.D3
  | "4"%char => Some Decimal.D4 | "5"%char => Some Decimal.D5
  | "6"%char => Some Decimal.D6 | "7"%char => Some Decimal.D7
  | "8"%char => Some Decimal.D8 | "9"%char => Some Decimal.D9
  | _ => None
  end.

(** The digits that continue a number: digits, each possibly preceded by
    one underscore.  Returns the digits read and the characters left. *)
Fixpoint digits_tail (l : list ascii) : Decimal.uint * list ascii :=
  match l with
  | [] => (Decimal.Nil, [])
  | c :: l' =>
      match digit_of c with
      | Some d => let (u, r) := digits_tail l' in (d u, r)
      | None =>
          if Ascii.eqb c "_" then
            match l' with
            | c' :: l'' =>
                match digit_of c' with
                | Some d => let (u, r) := digits_tail l'' in (d u, r)
                | None => (Decimal.Nil, l)
                end
            | [] => (Decimal.Nil, l)
            end
          else (Decimal.Nil, l)
      end
  end.

(** A non-empty group of digits at the head of [l]. *)
Definition digitpart (l : list ascii) : option (Decimal.uint * list ascii) :=
  match l with
  | c :: l' =>
      match digit_of c with
      | Some d => let (u, r) := digits_tail l' in Some (d u, r)
      | None => None
      end
  | [] => None
  end.

(** An optional sign at the head of [l]: is it a minus, and what follows. *)
Definition sign (l : list ascii) : bool * list ascii :=
  match l with
  | "-"%char :: l' => (true, l')
  | "+"%char :: l' => (false, l')
  | _ => (false, l)
  end.

(** The most digits an int may have when it is read from a string or
    written to one ([sys.get_int_max_str_digits()]). *)
Definition max_str_digits : nat := 4300.

(** The numbers of [max_str_digits] digits at most are those below
    [int_limit] in absolute value. *)
Definition int_limit : Z := 10 ^ Z.of_nat max_str_digits.

(** [int(s)] for a string: white space around an optionally signed group
    of digits, of [max_str_digits] digits at most; anything else is a
    ValueError. *)
Definition int_of_string (s : string) : pyres Z :=
  let (neg, l) := sign (strip_by is_number_space (chars s)) in
  match digitpart l with
  | Some (u, []) =>
      if (Decimal.nb_digits u <=? max_str_digits)%nat
      then Ok (if neg then - Z.of_uint u else Z.of_uint u)
      else Raise ValueError
  | _ => Raise ValueError
  end.

(** The integer part of a float, towards zero. *)
Definition truncate (x : float) : Z :=
  match x with
  | S754_finite negative m e =>
      let n := if 0 <=? e then Z.pos m * 2 ^ e else Z.pos m / 2 ^ (- e) in
      if negative then - n else n
  | _ => 0
  end.

(** [int(v)]. *)
Definition py_int (v : value) : pyres Z :=
  match v with
  | VStr s => int_of_string s
  | VInt z => Ok z
  | VBool b => Ok (if b then 1 else 0)
  | VFloat S754_nan => Raise ValueError
  | VFloat (S754_infinity _) => Raise OverflowError
  | VFloat x => Ok (truncate x)
  | VNone | VList _ => Raise TypeError
  end.

(** The decimal digits of a natural number, without leading zeros. *)
Definition digits (n : N) : string := NilEmpty.string_of_uint (N.to_uint n).

Fixpoint zeros (n : nat) : string :=
  match n with
  | O => ""
  | S n' => String "0" (zeros n')
  end.

(** [s.rjust(width, "0")]. *)
Definition zero_pad (width : nat) (s : string) : string :=
  zeros (width - String.length s) +:+ s.

(** [f"{n:03d}"]: at least three characters, the sign included, padded
    with zeros after the sign; a ValueError when the number has more than
    [max_str_digits] digits. *)
Definition format_03d (n : Z) : pyres string :=
  let d := digits (Z.abs_N n) in
  if (String.length d <=? max_str_digits)%nat
  then Ok (if n <? 0 then String "-" (zero_pad 2 d) else zero_pad 3 d)
  else Raise ValueError.

(** [str(n)] for a count or a row number, which stays far below the
    limit on the digits. *)
Definition str_of_Z (n : Z) : string :=
  if n <? 0 then String "-" (digits (Z.abs_N n)) else digits (Z.abs_N n).

(** *** [float(...)] *)

(** [number ::= [digitpart] "." digitpart | digitpart ["."]]: the digits
    before the point, those after it, and what follows. *)
Definition number_part (l : list ascii)
  : option (Decimal.uint * Decimal.uint * list ascii) :=
  match digitpart l with
  | Some (ip, "."%char :: r) =>
      match digitpart r with
      | Some (fp, r') => Some (ip, fp, r')
      | None => Some (ip, Decimal.Nil, r)
      end
  | Some (ip, r) => Some (ip, Decimal.Nil, r)
  | None =>
      match l with
      | "."%char :: r =>
          match digitpart r with
          | Some (fp, r') => Some (Decimal.Nil, fp, r')
          | None => None
          end
      | _ => None
      end
  end.

(** [exponent ::= ("e" | "E") [sign] digitpart], or nothing. *)
Definition exponent_part (l : list ascii) : option (Z * list ascii) :=
  match l with
  | [] => Some (0, [])
  | c :: r =>
      if Ascii.eqb c "e" || Ascii.eqb c "E" then
        let (neg, r') := sign r in
        match digitpart r' with
        | Some (u, r'') => Some (if neg then - Z.of_uint u else Z.of_uint u, r'')
        | None => None
        end
      else None
  end.

(** [float(s)] for a string: white space around an optionally signed
    numeral, infinity or nan; the numeral is rounded to the nearest float
    and overflows to an infinity. *)
Definition float_of_string (s : string) : pyres float :=
  let (neg, l) := sign (strip_by is_number_space (chars s)) in
  let word := of_chars (map lower_char l) in
  if String.eqb word "inf" || String.eqb word "infinity"
  then Ok (S754_infinity neg)
  else if String.eqb word "nan" then Ok S754_nan
  else
    match number_part l with
    | Some (ip, fp, r) =>
        match exponent_part r with
        | Some (e, []) =>
            let k := Z.of_nat (Decimal.nb_digits fp) in
            let m := Z.of_uint ip * 10 ^ k + Z.of_uint fp in
            Ok (decimal neg (Z.to_N m) (e - k))
        | _ => Raise ValueError
        end
    | None => Raise ValueError
    end.

(** [float(v)]. *)
Definition py_float (v : value) : pyres float :=
  match v with
  | VStr s => float_of_string s
  | VInt z => float_of_int z
  | VBool b => Ok (float_of_Z (if b then 1 else 0))
  | VFloat x => Ok x
  | VNone | VList _ => Raise TypeError
  end.

(** *** The two regular expressions of the validator *)

Fixpoint span {A} (p : A -> bool) (l : list A) : list A * list A :=
  match l with
  | x :: l' => if p x then let (a, b) := span p l' in (x :: a, b) else ([], l)
  | [] => ([], [])
  end.

(** The class [[a-zA-Z0-9]]. *)
Definition is_alnum (c : ascii) : bool := is_ascii_letter c || is_digit c.

(** The class [[a-zA-Z0-9._%+-]]. *)
Definition email_local_char (c : ascii) : bool :=
  is_alnum c || existsb (Ascii.eqb c) ["."; "_"; "%"; "+"; "-"]%char.

(** The class [[a-zA-Z0-9.-]]. *)
Definition email_domain_char (c : ascii) : bool :=
  is_alnum c || existsb (Ascii.eqb c) ["."; "-"]%char.

(** The domain part of the e-mail pattern against the whole of [l]: the
    letters at the end are the top-level name (two at least), a dot
    precedes them, and a non-empty run of domain characters precedes the
    dot. *)
Definition domain_match (l : list ascii) : bool :=
  let (tld, before) := span is_ascii_letter (rev l) in
  (2 <=? length tld)%nat &&
  match before with
  | "."%char :: name =>
      match name with [] => false | _ => forallb email_domain_char name end
  | _ => false
  end.

(** A dollar sign matches at the end of the string and before a newline
    that ends it. *)
Definition before_end (p : list ascii -> bool) (l : list ascii) : bool :=
  p l ||
  match rev l with
  | c :: l' => Ascii.eqb c (ascii_of_nat 10) && p (rev l')
  | [] => false
  end.

(** [re.match(pattern, s) is not None] for the pattern of
    [validate_email]: local part, at sign, domain. *)
Definition email_match (s : string) : bool :=
  let (local, rest) := span email_local_char (chars s) in
  match local, rest with
  | _ :: _, "@"%char :: domain => before_end domain_match domain
  | _, _ => false
  end.

(** The class of digits, white space, hyphen and parentheses. *)
Definition phone_char (c : ascii) : bool :=
  is_digit c || is_space c || existsb (Ascii.eqb c) ["-"; "("; ")"]%char.

(** [re.match(pattern, s) is not None] for the pattern of
    [validate_phone]: an optional plus and ten or more phone characters. *)
Definition phone_match (s : string) : bool :=
  let l := match chars s with "+"%char :: l' => l' | l => l end in
  before_end (fun l => forallb phone_char l && (10 <=? length l)%nat) l.

(** *** Searching in strings *)

(** [needle in hay] for two strings. *)
Fixpoint contains (needle hay : string) : bool :=
  String.prefix needle hay
  || match hay with
     | EmptyString => false
     | String _ hay' => contains needle hay'
     end.

(** [query in v]: a string is searched; a list of activities holds no
    string; anything else is not iterable. *)
Definition py_in (query : string) (v : value) : pyres bool :=
  match v with
  | VStr s => Ok (contains query s)
  | VList _ => Ok false
  | _ => Raise TypeError
  end.

(** [v.lower()]. *)
Definition py_lower (v : value) : pyres string :=
  match v with
  | VStr s => Ok (lower s)
  | _ => Raise AttributeError
  end.

(** [[x for x in l if p(x)]]: the first exception ends the comprehension. *)
Fixpoint comprehension {A} (p : A -> pyres bool) (l : list A) : pyres (list A) :=
  match l with
  | [] => Ok []
  | x :: l' =>
      keep ← p x;
      rest ← comprehension p l';
      Ok (if keep : bool then x :: rest else rest)
  end.

(** [for x in l: f(x)]: the first exception ends the loop. *)
Fixpoint for_each {A} (f : A -> pyres unit) (l : list A) : pyres unit :=
  match l with
  | [] => Ok tt
  | x :: l' => f x ≫= fun _ => for_each f l'
  end.

(** [sum(l)]: the values are added to 0 from left to right. *)
Fixpoint py_sum (acc : num) (l : list value) : pyres num :=
  match l with
  | [] => Ok acc
  | v :: l' =>
      match number v with
      | Some x => acc' ← num_add acc x; py_sum acc' l'
      | None => Raise TypeError
      end
  end.

(** [total / n] for the length [n] of a list, which is far below the
    largest float. *)
Definition div_count (total : num) (n : nat) : pyres float :=
  if (n =? 0)%nat then Raise ZeroDivisionError
  else
    match total with
    | NInt z => int_truediv z (Z.of_nat n)
    | NFloat x => Ok (fdiv x (float_of_Z (Z.of_nat n)))
    end.

(** [sum(l) / len(l)]. *)
Definition mean (l : list value) : pyres float :=
  total ← py_sum (NInt 0) l;
  div_count total (length l).

End Py.

Import Py.

(** A dict with string keys, as [csv.DictReader] yields for a row and as
    the validators receive. *)
Abbreviation dict := (gmap string value).

(** [d.get(k, default)] and [d[k]]. *)
Definition dict_get (d : dict) (k : string) (default : value) : value :=
  match d !! k with
  | Some v => v
  | None => default
  end.

Definition dict_item (d : dict) (k : string) : pyres value :=
  match d !! k with
  | Some v => Ok v
  | None => Raise KeyError
  end.

(** The dict of a list of keys and strings, the later entries first. *)
Definition dict_of (l : list (string * string)) : dict :=
  fold_right (fun kv d => <[fst kv := VStr (snd kv)]> d) ∅ l.

(** The dict of a list of items: the last of two equal keys wins. *)
Definition dict_of_items (items : list (string * value)) : dict :=
  fold_left (fun d kv => <[fst kv := snd kv]> d) items ∅.

(** The two readings of the clock the code formats: [strftime("%Y-%m-%d")]
    and [strftime("%Y-%m-%d %H:%M:%S")] of [datetime.now()]. *)
Record clock := {
  today : string;
  now : string
}.

(** A result message: a fixed text, or a prefix followed by the text of
    the exception that was caught. *)
Inductive message :=
| Text (s : string)
| ErrorText (prefix : string) (e : exn).

(** A CSV file as the [csv] module sees it: its records, each the list of
    its fields (an empty line is the empty record). *)
Abbreviation csv_records := (list (list string)).

(** Is the name among those of the list? *)
Definition mem (k : string) (l : list string) : bool :=
  existsb (String.eqb k) l.

(** [errors.append(msg)] when [bad]. *)
Definition append_if (bad : bool) (msg : string) (errors : list string)
  : list string :=
  if bad then errors ++ [msg] else errors.
Arguments append_if : simpl never.

(** What a file holds: nothing (there is no such file), something that is
    not JSON (as a file that was opened for writing and then left empty),
    or the list of dicts of a [json.dump]. *)
Inductive file_state :=
| Missing
| Corrupt
| Holds (data : list (list (string * value))).

(** The number read in an id after its first [n] characters, when the id
    is a string that holds one there. *)
Definition id_number (n : nat) (id : value) : option Z :=
  match id with
  | VStr s =>
      match int_of_string (slice_from n s) with
      | Ok k => Some k
      | Raise _ => None
      end
  | _ => None
  end.

(** ** The persistent variant: [models/student.py], [services/manager.py] *)

Module Persistent.

(** *** [class Student] *)

(** The attributes [__init__] sets, and the instance attributes that
    [setattr] created over a name of the class ([shadowed], latest first). *)
Record Student := {
  student_id : value;
  name : value;
  age : value;
  grade : value;
  email : value;
  performance : value;
  phone : value;
  course : value;
  department : value;
  enrollment_date : value;
  last_updated : value;
  shadowed : list (string * value)
}.

(** [Student.__init__]; the defaults [phone=""], [course=""],
    [department=""], [enrollment_date=None] are supplied by the callers. *)
Definition Student_init (clk : clock)
    (student_id name age grade email performance phone course department
     enrollment_date : value) : Student :=
  {| student_id := student_id; name := name; age := age; grade := grade;
     email := email; performance := performance; phone := phone;
     course := course; department := department;
     enrollment_date :=
       if truthy enrollment_date then enrollment_date else VStr (today clk);
     last_updated := VStr (now clk);
     shadowed := [] |}.

(** Does an instance attribute hide the method of that name? *)
Definition shadows (s : Student) (method : string) : bool :=
  mem method (map fst (shadowed s)).

(** [student.method(...)], [body] being what the method of the class
    does: the name is looked up on the instance first, and none of the
    values an instance attribute holds here can be called. *)
Definition call {A} (s : Student) (method : string) (body : pyres A) : pyres A :=
  if shadows s method then Raise TypeError else body.

(** The body of [to_dict], and the call [student.to_dict()]. *)
Definition to_dict (s : Student) : list (string * value) :=
  [("student_id", student_id s); ("name", name s); ("age", age s);
   ("grade", grade s); ("email", email s); ("performance", performance s);
   ("phone", phone s); ("course", course s); ("department", department s);
   ("enrollment_date", enrollment_date s); ("last_updated", last_updated s)].

Definition call_to_dict (s : Student) : pyres (list (string * value)) :=
  call s "to_dict" (Ok (to_dict s)).

(** [Student.from_dict(data)], a method of the class. *)
Definition from_dict (clk : clock) (data : dict) : pyres Student :=
  sid ← dict_item data "student_id";
  nm ← dict_item data "name";
  ag ← dict_item data "age";
  gr ← dict_item data "grade";
  em ← dict_item data "email";
  pf ← dict_item data "performance";
  Ok (Student_init clk sid nm ag gr em pf
        (dict_get data "phone" (VStr ""))
        (dict_get data "course" (VStr ""))
        (dict_get data "department" (VStr ""))
        (dict_get data "enrollment_date" VNone)).

(** The body of [calculate_status], and the call
    [student.calculate_status()]. *)
Definition calculate_status (s : Student) : pyres string :=
  b ← py_ge (performance s) (VInt 90);
  if b : bool then Ok "Excellent" else
  b ← py_ge (performance s) (VInt 75);
  if b : bool then Ok "Good" else
  b ← py_ge (performance s) (VInt 60);
  if b : bool then Ok "Average" else Ok "Needs Improvement".

Definition call_calculate_status (s : Student) : pyres string :=
  call s "calculate_status" (calculate_status s).

(** The names [hasattr] finds on a student: the eleven attributes of
    [__init__], the methods of the class, and what every object inherits
    (as CPython 3.11 lists it). *)
Definition field_names : list string :=
  ["student_id"; "name"; "age"; "grade"; "email"; "performance"; "phone";
   "course"; "department"; "enrollment_date"; "last_updated"].

Definition method_names : list string :=
  ["to_dict"; "from_dict"; "calculate_status"; "get_performance_color"].

Definition object_names : list string :=
  ["__class__"; "__delattr__"; "__dict__"; "__dir__"; "__doc__"; "__eq__";
   "__format__"; "__ge__"; "__getattribute__"; "__getstate__"; "__gt__";
   "__hash__"; "__init__"; "__init_subclass__"; "__le__"; "__lt__";
   "__module__"; "__ne__"; "__new__"; "__reduce__"; "__reduce_ex__";
   "__repr__"; "__setattr__"; "__sizeof__"; "__str__"; "__subclasshook__";
   "__weakref__"].

(** [hasattr(student, key)]. *)
Definition hasattr (s : Student) (key : string) : bool :=
  mem key field_names || mem key method_names || mem key object_names.

Definition set_field (s : Student) (key : string) (v : value) : Student :=
  let f k old := if String.eqb key k then v else old in
  {| student_id := f "student_id" (student_id s);
     name := f "name" (name s);
     age := f "age" (age s);
     grade := f "grade" (grade s);
     email := f "email" (email s);
     performance := f "performance" (performance s);
     phone := f "phone" (phone s);
     course := f "course" (course s);
     department := f "department" (department s);
     enrollment_date := f "enrollment_date" (enrollment_date s);
     last_updated := f "last_updated" (last_updated s);
     shadowed := shadowed s |}.

Definition set_shadowed (s : Student) (key : string) (v : value) : Student :=
  {| student_id := student_id s; name := name s; age := age s;
     grade := grade s; email := email s; performance := performance s;
     phone := phone s; course := course s; department := department s;
     enrollment_date := enrollment_date s; last_updated := last_updated s;
     shadowed :=
       (key, v) :: List.filter (fun kv => negb (String.eqb (fst kv) key)) (shadowed s) |}.

(** [vars(student).get(key)]: the instance attribute of that name. *)
Definition instance_attribute (s : Student) (key : string) : option value :=
  if String.eqb key "student_id" then Some (student_id s)
  else if String.eqb key "name" then Some (name s)
  else if String.eqb key "age" then Some (age s)
  else if String.eqb key "grade" then Some (grade s)
  else if String.eqb key "email" then Some (email s)
  else if String.eqb key "performance" then Some (performance s)
  else if String.eqb key "phone" then Some (phone s)
  else if String.eqb key "course" then Some (course s)
  else if String.eqb key "department" then Some (department s)
  else if String.eqb key "enrollment_date" then Some (enrollment_date s)
  else if String.eqb key "last_updated" then Some (last_updated s)
  else snd <$> find (fun kv => String.eqb (fst kv) key) (shadowed s).

(** [setattr(student, key, value)] for a key that [hasattr] found: an
    attribute of [__init__] is overwritten; [__class__] and [__dict__]
    accept a class and a dict only, [__weakref__] is read-only; any other
    name of the class is hidden by a new instance attribute. *)
Definition setattr (s : Student) (key : string) (v : value) : pyres Student :=
  if mem key field_names then Ok (set_field s key v)
  else if String.eqb key "__class__" || String.eqb key "__dict__"
  then Raise TypeError
  else if String.eqb key "__weakref__" then Raise AttributeError
  else Ok (set_shadowed s key v).

(** *** [class StudentValidator] *)

Definition validate_email (email : value) : pyres bool :=
  match email with
  | VStr s => Ok (email_match s)
  | _ => Raise TypeError
  end.

Definition validate_phone (phone : value) : pyres bool :=
  if truthy phone then
    match phone with
    | VStr s => Ok (phone_match s)
    | _ => Raise TypeError
    end
  else Ok true.

Definition validate_name (name : value) : pyres bool :=
  match name with
  | VStr s =>
      Ok ((2 <=? String.length (strip s))%nat
          && forallb (fun c => is_alpha c || is_space c) (chars s))
  | _ => Raise AttributeError
  end.

Definition validate_age (age : Z) : bool := (15 <=? age) && (age <=? 70).

Definition grades : list string := ["A"; "B"; "C"; "D"; "F"].

Definition validate_grade (grade : value) : bool :=
  existsb (fun g => py_eq grade (VStr g)) grades.

(** [0 <= performance <= 100]. *)
Definition validate_performance (performance : float) : bool :=
  match num_compare (NInt 0) (NFloat performance),
        num_compare (NFloat performance) (NInt 100) with
  | Some (Lt | Eq), Some (Lt | Eq) => true
  | _, _ => false
  end.

Definition msg_name : string :=
  "Full name must be at least 2 characters long and contain only letters and spaces".
Definition msg_age_range : string := "Age must be between 15 and 70 years".
Definition msg_age_number : string := "Age must be a valid number".
Definition msg_grade : string := "Grade must be one of: A, B, C, D, F".
Definition msg_email : string := "Please enter a valid email address format".
Definition msg_performance_range : string :=
  "Performance percentage must be between 0 and 100".
Definition msg_performance_number : string := "Performance must be a valid number".
Definition msg_phone : string := "Please enter a valid phone number format".
Definition msg_course : string := "Course name must be at least 2 characters long".

(** The seven blocks of [validate_student_data], each taking the list of
    errors so far and returning it with its own message appended, if any. *)
Definition check_name (d : dict) (errors : list string) : pyres (list string) :=
  ok ← validate_name (dict_get d "name" (VStr ""));
  Ok (append_if (negb ok) msg_name errors).

Definition check_age (d : dict) (errors : list string) : pyres (list string) :=
  except_ValueError
    (age ← py_int (dict_get d "age" (VInt 0));
     Ok (append_if (negb (validate_age age)) msg_age_range errors))
    (Ok (errors ++ [msg_age_number])).

Definition check_grade (d : dict) (errors : list string) : pyres (list string) :=
  Ok (append_if (negb (validate_grade (dict_get d "grade" (VStr "")))) msg_grade errors).

Definition check_email (d : dict) (errors : list string) : pyres (list string) :=
  ok ← validate_email (dict_get d "email" (VStr ""));
  Ok (append_if (negb ok) msg_email errors).

Definition check_performance (d : dict) (errors : list string)
  : pyres (list string) :=
  except_ValueError
    (performance ← py_float (dict_get d "performance" (VInt 0));
     Ok (append_if (negb (validate_performance performance))
           msg_performance_range errors))
    (Ok (errors ++ [msg_performance_number])).

Definition check_phone (d : dict) (errors : list string) : pyres (list string) :=
  let phone := dict_get d "phone" (VStr "") in
  if truthy phone then
    ok ← validate_phone phone;
    Ok (append_if (negb ok) msg_phone errors)
  else Ok errors.

Definition check_course (d : dict) (errors : list string) : pyres (list string) :=
  let course := dict_get d "course" (VStr "") in
  if negb (truthy course) then Ok (errors ++ [msg_course])
  else
    match course with
    | VStr s => Ok (append_if (String.length (strip s) <? 2)%nat msg_course errors)
    | _ => Raise AttributeError
    end.

Definition validate_student_data (student_data : dict) : pyres (list string) :=
  errors ← check_name student_data [];
  errors ← check_age student_data errors;
  errors ← check_grade student_data errors;
  errors ← check_email student_data errors;
  errors ← check_performance student_data errors;
  errors ← check_phone student_data errors;
  check_course student_data errors.

(** *** [class StudentManager] *)

(** The manager's list of students, and what its JSON file holds. *)
Record StudentManager := {
  students : list Student;
  data_file : file_state
}.

Definition with_students (m : StudentManager) (l : list Student)
  : StudentManager :=
  {| students := l; data_file := data_file m |}.

(** [[student.to_dict() for student in students]]. *)
Fixpoint to_dicts (l : list Student) : pyres (list (list (string * value))) :=
  match l with
  | [] => Ok []
  | s :: l' =>
      d ← call_to_dict s;
      rest ← to_dicts l';
      Ok (d :: rest)
  end.

(** [save_students].  [io_ok] tells whether the file can be opened for
    writing.  When it cannot, the file keeps what it held; when it can,
    it is emptied first, the dicts are built and written, and an
    exception while they are built leaves it empty.  An exception is
    swallowed and [False] returned. *)
Definition save_students (io_ok : bool) (m : StudentManager)
  : StudentManager * bool :=
  if io_ok then
    match to_dicts (students m) with
    | Ok data => ({| students := students m; data_file := Holds data |}, true)
    | Raise _ => ({| students := students m; data_file := Corrupt |}, false)
    end
  else (m, false).

(** The file holds what the list holds. *)
Definition in_sync (m : StudentManager) : Prop :=
  data_file m = Holds (map to_dict (students m)).

(** [any(s.student_id == student_id for s in students)]. *)
Definition id_present (l : list Student) (id : value) : bool :=
  existsb (fun s => py_eq (student_id s) id) l.

(** No two students of the list have equal ids. *)
Fixpoint unique_ids (l : list Student) : bool :=
  match l with
  | [] => true
  | s :: l' => negb (id_present l' (student_id s)) && unique_ids l'
  end.

Definition add_student (io_ok : bool) (m : StudentManager) (student : Student)
  : StudentManager * (bool * message) :=
  if id_present (students m) (student_id student)
  then (m, (false, Text "Student ID already exists"))
  else
    let (m', saved) := save_students io_ok (with_students m (students m ++ [student])) in
    if saved then (m', (true, Text "Student added successfully"))
    else (with_students m' (removelast (students m')),
          (false, Text "Failed to save student data")).

(** The loop over [kwargs.items()]: the student as the loop leaves it, and
    the exception that stopped it, if any. *)
Fixpoint apply_kwargs (s : Student) (kwargs : list (string * value))
  : Student * option exn :=
  match kwargs with
  | [] => (s, None)
  | (key, v) :: rest =>
      if hasattr s key then
        match setattr s key v with
        | Ok s' => apply_kwargs s' rest
        | Raise e => (s, Some e)
        end
      else apply_kwargs s rest
  end.

(** The entries of [kwargs] whose name [hasattr] finds. *)
Definition known (s : Student) (kwargs : list (string * value))
  : list (string * value) :=
  List.filter (fun kv => hasattr s (fst kv)) kwargs.

(** The keywords a call of [update_student] can pass: [self] and
    [student_id] are the two parameters of the method, and a call that
    names one of them as a keyword is a TypeError before the body runs. *)
Definition keywords (kwargs : list (string * value)) : bool :=
  negb (mem "self" (map fst kwargs)) && negb (mem "student_id" (map fst kwargs)).

(** The position of the first student whose id equals [id]. *)
Fixpoint find_student (l : list Student) (id : value) : option nat :=
  match l with
  | [] => None
  | s :: l' =>
      if py_eq (student_id s) id then Some O
      else S <$> find_student l' id
  end.

Definition set_last_updated (s : Student) (v : value) : Student :=
  set_field s "last_updated" v.

(** The body of [update_student], [kwargs] being the keywords of the
    call in their order.  The student is changed in place, so an
    exception out of [setattr] leaves the attributes set before it in the
    list. *)
Definition update_student (io_ok : bool) (clk : clock) (m : StudentManager)
    (id : value) (kwargs : list (string * value))
  : StudentManager * pyres (bool * message) :=
  match find_student (students m) id with
  | None => (m, Ok (false, Text "Student not found"))
  | Some i =>
      match students m !! i with
      | None => (m, Ok (false, Text "Student not found"))
      | Some student =>
          match apply_kwargs student kwargs with
          | (student', Some e) =>
              (with_students m (<[i := student']> (students m)), Raise e)
          | (student', None) =>
              let updated := set_last_updated student' (VStr (now clk)) in
              let (m', saved) :=
                save_students io_ok
                  (with_students m (<[i := updated]> (students m))) in
              if saved then (m', Ok (true, Text "Student updated successfully"))
              else (m', Ok (false, Text "Failed to save updated data"))
          end
      end
  end.

Definition delete_student (io_ok : bool) (m : StudentManager) (id : value)
  : StudentManager * (bool * message) :=
  match find_student (students m) id with
  | None => (m, (false, Text "Student not found"))
  | Some i =>
      let (m', saved) :=
        save_students io_ok (with_students m (delete i (students m))) in
      if saved then (m', (true, Text "Student deleted successfully"))
      else (m', (false, Text "Failed to save after deletion"))
  end.

Definition get_student (m : StudentManager) (id : value) : option Student :=
  find (fun s => py_eq (student_id s) id) (students m).

(** [x not in ids], by the equality of values.  Python tries the identity
    of the two objects before their equality; the two differ on a nan
    only, which is not equal to itself. *)
Definition not_in (x : value) (ids : list value) : bool :=
  negb (existsb (py_eq x) ids).

Definition bulk_delete_students (io_ok : bool) (m : StudentManager)
    (student_ids : list value) : StudentManager * (bool * message) :=
  let initial_count := length (students m) in
  let kept := List.filter (fun s => not_in (student_id s) student_ids) (students m) in
  let deleted_count := (initial_count - length kept)%nat in
  let (m', saved) := save_students io_ok (with_students m kept) in
  if saved
  then (m', (true, Text ("Successfully deleted "
                          +:+ str_of_Z (Z.of_nat deleted_count) +:+ " students")))
  else (m', (false, Text "Failed to save after bulk deletion")).

(** [get_next_student_id].  Slicing anything but a string, or reading an
    int in what the slice gives, raises a TypeError, which the [except
    ValueError] does not catch. *)
Fixpoint id_numbers (l : list Student) : pyres (list Z) :=
  match l with
  | [] => Ok []
  | s :: l' =>
      match student_id s with
      | VStr id =>
          match int_of_string (slice_from 3 id) with
          | Ok num => cons num <$> id_numbers l'
          | Raise ValueError => id_numbers l'
          | Raise e => Raise e
          end
      | _ => Raise TypeError
      end
  end.

(** [max(numbers)] for a non-empty list. *)
Definition max_list (x : Z) (l : list Z) : Z := fold_left Z.max l x.

Definition get_next_student_id (m : StudentManager) : pyres string :=
  match students m with
  | [] => Ok "STU001"
  | _ =>
      numbers ← id_numbers (students m);
      let next_num :=
        match numbers with
        | [] => 1
        | x :: l => max_list x l + 1
        end in
      text ← format_03d next_num;
      Ok ("STU" +:+ text)
  end.

(** *** Statistics *)

(** [filter_recently_added]: [cutoff_date] is the formatted date [days]
    days before now. *)
Definition filter_recently_added (cutoff_date : string) (l : list Student)
  : pyres (list Student) :=
  comprehension (fun s => py_ge (enrollment_date s) (VStr cutoff_date)) l.

(** A dict key must be hashable; a list is not. *)
Definition hashable (v : value) : pyres unit :=
  match v with
  | VList _ => Raise TypeError
  | _ => Ok tt
  end.

(** The local variables of [get_statistics] that the trend depends on.
    The other entries of the returned dict are left out; the exceptions
    their computation can raise are kept. *)
Record statistics := {
  total_students : nat;
  avg_age : float;
  avg_performance : float;
  recent_students : list Student;
  performance_trend : list string
}.

Definition trend_label (recent_avg avg_performance : float) : string :=
  if fgt recent_avg avg_performance then "improving"
  else if flt recent_avg avg_performance then "declining"
  else "stable".

(** [get_statistics]; [None] is the empty dict returned for an empty
    store, [cutoff_date] the formatted date thirty days before now. *)
Definition get_statistics (cutoff_date : string) (m : StudentManager)
  : pyres (option statistics) :=
  match students m with
  | [] => Ok None
  | _ =>
      let total := length (students m) in
      avg_age ← mean (map age (students m));
      avg_performance ← mean (map performance (students m));
      for_each (fun s => call_calculate_status s ≫= fun _ => Ok tt) (students m);;
      for_each (fun s =>
          hashable (if truthy (course s) then course s else VStr "Undeclared");;
          hashable (if truthy (department s) then department s
                    else VStr "Undeclared"))
        (students m);;
      recent ← filter_recently_added cutoff_date (students m);
      trend ←
        match recent with
        | [] => Ok []
        | _ =>
            recent_avg ← mean (map performance recent);
            Ok [trend_label recent_avg avg_performance]
        end;
      Ok (Some {| total_students := total;
                  avg_age := avg_age;
                  avg_performance := avg_performance;
                  recent_students := recent;
                  performance_trend := trend |})
  end.

(** *** CSV export and import *)

Section CsvExport.

(** [str(v)] as the csv writer applies it to a field that is neither
    None nor a string; the text of a number is not part of this model. *)
Variable py_str : value -> string.

Definition csv_field (v : value) : string :=
  match v with
  | VNone => ""
  | VStr s => s
  | other => py_str other
  end.

(** The records [writer.writerow(student.to_dict())] writes for the
    students of the list, and the exception that ends the loop, if any. *)
Fixpoint write_rows (l : list Student) : csv_records * option exn :=
  match l with
  | [] => ([], None)
  | s :: l' =>
      match call_to_dict s with
      | Raise e => ([], Some e)
      | Ok d =>
          let (rows, failure) := write_rows l' in
          (map (fun kv => csv_field (snd kv)) d :: rows, failure)
      end
  end.

(** [export_to_csv]: the records written to [filename], if its directory
    could be made and the file opened ([io_ok]; a file name without a
    directory is such a failure, [os.makedirs] refusing the empty path),
    and the result.  The header is taken from the first student, so
    nothing is written for an empty list. *)
Definition export_to_csv (io_ok : bool) (filename : string) (m : StudentManager)
  : option csv_records * (bool * message) :=
  let done := (true, Text ("Data exported successfully to " +:+ filename)) in
  if io_ok then
    match students m with
    | [] => (Some [], done)
    | first :: _ =>
        match call_to_dict first with
        | Raise e => (Some [], (false, ErrorText "Error exporting data: " e))
        | Ok d =>
            let (rows, failure) := write_rows (students m) in
            (Some (map fst d :: rows),
             match failure with
             | None => done
             | Some e => (false, ErrorText "Error exporting data: " e)
             end)
        end
    end
  else (None, (false, ErrorText "Error exporting data: " OSError)).

End CsvExport.

(** The dict [csv.DictReader] builds for a record: the field names zipped
    with the fields, None for the names the record is too short for (the
    fields beyond the names go under the key None, which no string
    reaches). *)
Definition row_dict (fieldnames row : list string) : dict :=
  let cells :=
    map VStr row ++ repeat VNone (length fieldnames - length row)%nat in
  fold_left (fun d kv => <[fst kv := snd kv]> d) (zip fieldnames cells) ∅.

Definition is_empty_record (r : list string) : bool :=
  match r with [] => true | _ => false end.

(** [csv.DictReader(file)]: the first record names the fields, the empty
    records after it are skipped. *)
Definition DictReader (f : csv_records) : list dict :=
  match f with
  | [] => []
  | fieldnames :: records =>
      map (row_dict fieldnames)
        (List.filter (fun r => negb (is_empty_record r)) records)
  end.

(** What the loop of [import_from_csv] has built so far. *)
Record import_state := {
  imp_students : list Student;
  imported_count : Z;
  errors : list string
}.

Definition row_error (i : Z) (validation_errors : list string) : string :=
  "Row " +:+ str_of_Z i +:+ ": " +:+ join ", " validation_errors.

(** One turn of the loop, for the row numbered [i]. *)
Definition import_row (clk : clock) (i : Z) (row : dict) (st : import_state)
  : pyres import_state :=
  validation_errors ← validate_student_data row;
  match validation_errors with
  | _ :: _ =>
      Ok {| imp_students := imp_students st;
            imported_count := imported_count st;
            errors := errors st ++ [row_error i validation_errors] |}
  | [] =>
      student ← from_dict clk row;
      if negb (id_present (imp_students st) (student_id student))
      then Ok {| imp_students := imp_students st ++ [student];
                 imported_count := imported_count st + 1;
                 errors := errors st |}
      else Ok st
  end.

(** [for i, row in enumerate(reader, i): ...]: the state the loop ends in,
    and the exception that ended it, if any. *)
Fixpoint import_rows (clk : clock) (i : Z) (rows : list dict) (st : import_state)
  : import_state * option exn :=
  match rows with
  | [] => (st, None)
  | row :: rows' =>
      match import_row clk i row st with
      | Ok st' => import_rows clk (i + 1) rows' st'
      | Raise e => (st, Some e)
      end
  end.

Definition import_message (imported_count : Z) (errors : list string) : string :=
  let message :=
    "Successfully imported " +:+ str_of_Z imported_count +:+ " students" in
  match errors with
  | [] => message
  | _ => message +:+ ". " +:+ str_of_Z (Z.of_nat (length errors))
           +:+ " rows had errors"
  end.

(** [import_from_csv]; [file] is what the file holds, [None] when it
    cannot be opened.  The students appended before an exception stay in
    the list. *)
Definition import_from_csv (io_ok : bool) (clk : clock)
    (file : option csv_records) (m : StudentManager)
  : StudentManager * (bool * message * list string) :=
  match file with
  | None => (m, (false, ErrorText "Error importing data: " OSError, []))
  | Some f =>
      let start :=
        {| imp_students := students m; imported_count := 0; errors := [] |} in
      match import_rows clk 2 (DictReader f) start with
      | (st, Some e) =>
          (with_students m (imp_students st),
           (false, ErrorText "Error importing data: " e, []))
      | (st, None) =>
          let (m', saved) :=
            save_students io_ok (with_students m (imp_students st)) in
          if saved
          then (m', (true, Text (import_message (imported_count st) (errors st)),
                     errors st))
          else (m', (false, Text "Failed to save imported data", errors st))
      end
  end.

(** *** Searching *)

(** The condition of [search_students], for a query in lower case: the
    fields are tried in turn and the first that holds the query decides. *)
Definition matches (query : string) (s : Student) : pyres bool :=
  name ← py_lower (name s);
  if contains query name then Ok true else
  email ← py_lower (email s);
  if contains query email then Ok true else
  course ← py_lower (course s);
  if contains query course then Ok true else
  department ← py_lower (department s);
  if contains query department then Ok true else
  py_in query (phone s).

Definition search_students (query : string) (m : StudentManager)
  : pyres (list Student) :=
  let query := lower query in
  comprehension (matches query) (students m).

End Persistent.

(** ** The in-memory variant: [ui/app.py] *)

Module Advanced.

(** *** [class Student] *)

Record Student := {
  student_id : value;
  name : value;
  age : value;
  grade : value;
  email : value;
  performance : value;
  phone : value;
  course : value;
  department : value;
  enrollment_date : value;
  attendance : value;
  last_updated : value;
  activities : value;
  shadowed : list (string * value)
}.

(** [Student.__init__]; the defaults [phone=""], [course=""],
    [department=""], [enrollment_date=""], [attendance=95.0] are supplied
    by the callers. *)
Definition Student_init (clk : clock)
    (student_id name age grade email performance phone course department
     enrollment_date attendance : value) : Student :=
  {| student_id := student_id; name := name; age := age; grade := grade;
     email := email; performance := performance; phone := phone;
     course := course; department := department;
     enrollment_date := enrollment_date; attendance := attendance;
     last_updated := VStr (now clk);
     activities := VList [];
     shadowed := [] |}.

(** Does an instance attribute hide the method of that name? *)
Definition shadows (s : Student) (method : string) : bool :=
  mem method (map fst (shadowed s)).

(** [student.method(...)], [body] being what the method of the class
    does. *)
Definition call {A} (s : Student) (method : string) (body : pyres A) : pyres A :=
  if shadows s method then Raise TypeError else body.

Definition calculate_status (s : Student) : pyres string :=
  b ← py_ge (performance s) (VInt 90);
  if b : bool then Ok " Excellent" else
  b ← py_ge (performance s) (VInt 75);
  if b : bool then Ok " Good" else
  b ← py_ge (performance s) (VInt 60);
  if b : bool then Ok " Average" else Ok " Needs Improvement".

Definition call_calculate_status (s : Student) : pyres string :=
  call s "calculate_status" (calculate_status s).

Definition calculate_attendance_status (s : Student) : pyres string :=
  b ← py_ge (attendance s) (VInt 95);
  if b : bool then Ok " Excellent" else
  b ← py_ge (attendance s) (VInt 85);
  if b : bool then Ok " Good" else
  b ← py_ge (attendance s) (VInt 75);
  if b : bool then Ok " Average" else Ok " Poor".

Definition call_calculate_attendance_status (s : Student) : pyres string :=
  call s "calculate_attendance_status" (calculate_attendance_status s).

Definition field_names : list string :=
  ["student_id"; "name"; "age"; "grade"; "email"; "performance"; "phone";
   "course"; "department"; "enrollment_date"; "attendance"; "last_updated";
   "activities"].

Definition method_names : list string :=
  ["calculate_status"; "calculate_attendance_status"; "add_activity"; "to_dict"].

(** [hasattr(student, key)]. *)
Definition hasattr (s : Student) (key : string) : bool :=
  mem key field_names || mem key method_names
  || mem key Persistent.object_names.

Definition set_field (s : Student) (key : string) (v : value) : Student :=
  let f k old := if String.eqb key k then v else old in
  {| student_id := f "student_id" (student_id s);
     name := f "name" (name s);
     age := f "age" (age s);
     grade := f "grade" (grade s);
     email := f "email" (email s);
     performance := f "performance" (performance s);
     phone := f "phone" (phone s);
     course := f "course" (course s);
     department := f "department" (department s);
     enrollment_date := f "enrollment_date" (enrollment_date s);
     attendance := f "attendance" (attendance s);
     last_updated := f "last_updated" (last_updated s);
     activities := f "activities" (activities s);
     shadowed := shadowed s |}.

Definition set_shadowed (s : Student) (key : string) (v : value) : Student :=
  {| student_id := student_id s; name := name s; age := age s;
     grade := grade s; email := email s; performance := performance s;
     phone := phone s; course := course s; department := department s;
     enrollment_date := enrollment_date s; attendance := attendance s;
     last_updated := last_updated s; activities := activities s;
     shadowed :=
       (key, v)
         :: List.filter (fun kv => negb (String.eqb (fst kv) key)) (shadowed s) |}.

(** [setattr(student, key, value)] for a key that [hasattr] found. *)
Definition setattr (s : Student) (key : string) (v : value) : pyres Student :=
  if mem key field_names then Ok (set_field s key v)
  else if String.eqb key "__class__" || String.eqb key "__dict__"
  then Raise TypeError
  else if String.eqb key "__weakref__" then Raise AttributeError
  else Ok (set_shadowed s key v).

(** *** [class StudentValidator] *)

Definition msg_name : string := "Name must be at least 2 characters long".
Definition msg_age : string := "Age must be between 15 and 70".
Definition msg_email : string := "Valid email address is required".
Definition msg_performance : string :=
  "Academic MentorDesk score must be between 0 and 100".
Definition msg_course : string := "Course must be at least 2 characters long".
Definition msg_attendance : string := "Attendance must be between 0 and 100".

(** [len(v.strip()) < 2]. *)
Definition stripped_short (v : value) : pyres bool :=
  match v with
  | VStr s => Ok (String.length (strip s) <? 2)%nat
  | _ => Raise AttributeError
  end.

(** [v < lo or v > hi]. *)
Definition outside (v : value) (lo hi : Z) : pyres bool :=
  below ← py_lt v (VInt lo);
  if below : bool then Ok true else py_gt v (VInt hi).

(** ['@' not in v]: a string is searched, a list has no such element, a
    number is not iterable. *)
Definition no_at_sign (v : value) : pyres bool :=
  match v with
  | VStr s => Ok (negb (contains_char "@" s))
  | VList _ => Ok true
  | _ => Raise TypeError
  end.

(** [not data.get(key) or test(data[key])]. *)
Definition missing_or (d : dict) (key : string) (test : value -> pyres bool)
  : pyres bool :=
  let v := dict_get d key VNone in
  if negb (truthy v) then Ok true else test v.

Definition validate_student_data (data : dict) : pyres (list string) :=
  let errors := [] in
  bad ← missing_or data "name" stripped_short;
  let errors := append_if bad msg_name errors in
  bad ← missing_or data "age" (fun v => outside v 15 70);
  let errors := append_if bad msg_age errors in
  bad ← missing_or data "email" no_at_sign;
  let errors := append_if bad msg_email errors in
  bad ← missing_or data "performance" (fun v => outside v 0 100);
  let errors := append_if bad msg_performance errors in
  bad ← missing_or data "course" stripped_short;
  let errors := append_if bad msg_course errors in
  bad ←
    (let v := dict_get data "attendance" VNone in
     if truthy v then outside v 0 100 else Ok false);
  Ok (append_if bad msg_attendance errors).

(** *** [class AdvancedStudentManager] *)

(** The local variables of [get_statistics] that the trend depends on and
    the trend itself; the other entries of the dict are left out. *)
Record statistics := {
  total_students : nat;
  average_performance : float;
  average_age : float;
  average_attendance : float;
  performance_trend : string
}.

(** [cache_stats] is None, the empty dict ([Some None]) or a dict of
    statistics; [cache_time] is None or a reading of [time.time()]. *)
Record AdvancedStudentManager := {
  students : list Student;
  cache_stats : option (option statistics);
  cache_time : option float
}.

Definition with_students (m : AdvancedStudentManager) (l : list Student)
  : AdvancedStudentManager :=
  {| students := l; cache_stats := cache_stats m; cache_time := cache_time m |}.

Definition clear_cache (m : AdvancedStudentManager) : AdvancedStudentManager :=
  {| students := students m; cache_stats := None; cache_time := None |}.

(** [int(s.student_id[2:]) for s in students]. *)
Fixpoint id_numbers (l : list Student) : pyres (list Z) :=
  match l with
  | [] => Ok []
  | s :: l' =>
      match student_id s with
      | VStr id =>
          num ← int_of_string (slice_from 2 id);
          cons num <$> id_numbers l'
      | _ => Raise TypeError
      end
  end.

Definition get_next_student_id (m : AdvancedStudentManager) : pyres string :=
  match students m with
  | [] => Ok "ST001"
  | _ =>
      numbers ← id_numbers (students m);
      match numbers with
      | [] => Raise ValueError
      | x :: l =>
          text ← format_03d (Persistent.max_list x l + 1);
          Ok ("ST" +:+ text)
      end
  end.

(** Is a student with the id [id] in the list? *)
Definition has_id (l : list Student) (id : value) : bool :=
  existsb (fun s => py_eq (student_id s) id) l.

(** No two students of the list have equal ids. *)
Fixpoint unique_ids (l : list Student) : bool :=
  match l with
  | [] => true
  | s :: l' => negb (has_id l' (student_id s)) && unique_ids l'
  end.

Definition add_student (m : AdvancedStudentManager) (student : Student)
  : AdvancedStudentManager * (bool * message) :=
  (clear_cache (with_students m (students m ++ [student])),
   (true, Text "Student added successfully")).

Definition get_student (m : AdvancedStudentManager) (id : value)
  : option Student :=
  find (fun s => py_eq (student_id s) id) (students m).

Fixpoint find_student (l : list Student) (id : value) : option nat :=
  match l with
  | [] => None
  | s :: l' =>
      if py_eq (student_id s) id then Some O
      else S <$> find_student l' id
  end.

Fixpoint apply_kwargs (s : Student) (kwargs : list (string * value))
  : Student * option exn :=
  match kwargs with
  | [] => (s, None)
  | (key, v) :: rest =>
      if hasattr s key then
        match setattr s key v with
        | Ok s' => apply_kwargs s' rest
        | Raise e => (s, Some e)
        end
      else apply_kwargs s rest
  end.

(** The body of [update_student]: the student found by [get_student] is
    changed in place; an exception is caught and reported. *)
Definition update_student (clk : clock) (m : AdvancedStudentManager)
    (id : value) (kwargs : list (string * value))
  : AdvancedStudentManager * (bool * message) :=
  match find_student (students m) id with
  | None => (m, (false, Text "Student not found"))
  | Some i =>
      match students m !! i with
      | None => (m, (false, Text "Student not found"))
      | Some student =>
          match apply_kwargs student kwargs with
          | (student', Some e) =>
              (with_students m (<[i := student']> (students m)),
               (false, ErrorText "Error updating student: " e))
          | (student', None) =>
              let updated := set_field student' "last_updated" (VStr (now clk)) in
              (clear_cache (with_students m (<[i := updated]> (students m))),
               (true, Text "Student updated successfully"))
          end
      end
  end.

Definition delete_student (m : AdvancedStudentManager) (id : value)
  : AdvancedStudentManager * (bool * message) :=
  match get_student m id with
  | None => (m, (false, Text "Student not found"))
  | Some _ =>
      (clear_cache
         (with_students m
            (List.filter (fun s => negb (py_eq (student_id s) id)) (students m))),
       (true, Text "Student deleted successfully"))
  end.

Definition bulk_delete_students (m : AdvancedStudentManager)
    (student_ids : list value) : AdvancedStudentManager * (bool * message) :=
  let initial_count := length (students m) in
  let kept :=
    List.filter (fun s => Persistent.not_in (student_id s) student_ids)
      (students m) in
  let deleted_count := (initial_count - length kept)%nat in
  (clear_cache (with_students m kept),
   (true, Text ("Successfully deleted "
                 +:+ str_of_Z (Z.of_nat deleted_count) +:+ " students"))).

(** *** Statistics *)

(** The performance trend: the last student's performance against the
    first's, when there are two students at least. *)
Definition trend_of (performances : list value) : pyres string :=
  match performances with
  | first :: _ :: _ =>
      let final := List.last performances first in
      up ← py_gt final first;
      if up : bool then Ok "Improving" else
      down ← py_lt final first;
      if down : bool then Ok "Declining" else Ok "Stable"
  | _ => Ok "Stable"
  end.

(** The statistics of a non-empty list of students. *)
Definition compute_statistics (l : list Student) : pyres statistics :=
  let total_students := length l in
  average_performance ← mean (map performance l);
  average_age ← mean (map age l);
  average_attendance ← mean (map attendance l);
  for_each (fun s =>
      call_calculate_status s;;
      call_calculate_attendance_status s;;
      Persistent.hashable (grade s);;
      Persistent.hashable (course s);;
      Persistent.hashable (department s))
    l;;
  performance_trend ← trend_of (map performance l);
  Ok {| total_students := total_students;
        average_performance := average_performance;
        average_age := average_age;
        average_attendance := average_attendance;
        performance_trend := performance_trend |}.

(** Is the cached result to be returned at [current_time]? *)
Definition cache_valid (current_time : float) (m : AdvancedStudentManager) : bool :=
  match cache_stats m, cache_time m with
  | Some (Some _), Some t =>
      negb (is_zero t)
      && match num_compare (NFloat (fsub current_time t)) (NInt 30) with
         | Some Lt => true
         | _ => false
         end
  | _, _ => false
  end.

(** [get_statistics] at the reading [current_time] of [time.time()];
    [None] is the empty dict.  An exception leaves the cache as it was. *)
Definition get_statistics (current_time : float) (m : AdvancedStudentManager)
  : AdvancedStudentManager * pyres (option statistics) :=
  if cache_valid current_time m
  then (m, Ok (default None (cache_stats m)))
  else
    let computed :=
      match students m with
      | [] => Ok None
      | l => Some <$> compute_statistics l
      end in
    match computed with
    | Ok stats =>
        ({| students := students m;
            cache_stats := Some stats;
            cache_time := Some current_time |}, Ok stats)
    | Raise e => (m, Raise e)
    end.

(** The correlation entry: the int 0, or the float numpy computes. *)
Inductive correlation :=
| CorrZero
| CorrFloat (x : float).

(** The sum of a list of floats, from left to right.  The order in which
    numpy adds is its own and can change the last bits of a sum; it is
    not part of this model. *)
Definition fsum (l : list float) : float := fold_left fadd l (S754_zero false).

Definition fmean (l : list float) : float :=
  fdiv (fsum l) (float_of_Z (Z.of_nat (length l))).

(** The deviations from the mean. *)
Definition deviations (l : list float) : list float :=
  let m := fmean l in map (fun x => fsub x m) l.

Definition dot (xs ys : list float) : float := fsum (zip_with fmul xs ys).

(** [np.clip(x, -1, 1)]; a nan stays. *)
Definition clip (x : float) : float :=
  if flt x (float_of_Z (-1)) then float_of_Z (-1)
  else if fgt x (float_of_Z 1) then float_of_Z 1
  else x.

(** [np.corrcoef(xs, ys)[0, 1]]: the covariance, which is the dot product
    of the deviations times [1 / (n - 1)], divided by the two standard
    deviations in turn, and clipped.  A standard deviation of zero makes
    the division 0/0, a nan. *)
Definition corrcoef (xs ys : list float) : float :=
  let dx := deviations xs in
  let dy := deviations ys in
  let scale := fdiv (float_of_Z 1) (float_of_Z (Z.of_nat (length xs) - 1)) in
  let cxy := fmul (dot dx dy) scale in
  let cxx := fmul (dot dx dx) scale in
  let cyy := fmul (dot dy dy) scale in
  clip (fdiv (fdiv cxy (fsqrt cxx)) (fsqrt cyy)).

(** The numbers of a list of values, a TypeError if one is not a number. *)
Fixpoint numbers (l : list value) : pyres (list num) :=
  match l with
  | [] => Ok []
  | v :: l' =>
      match number v with
      | Some x => cons x <$> numbers l'
      | None => Raise TypeError
      end
  end.

(** The array of floats numpy makes of a list of numbers. *)
Fixpoint floats (l : list num) : pyres (list float) :=
  match l with
  | [] => Ok []
  | a :: l' =>
      x ← to_float a;
      rest ← floats l';
      Ok (x :: rest)
  end.

(** [x >= threshold] for a number and an int. *)
Definition at_least (threshold : Z) (a : num) : bool :=
  match num_compare a (NInt threshold) with
  | Some (Gt | Eq) => true
  | _ => false
  end.

(** [(sum(1 for x in l if x >= threshold) / len(l)) * 100]. *)
Definition rate (threshold : Z) (l : list num) : pyres float :=
  let hits := length (List.filter (at_least threshold) l) in
  share ← num_truediv (NInt (Z.of_nat hits)) (NInt (Z.of_nat (length l)));
  Ok (fmul share (float_of_Z 100)).

(** The entries of [get_performance_analysis] that are rates, means and
    the correlation (maximum, minimum and median are left out). *)
Record analysis := {
  pass_rate : float;
  excellence_rate : float;
  avg_attendance : float;
  correlation_entry : correlation
}.

(** [get_performance_analysis]; [None] is the empty dict of an empty
    store. *)
Definition get_performance_analysis (m : AdvancedStudentManager)
  : pyres (option analysis) :=
  match students m with
  | [] => Ok None
  | l =>
      performances ← numbers (map performance l);
      attendances ← numbers (map attendance l);
      pass_rate ← rate 60 performances;
      excellence_rate ← rate 90 performances;
      avg_attendance ← mean (map attendance l);
      correlation ←
        (if (1 <? length performances)%nat
         then xs ← floats performances;
              ys ← floats attendances;
              Ok (CorrFloat (corrcoef xs ys))
         else Ok CorrZero);
      Ok (Some {| pass_rate := pass_rate;
                  excellence_rate := excellence_rate;
                  avg_attendance := avg_attendance;
                  correlation_entry := correlation |})
  end.

(** The correlation entry of the analysis, when there is one. *)
Definition correlation_of (m : AdvancedStudentManager)
  : pyres (option correlation) :=
  match get_performance_analysis m with
  | Ok (Some a) => Ok (Some (correlation_entry a))
  | Ok None => Ok None
  | Raise e => Raise e
  end.

(** *** CSV export and import, through pandas *)

Section Pandas.

(** Two things pandas and Python do that are not part of this model:
    [str(v)] for a value that is not a string, and the frame
    [pd.read_csv] makes of the records below the header (for each row its
    label and its value in each column, the columns typed as pandas
    infers) or the exception it raises on them. *)
Variable py_str : value -> string.
Variable parse : list string -> csv_records -> pyres (list (value * dict)).

Definition str (v : value) : string :=
  match v with
  | VStr s => s
  | other => py_str other
  end.

(** A frame to be written: its columns, and the values of each of its
    rows. *)
Record DataFrame := {
  columns : list string;
  frame_rows : list (list value)
}.

(** [pd.DataFrame(data)] for a list of dicts with the same keys; no dict,
    no column. *)
Definition DataFrame_of (data : list (list (string * value))) : DataFrame :=
  {| columns := match data with [] => [] | first :: _ => map fst first end;
     frame_rows := map (map snd) data |}.

(** A field of [to_csv]: nothing for a missing value. *)
Definition to_csv_field (v : value) : string :=
  match v with
  | VNone | VFloat S754_nan => ""
  | other => str other
  end.

(** [df.to_csv(index=False)]: the line of the column names, then a line
    for each row. *)
Definition to_csv (df : DataFrame) : csv_records :=
  columns df :: map (map to_csv_field) (frame_rows df).

Definition export_row (s : Student) : list (string * value) :=
  [("student_id", student_id s); ("name", name s); ("age", age s);
   ("grade", grade s); ("email", email s); ("performance", performance s);
   ("phone", phone s); ("course", course s); ("department", department s);
   ("enrollment_date", enrollment_date s); ("attendance", attendance s);
   ("last_updated", last_updated s)].

Definition export_to_csv (m : AdvancedStudentManager)
  : bool * message * option csv_records :=
  let data := map export_row (students m) in
  let df := DataFrame_of data in
  (true, Text "Data exported successfully", Some (to_csv df)).

(** [pd.read_csv(io.StringIO(text))]: empty lines are skipped, the first
    line left names the columns; no line left is an EmptyDataError. *)
Definition read_csv (text : csv_records) : pyres (list (value * dict)) :=
  match List.filter (fun r => negb (Persistent.is_empty_record r)) text with
  | [] => Raise EmptyDataError
  | header :: body => parse header body
  end.

(** The dict [student_data] of these nine entries. *)
Definition student_data (name : string) (age : Z) (grade email : string)
    (performance : float) (phone course department : string)
    (attendance : float) : dict :=
  <["name" := VStr name]> (<["age" := VInt age]> (<["grade" := VStr grade]>
  (<["email" := VStr email]> (<["performance" := VFloat performance]>
  (<["phone" := VStr phone]> (<["course" := VStr course]>
  (<["department" := VStr department]>
  (<["attendance" := VFloat attendance]> ∅)))))))).

(** The dict [student_data] built from a row of the frame. *)
Definition student_data_of (row : dict) : pyres dict :=
  let name := str (dict_get row "name" (VStr "")) in
  age ← py_int (dict_get row "age" (VInt 18));
  let grade := str (dict_get row "grade" (VStr "B")) in
  let email := str (dict_get row "email" (VStr "")) in
  performance ← py_float (dict_get row "performance" (VInt 75));
  let phone := str (dict_get row "phone" (VStr "")) in
  let course := str (dict_get row "course" (VStr "")) in
  let department := str (dict_get row "department" (VStr "General")) in
  attendance ← py_float (dict_get row "attendance" (VFloat (decimal false 95 0)));
  Ok (student_data name age grade email performance phone course department
        attendance).

(** The student made of [student_data] under the id [student_id],
    enrolled today. *)
Definition student_of_data (clk : clock) (student_id : string)
    (student_data : dict) : Student :=
  let field k := dict_get student_data k VNone in
  Student_init clk (VStr student_id) (field "name") (field "age")
    (field "grade") (field "email") (field "performance")
    (field "phone") (field "course") (field "department")
    (VStr (today clk)) (field "attendance").

(** What the loop of [import_from_csv] has built so far. *)
Record import_state := {
  imp_students : list Student;
  imported_count : Z;
  errors : list message
}.

(** [f"{_ + 1}"] for the label of a row: one more than a number; a label
    that is no number cannot be added to. *)
Definition row_number (label : value) : pyres string :=
  match number label with
  | Some a =>
      n ← num_add a (NInt 1);
      Ok match n with
         | NInt z => str_of_Z z
         | NFloat x => py_str (VFloat x)
         end
  | None => Raise TypeError
  end.

Definition row_invalid (number : string) (validation_errors : list string)
  : message :=
  Text ("Row " +:+ number +:+ ": " +:+ join ", " validation_errors).

Definition row_failed (number : string) (e : exn) : message :=
  ErrorText ("Row " +:+ number +:+ ": Error processing - ") e.

(** The body of the [try] for the row labelled [label]: the state it
    leaves, or the exception it raises. *)
Definition import_row_try (clk : clock) (label : value) (row : dict)
    (st : import_state) (m : AdvancedStudentManager) : pyres import_state :=
  student_data ← student_data_of row;
  validation_errors ← validate_student_data student_data;
  match validation_errors with
  | _ :: _ =>
      number ← row_number label;
      Ok {| imp_students := imp_students st;
            imported_count := imported_count st;
            errors := errors st ++ [row_invalid number validation_errors] |}
  | [] =>
      student_id ← get_next_student_id (with_students m (imp_students st));
      let new_student := student_of_data clk student_id student_data in
      Ok {| imp_students := imp_students st ++ [new_student];
            imported_count := imported_count st + 1;
            errors := errors st |}
  end.

(** One turn of the loop: an exception becomes an error entry, unless
    the entry cannot be written, the label being no number. *)
Definition import_row (clk : clock) (label : value) (row : dict)
    (st : import_state) (m : AdvancedStudentManager) : pyres import_state :=
  match import_row_try clk label row st m with
  | Ok st' => Ok st'
  | Raise e =>
      number ← row_number label;
      Ok {| imp_students := imp_students st;
            imported_count := imported_count st;
            errors := errors st ++ [row_failed number e] |}
  end.

(** [for _, row in df.iterrows(): ...]: the state the loop ends in, and
    the exception that ended it, if any. *)
Fixpoint import_rows (clk : clock) (frame : list (value * dict))
    (st : import_state) (m : AdvancedStudentManager)
  : import_state * option exn :=
  match frame with
  | [] => (st, None)
  | (label, row) :: frame' =>
      match import_row clk label row st m with
      | Ok st' => import_rows clk frame' st' m
      | Raise e => (st, Some e)
      end
  end.

(** [import_from_csv].  The students appended before an exception stay
    in the list, and the cache is then left as it was. *)
Definition import_from_csv (clk : clock) (file_content : csv_records)
    (m : AdvancedStudentManager)
  : AdvancedStudentManager * (bool * message * list message) :=
  match read_csv file_content with
  | Raise e => (m, (false, ErrorText "Import failed: " e, []))
  | Ok frame =>
      let start :=
        {| imp_students := students m; imported_count := 0; errors := [] |} in
      match import_rows clk frame start m with
      | (st, Some e) =>
          (with_students m (imp_students st),
           (false, ErrorText "Import failed: " e, []))
      | (st, None) =>
          (clear_cache (with_students m (imp_students st)),
           (true,
            Text ("Successfully imported " +:+ str_of_Z (imported_count st)
                  +:+ " students"),
            errors st))
      end
  end.

End Pandas.

(** *** Search *)

(** The condition of [search_students], for a query in lower case. *)
Definition matches (query : string) (s : Student) : pyres bool :=
  name ← py_lower (name s);
  if contains query name then Ok true else
  email ← py_lower (email s);
  if contains query email then Ok true else
  course ← py_lower (course s);
  if contains query course then Ok true else
  department ← py_lower (department s);
  if contains query department then Ok true else
  phone ← py_lower (phone s);
  if contains query phone then Ok true else
  id ← py_lower (student_id s);
  Ok (contains query id).

(** [search_students]: an empty query returns the list itself. *)
Definition search_students (query : string) (m : AdvancedStudentManager)
  : pyres (list Student) :=
  if String.eqb query "" then Ok (students m)
  else comprehension (matches (lower query)) (students m).

End Advanced.

(** ** The rules of the specification *)

Module Rules.

(** The fields a record is validated on, in the order of the validator. *)
Inductive field := Name | Age | Grade | Email | Performance | Phone | Course.

Definition fields : list field :=
  [Name; Age; Grade; Email; Performance; Phone; Course].

Definition key (f : field) : string :=
  match f with
  | Name => "name"
  | Age => "age"
  | Grade => "grade"
  | Email => "email"
  | Performance => "performance"
  | Phone => "phone"
  | Course => "course"
  end.

(** A record is complete when each of these fields holds a string, as in
    a row of a CSV file that has a cell for each of them. *)
Definition complete (d : dict) : bool :=
  forallb (fun f => match d !! key f with
                    | Some (VStr _) => true
                    | _ => false
                    end) fields.

(** A record is textual when each of these fields holds a string or is
    absent, as in a row of a CSV file that may lack some of the columns. *)
Definition textual (d : dict) : bool :=
  forallb (fun f => match d !! key f with
                    | Some (VStr _) | None => true
                    | _ => false
                    end) fields.

(** What stands for a field that is absent: zero for a number, the empty
    text otherwise. *)
Definition default (f : field) : string :=
  match f with
  | Age | Performance => "0"
  | _ => ""
  end.

(** The text of a field in a record. *)
Definition text (d : dict) (f : field) : string :=
  match d !! key f with
  | Some (VStr s) => s
  | _ => default f
  end.

(** At least two characters, the white space at the ends not counted. *)
Definition long_enough (s : string) : bool :=
  (2 <=? String.length (strip s))%nat.

Definition letters_and_spaces (s : string) : bool :=
  forallb (fun c => is_alpha c || is_space c) (chars s).

(** [0 <= x <= 100]. *)
Definition percentage (x : float) : bool :=
  match num_compare (NInt 0) (NFloat x), num_compare (NFloat x) (NInt 100) with
  | Some (Lt | Eq), Some (Lt | Eq) => true
  | _, _ => false
  end.

(** The rules of the validator: name of two characters or more, letters
    and spaces only; age in [15, 70]; grade one of A, B, C, D, F; email
    after the pattern local@domain.tld; performance in [0, 100]; phone,
    if present, after the pattern of ten or more digits and punctuation;
    course of two characters or more.  A number that cannot be read
    breaks the rule of its field. *)
Definition keeps (f : field) (s : string) : bool :=
  match f with
  | Name => long_enough s && letters_and_spaces s
  | Age =>
      match int_of_string s with
      | Ok z => (15 <=? z) && (z <=? 70)
      | Raise _ => false
      end
  | Grade => mem s ["A"; "B"; "C"; "D"; "F"]
  | Email => email_match s
  | Performance =>
      match float_of_string s with
      | Ok x => percentage x
      | Raise _ => false
      end
  | Phone => String.eqb s "" || phone_match s
  | Course => long_enough s
  end.

(** The message of a field that breaks its rule; a number that cannot be
    read has a message of its own. *)
Definition message (f : field) (s : string) : string :=
  match f with
  | Name => Persistent.msg_name
  | Age =>
      match int_of_string s with
      | Ok _ => Persistent.msg_age_range
      | Raise _ => Persistent.msg_age_number
      end
  | Grade => Persistent.msg_grade
  | Email => Persistent.msg_email
  | Performance =>
      match float_of_string s with
      | Ok _ => Persistent.msg_performance_range
      | Raise _ => Persistent.msg_performance_number
      end
  | Phone => Persistent.msg_phone
  | Course => Persistent.msg_course
  end.

(** What a field adds to the answer. *)
Definition verdict (f : field) (s : string) : list string :=
  if keeps f s then [] else [message f s].

(** The fields of a record that break their rules. *)
Definition broken (d : dict) : list field :=
  List.filter (fun f => negb (keeps f (text d f))) fields.

(** Every field is judged on its own, and the answer is the union of the
    violations. *)
Definition violations (d : dict) : list string :=
  map (fun f => message f (text d f)) (broken d).

(** [x < 0 or x > 100]. *)
Definition off_percentage (x : float) : bool :=
  match num_compare (NFloat x) (NInt 0), num_compare (NFloat x) (NInt 100) with
  | Some Lt, _ | _, Some Gt => true
  | _, _ => false
  end.

(** What the validator of the in-memory variant answers on the data its
    callers build, field by field: the name and the course must be long
    enough, the age in [15, 70], the e-mail address must hold an at sign,
    the score must be neither zero nor off [0, 100], the attendance not
    off [0, 100]. *)
Definition typed_violations (name : string) (age : Z) (email : string)
    (performance : float) (course : string) (attendance : float)
  : list string :=
  (if long_enough name then [] else [Advanced.msg_name])
  ++ (if (15 <=? age) && (age <=? 70) then [] else [Advanced.msg_age])
  ++ (if contains_char "@" email then [] else [Advanced.msg_email])
  ++ (if is_zero performance || off_percentage performance
      then [Advanced.msg_performance] else [])
  ++ (if long_enough course then [] else [Advanced.msg_course])
  ++ (if off_percentage attendance then [Advanced.msg_attendance] else []).

End Rules.

(** ** The import and the trend signal, in the words of the specification *)

Module Spec.

(** [n] is one more than the largest number read in the ids after a prefix
    of [p] characters, and 1 when no number is read. *)
Definition next_number (p : nat) (ids : list value) (n : Z) : Prop :=
  (forall id k, In id ids -> id_number p id = Some k -> k < n)
  /\ ((n = 1 /\ forall id, In id ids -> id_number p id = None)
      \/ exists id, In id ids /\ id_number p id = Some (n - 1)).

(** The ids are strings. *)
Definition strings (ids : list value) : Prop :=
  Forall (fun id => exists s, id = VStr s) ids.

(** A row can be imported when its validated fields hold text and it has
    the six columns a record cannot be made without. *)
Definition importable (d : dict) : bool :=
  Rules.textual d
  && forallb (fun k => bool_decide (is_Some (d !! k)))
       ["student_id"; "name"; "age"; "grade"; "email"; "performance"].

(** The store after the rows: a row that breaks no rule is accepted
    unless its id is in the store or was accepted before it. *)
Fixpoint accepted (clk : clock) (store : list Persistent.Student)
    (rows : list dict) : list Persistent.Student :=
  match rows with
  | [] => store
  | d :: rest =>
      match Rules.violations d, Persistent.from_dict clk d with
      | [], Ok s =>
          if Persistent.id_present store (Persistent.student_id s)
          then accepted clk store rest
          else accepted clk (store ++ [s]) rest
      | _, _ => accepted clk store rest
      end
  end.

(** The error entries: one for each row that breaks a rule, with the
    number of the row, the rows being numbered from [i]. *)
Fixpoint rejected (i : Z) (rows : list dict) : list string :=
  match rows with
  | [] => []
  | d :: rest =>
      match Rules.violations d with
      | [] => rejected (i + 1) rest
      | reasons => Persistent.row_error i reasons :: rejected (i + 1) rest
      end
  end.

(** What the import of the in-memory variant makes of a row: its data
    when they pass the validation, the reasons when they do not, the
    exception when building or validating them raises. *)
Inductive verdict :=
| Valid (student_data : dict)
| Invalid (reasons : list string)
| Failed (e : exn).

Definition judge (py_str : value -> string) (row : dict) : verdict :=
  match Advanced.student_data_of py_str row with
  | Raise e => Failed e
  | Ok student_data =>
      match Advanced.validate_student_data student_data with
      | Raise e => Failed e
      | Ok [] => Valid student_data
      | Ok reasons => Invalid reasons
      end
  end.

(** The error entries of the rows that are not valid, the rows being
    numbered from [i]. *)
Fixpoint error_entries (py_str : value -> string) (i : Z) (rows : list dict)
  : list message :=
  match rows with
  | [] => []
  | row :: rows' =>
      match judge py_str row with
      | Valid _ => []
      | Invalid reasons => [Advanced.row_invalid (str_of_Z i) reasons]
      | Failed e => [Advanced.row_failed (str_of_Z i) e]
      end ++ error_entries py_str (i + 1) rows'
  end.

(** The data of the valid rows. *)
Definition valid_data (py_str : value -> string) (rows : list dict)
  : list dict :=
  omap (fun row => match judge py_str row with
                   | Valid student_data => Some student_data
                   | _ => None
                   end) rows.

(** The valid rows enrolled one after the other, each under the next id
    of the list so far. *)
Fixpoint enrolled (clk : clock) (store : list Advanced.Student)
    (data : list dict) : pyres (list Advanced.Student) :=
  match data with
  | [] => Ok store
  | student_data :: rest =>
      student_id ←
        Advanced.get_next_student_id
          {| Advanced.students := store;
             Advanced.cache_stats := None;
             Advanced.cache_time := None |};
      enrolled clk
        (store ++ [Advanced.student_of_data clk student_id student_data]) rest
  end.

(** The rows of a frame are labelled 0, 1, 2, ..., as pandas labels them
    when the file gives it no index. *)
Definition default_index {A} (frame : list (value * A)) : Prop :=
  map fst frame = map (fun i => VInt (Z.of_nat i)) (seq 0 (length frame)).

(** The ids of the list are made of two characters and a number below
    [bound], which is 1 at least. *)
Definition ids_below (bound : Z) (l : list Advanced.Student) : bool :=
  (1 <=? bound)
  && forallb (fun s => match id_number 2 (Advanced.student_id s) with
                       | Some k => k <? bound
                       | None => false
                       end) l.

(** A result is a value or an OverflowError. *)
Definition total_or_overflow {A} (r : pyres A) : Prop :=
  (exists x, r = Ok x) \/ r = Raise OverflowError.

Inductive trend := improving | declining | stable.

(** The mean of the recent records against the mean of all: improving
    when greater, declining when smaller, stable when equal.  A mean that
    is a nan is neither. *)
Definition trend_signal (recent_mean overall_mean : float) : option trend :=
  match num_compare (NFloat recent_mean) (NFloat overall_mean) with
  | Some Gt => Some improving
  | Some Lt => Some declining
  | Some Eq => Some stable
  | None => None
  end.

Definition label (t : trend) : string :=
  match t with
  | improving => "improving"
  | declining => "declining"
  | stable => "stable"
  end.

(** Was the student enrolled on [cutoff_date] or later? *)
Definition enrolled_since (cutoff_date : string) (s : Persistent.Student) : bool :=
  match Persistent.enrollment_date s with
  | VStr d => String.leb cutoff_date d
  | _ => false
  end.

(** The students whose fields hold what the callers of the constructor
    put there: numbers for the age and the performance, a string for the
    date of enrollment, no list for course or department; and whose
    method [calculate_status] is not hidden. *)
Definition well_typed (s : Persistent.Student) : bool :=
  bool_decide (is_Some (number (Persistent.age s)))
  && bool_decide (is_Some (number (Persistent.performance s)))
  && match Persistent.enrollment_date s with VStr _ => true | _ => false end
  && match Persistent.course s with VList _ => false | _ => true end
  && match Persistent.department s with VList _ => false | _ => true end
  && negb (Persistent.shadows s "calculate_status").

End Spec.

(** ** Sample data *)

Module Samples.

Definition clk : clock :=
  {| today := "2024-03-01"; now := "2024-03-01 10:00:00" |}.

Definition later : clock :=
  {| today := "2024-03-02"; now := "2024-03-02 09:30:00" |}.

(** The float written with one decimal: [tenths 965] is 96.5. *)
Definition tenths (n : N) : float := decimal false n (-1).

Definition alice : Persistent.Student :=
  Persistent.Student_init clk (VStr "STU001") (VStr "Alice Smith") (VInt 20)
    (VStr "A") (VStr "alice@uni.edu") (VFloat (tenths 920)) (VStr "")
    (VStr "Physics") (VStr "Science") VNone.

Definition bob : Persistent.Student :=
  Persistent.Student_init clk (VStr "STU002") (VStr "Bob Jones") (VInt 22)
    (VStr "C") (VStr "bob@uni.edu") (VFloat (tenths 650)) (VStr "")
    (VStr "Biology") (VStr "Science") VNone.

(** A manager whose file holds what its list holds. *)
Definition saved (l : list Persistent.Student) : Persistent.StudentManager :=
  {| Persistent.students := l;
     Persistent.data_file := Holds (map Persistent.to_dict l) |}.

Definition aarav : Advanced.Student :=
  Advanced.Student_init clk (VStr "ST001") (VStr "Aarav Sharma") (VInt 20)
    (VStr "A") (VStr "aarav.sharma@university.edu") (VFloat (tenths 920))
    (VStr "+91 9876543210") (VStr "Computer Science") (VStr "Engineering")
    (VStr "2023-09-01") (VFloat (tenths 965)).

Definition priya : Advanced.Student :=
  Advanced.Student_init clk (VStr "ST002") (VStr "Priya Patel") (VInt 22)
    (VStr "B") (VStr "priya.patel@university.edu") (VFloat (tenths 785))
    (VStr "+91 9876543211") (VStr "Data Science") (VStr "Computer Science")
    (VStr "2023-09-01") (VFloat (tenths 882)).

(** A second student under the id of [aarav]. *)
Definition impostor : Advanced.Student :=
  Advanced.Student_init clk (VStr "ST001") (VStr "Rohan Kumar") (VInt 21)
    (VStr "A") (VStr "rohan.kumar@university.edu") (VFloat (tenths 880))
    (VStr "+91 9876543212") (VStr "Artificial Intelligence")
    (VStr "Computer Science") (VStr "2023-09-01") (VFloat (tenths 947)).

(** A student under an id that holds no number. *)
Definition guest : Advanced.Student :=
  Advanced.Student_init clk (VStr "GUEST") (VStr "Kiran Das") (VInt 25)
    (VStr "B") (VStr "kiran.das@university.edu") (VFloat (tenths 700))
    (VStr "") (VStr "Statistics") (VStr "Science") (VStr "2023-09-01")
    (VFloat (tenths 900)).

(** A manager of the in-memory variant with an empty cache. *)
Definition fresh (l : list Advanced.Student) : Advanced.AdvancedStudentManager :=
  {| Advanced.students := l;
     Advanced.cache_stats := None;
     Advanced.cache_time := None |}.

(** A row of a CSV file for the persistent variant, and the same row with
    three fields spoilt: the age, the e-mail address and the course. *)
Definition good_row : dict :=
  dict_of [("student_id", "STU003"); ("name", "Carol White"); ("age", "19");
           ("grade", "B"); ("email", "carol@uni.edu"); ("performance", "81.5");
           ("phone", "+44 20 7946 0958"); ("course", "Chemistry");
           ("department", "Science")].

Definition bad_row : dict :=
  dict_of [("student_id", "STU004"); ("name", "Dan Brown"); ("age", "12");
           ("grade", "B"); ("email", "dan.uni.edu"); ("performance", "70");
           ("phone", ""); ("course", "X"); ("department", "Science")].

Definition header : list string :=
  ["student_id"; "name"; "age"; "grade"; "email"; "performance"; "phone";
   "course"; "department"].

(** Three records: the first repeats the id of [alice], the last repeats
    the id of the one before it. *)
Definition alice_again : list string :=
  ["STU001"; "Alice Again"; "21"; "B"; "again@uni.edu"; "70"; ""; "Physics";
   "Science"].

Definition eve : list string :=
  ["STU005"; "Eve Adams"; "23"; "A"; "eve@uni.edu"; "95"; ""; "Maths";
   "Science"].

Definition eve_twin : list string :=
  ["STU005"; "Eve Twin"; "24"; "C"; "twin@uni.edu"; "61"; ""; "Maths";
   "Science"].

Definition colliding_file : csv_records :=
  [header; alice_again; eve; eve_twin].

(** Two students with the same performance and different attendances. *)
Definition neha : Advanced.Student :=
  Advanced.Student_init clk (VStr "ST006") (VStr "Neha Gupta") (VInt 20)
    (VStr "A") (VStr "neha.gupta@university.edu") (VFloat (tenths 800))
    (VStr "+91 9876543215") (VStr "Business Administration") (VStr "Business")
    (VStr "2023-09-01") (VFloat (tenths 900)).

Definition arun : Advanced.Student :=
  Advanced.Student_init clk (VStr "ST007") (VStr "Arun Mishra") (VInt 22)
    (VStr "C") (VStr "arun.mishra@university.edu") (VFloat (tenths 800))
    (VStr "+91 9876543216") (VStr "Chemistry") (VStr "Science")
    (VStr "2023-09-01") (VFloat (tenths 950)).

(** Three students of the in-memory variant; only the last was enrolled
    within the thirty days before the first of March 2024. *)
Definition early_low : Advanced.Student :=
  Advanced.Student_init clk (VStr "ST001") (VStr "Vikram Joshi") (VInt 23)
    (VStr "D") (VStr "vikram.joshi@university.edu") (VFloat (tenths 500))
    (VStr "") (VStr "Mechanical Engineering") (VStr "Engineering")
    (VStr "2023-09-01") (VFloat (tenths 854)).

Definition early_high : Advanced.Student :=
  Advanced.Student_init clk (VStr "ST002") (VStr "Pooja Reddy") (VInt 21)
    (VStr "A") (VStr "pooja.reddy@university.edu") (VFloat (tenths 900))
    (VStr "") (VStr "Psychology") (VStr "Social Sciences")
    (VStr "2023-09-01") (VFloat (tenths 893)).

Definition recent_middle : Advanced.Student :=
  Advanced.Student_init clk (VStr "ST003") (VStr "Divya Malhotra") (VInt 19)
    (VStr "C") (VStr "divya.malhotra@university.edu") (VFloat (tenths 600))
    (VStr "") (VStr "Mathematics") (VStr "Science")
    (VStr "2024-02-20") (VFloat (tenths 879)).

(** The same three, as students of the persistent variant. *)
Definition persistent_of (s : Advanced.Student) : Persistent.Student :=
  {| Persistent.student_id := Advanced.student_id s;
     Persistent.name := Advanced.name s;
     Persistent.age := Advanced.age s;
     Persistent.grade := Advanced.grade s;
     Persistent.email := Advanced.email s;
     Persistent.performance := Advanced.performance s;
     Persistent.phone := Advanced.phone s;
     Persistent.course := Advanced.course s;
     Persistent.department := Advanced.department s;
     Persistent.enrollment_date := Advanced.enrollment_date s;
     Persistent.last_updated := Advanced.last_updated s;
     Persistent.shadowed := [] |}.

(** The three sample students, in the persistent store. *)
Definition three_students : Persistent.StudentManager :=
  saved (map persistent_of [early_low; early_high; recent_middle]).

(** Three students of performance 50.2 each, the last alone recent: the
    sum of the three, divided by three, is not 50.2 but the next float. *)
Definition with_performance (x : float) (s : Advanced.Student)
  : Persistent.Student :=
  Persistent.set_field (persistent_of s) "performance" (VFloat x).

Definition level_students : Persistent.StudentManager :=
  saved (map (with_performance (tenths 502))
           [early_low; early_high; recent_middle]).

(** The import file of the scenario: three rows, the second with age 12. *)
Definition import_header : list string :=
  ["name"; "age"; "grade"; "email"; "performance"; "phone"; "course";
   "department"; "attendance"].

Definition scenario_file : csv_records :=
  [import_header;
   ["Meera Nair"; "20"; "A"; "meera.nair@university.edu"; "91.0"; "";
    "Physics"; "Science"; "97.0"];
   ["Kabir Khan"; "12"; "B"; "kabir.khan@university.edu"; "75.0"; "";
    "History"; "Arts"; "90.0"];
   ["Isha Rao"; "24"; "C"; "isha.rao@university.edu"; "64.5"; "";
    "Economics"; "Business"; "82.0"]].

(** The same scenario with the columns the persistent variant reads. *)
Definition scenario_with_ids : csv_records :=
  [header;
   ["STU010"; "Meera Nair"; "20"; "A"; "meera.nair@university.edu"; "91.0";
    ""; "Physics"; "Science"];
   ["STU011"; "Kabir Khan"; "12"; "B"; "kabir.khan@university.edu"; "75.0";
    ""; "History"; "Arts"];
   ["STU012"; "Isha Rao"; "24"; "C"; "isha.rao@university.edu"; "64.5";
    ""; "Economics"; "Business"]].

(** A stand-in for [pd.read_csv] on the sample files: an empty cell is a
    nan, the age column holds ints and the performance and attendance
    columns floats where they can be read, the rows are labelled from 0;
    a record longer than the header is refused. *)
Definition typed_cell (column cell : string) : value :=
  if String.eqb cell "" then VFloat S754_nan
  else if String.eqb column "age" then
    match int_of_string cell with
    | Ok z => VInt z
    | Raise _ => VStr cell
    end
  else if String.eqb column "performance" || String.eqb column "attendance" then
    match float_of_string cell with
    | Ok f => VFloat f
    | Raise _ => VStr cell
    end
  else VStr cell.

Definition typed_row (header record : list string) : dict :=
  let cells :=
    zip_with typed_cell header
      (record ++ repeat "" (length header - length record)%nat) in
  fold_left (fun d kv => <[fst kv := snd kv]> d) (zip header cells) ∅.

Definition typed_rows (header : list string) (body : csv_records)
  : pyres (list (value * dict)) :=
  if forallb (fun record => (length record <=? length header)%nat) body
  then Ok (imap (fun i record => (VInt (Z.of_nat i), typed_row header record))
             body)
  else Raise ParserError.

(** A stand-in for [str] on the values of the sample files that are not
    strings: the nan of an empty cell, and ints. *)
Definition text_of (v : value) : string :=
  match v with
  | VFloat S754_nan => "nan"
  | VInt z => str_of_Z z
  | _ => ""
  end.

(** A file whose second record stops after the id: the reader gives it
    None for the other fields. *)
Definition truncated_file : csv_records :=
  [header; eve; ["STU006"]].

(** A manager whose cache holds statistics of another time. *)
Definition stale_statistics : Advanced.statistics :=
  {| Advanced.total_students := 7;
     Advanced.average_performance := tenths 500;
     Advanced.average_age := tenths 300;
     Advanced.average_attendance := tenths 600;
     Advanced.performance_trend := "Declining" |}.

Definition cached (l : list Advanced.Student) : Advanced.AdvancedStudentManager :=
  {| Advanced.students := l;
     Advanced.cache_stats := Some (Some stale_statistics);
     Advanced.cache_time := Some (float_of_Z 1000) |}.

End Samples.

(** * Properties *)

(** ** Persistence failures *)

Section SaveFailure.
Import Persistent.

(** [add_student] undoes its append when the file cannot be opened. *)
Lemma add_student_rolls_back m s :
  fst (add_student false m s) = m /\ fst (snd (add_student false m s)) = false.
Proof.
  unfold add_student. destruct (id_present _ _); [done|].
  cbn. rewrite removelast_last. by destruct m.
Qed.

(** [delete_student] keeps the deletion when the save fails. *)
Lemma delete_student_keeps_deletion m id i :
  find_student (students m) id = Some i ->
  delete_student false m id
  = (with_students m (delete i (students m)),
     (false, Text "Failed to save after deletion")).
Proof. intros Hi. unfold delete_student. by rewrite Hi. Qed.

(** [bulk_delete_students] keeps the deletions when the save fails. *)
Lemma bulk_delete_keeps_deletion m ids :
  bulk_delete_students false m ids
  = (with_students m
       (List.filter (fun s => not_in (student_id s) ids) (students m)),
     (false, Text "Failed to save after bulk deletion")).
Proof. reflexivity. Qed.

(** [update_student] keeps the new attributes when the save fails. *)
Lemma update_student_keeps_update clk m id kwargs i s s' :
  find_student (students m) id = Some i ->
  students m !! i = Some s ->
  apply_kwargs s kwargs = (s', None) ->
  update_student false clk m id kwargs
  = (with_students m
       (<[i := set_last_updated s' (VStr (now clk))]> (students m)),
     Ok (false, Text "Failed to save updated data")).
Proof.
  intros Hi Hs Hk. unfold update_student. by rewrite Hi, Hs, Hk.
Qed.

(** C1.  When the save fails, [add_student] reports the failure and
    restores the list, but [update_student], [delete_student] and
    [bulk_delete_students] report the failure and keep their change: the
    list then differs from the one before the call and from the file. *)
Theorem save_failure_rollback_only_in_add :
  let m := Samples.saved [Samples.alice; Samples.bob] in
  (forall s, fst (add_student false m s) = m)
  /\ update_student false Samples.later m (VStr "STU001") [("grade", VStr "B")]
     = ({| students :=
             [set_last_updated (set_field Samples.alice "grade" (VStr "B"))
                (VStr "2024-03-02 09:30:00");
              Samples.bob];
           data_file := data_file m |},
        Ok (false, Text "Failed to save updated data"))
  /\ delete_student false m (VStr "STU001")
     = ({| students := [Samples.bob]; data_file := data_file m |},
        (false, Text "Failed to save after deletion"))
  /\ bulk_delete_students false m [VStr "STU001"; VStr "STU002"]
     = ({| students := []; data_file := data_file m |},
        (false, Text "Failed to save after bulk deletion")).
Proof.
  split; [intros s; apply add_student_rolls_back|].
  repeat split; reflexivity.
Qed.

End SaveFailure.

(** ** Equality of values *)

Lemma point_compare_antisym p q :
  point_compare q p = CompOpp (point_compare p q).
Proof.
  destruct p, q; simpl; try reflexivity. symmetry. apply Qcompare_antisym.
Qed.

Lemma num_compare_antisym a b :
  num_compare b a = CompOpp <$> num_compare a b.
Proof.
  unfold num_compare. destruct (num_point a), (num_point b); simpl; try done.
  by rewrite point_compare_antisym.
Qed.

Lemma point_compare_eq_trans p q r :
  point_compare p r = Eq -> point_compare q r = Eq -> point_compare p q = Eq.
Proof.
  destruct p, q, r; simpl; try done.
  rewrite <- !Qeq_alt. intros H1 H2. by rewrite H1, H2.
Qed.

Lemma activity_eqb_sym a b : activity_eqb a b = activity_eqb b a.
Proof.
  unfold activity_eqb.
  by rewrite (String.eqb_sym (activity_type a)),
    (String.eqb_sym (activity_description a)),
    (String.eqb_sym (activity_date a)), (Z.eqb_sym (activity_id a)).
Qed.

Lemma activities_eqb_sym l1 l2 : activities_eqb l1 l2 = activities_eqb l2 l1.
Proof.
  revert l2. induction l1 as [|a l1 IH]; intros [|b l2]; simpl; try done.
  by rewrite activity_eqb_sym, IH.
Qed.

Lemma py_eq_sym a b : py_eq a b = py_eq b a.
Proof.
  unfold py_eq.
  destruct (number a) eqn:Ha, (number b) eqn:Hb; try done.
  - rewrite (num_compare_antisym n n0).
    by destruct (num_compare n n0) as [[]|].
  - destruct a, b; try done.
    + apply String.eqb_sym.
    + apply activities_eqb_sym.
Qed.

Lemma py_eq_str s t : py_eq (VStr s) (VStr t) = true <-> s = t.
Proof. unfold py_eq. simpl. apply String.eqb_eq. Qed.

Lemma activity_eqb_eq a b : activity_eqb a b = true <-> a = b.
Proof.
  unfold activity_eqb. rewrite !andb_true_iff, !String.eqb_eq, Z.eqb_eq.
  destruct a, b; simpl. split.
  - by intros [[[-> ->] ->] ->].
  - by intros [= -> -> -> ->].
Qed.

Lemma activities_eqb_eq l1 l2 : activities_eqb l1 l2 = true <-> l1 = l2.
Proof.
  revert l2. induction l1 as [|a l1 IH]; intros [|b l2]; simpl; try done.
  rewrite andb_true_iff, activity_eqb_eq, IH. split.
  - by intros [-> ->].
  - by intros [= -> ->].
Qed.

(** Two values equal to a third are equal. *)
Lemma py_eq_euclid a b c : py_eq a c = true -> py_eq b c = true -> py_eq a b = true.
Proof.
  unfold py_eq.
  destruct (number a) as [x|] eqn:Ha, (number b) as [y|] eqn:Hb,
    (number c) as [z|] eqn:Hc; try done.
  - unfold num_compare.
    destruct (num_point x) as [p|], (num_point y) as [q|],
      (num_point z) as [r|]; try done.
    destruct (point_compare p r) eqn:Hpr; try done.
    destruct (point_compare q r) eqn:Hqr; try done.
    by rewrite (point_compare_eq_trans p q r Hpr Hqr).
  - destruct a, b, c; try done.
    + rewrite !String.eqb_eq. by intros -> ->.
    + rewrite !activities_eqb_eq. by intros -> ->.
Qed.

(** ** Duplicate ids *)

Section DuplicateIds.
Import Persistent.

Lemma id_present_app l1 l2 id :
  id_present (l1 ++ l2) id = id_present l1 id || id_present l2 id.
Proof. unfold id_present. apply existsb_app. Qed.

Lemma unique_ids_snoc l s :
  unique_ids l = true ->
  id_present l (student_id s) = false ->
  unique_ids (l ++ [s]) = true.
Proof.
  induction l as [|a l IH]; simpl; [done|].
  intros [Ha Hl]%andb_prop [Has Hs]%orb_false_elim.
  rewrite id_present_app, IH by done. simpl.
  rewrite (py_eq_sym (student_id s)), Has, orb_false_r.
  by rewrite Ha.
Qed.

(** Whether the ids are distinct depends on the ids alone. *)
Lemma unique_ids_ext l l' :
  map student_id l = map student_id l' -> unique_ids l = unique_ids l'.
Proof.
  revert l'. induction l as [|a l IH]; intros [|a' l']; simpl; try done.
  intros [= Ha Hl]. rewrite (IH l' Hl), Ha. do 2 f_equal.
  unfold id_present. clear IH. revert l' Hl.
  induction l as [|b l IH]; intros [|b' l']; simpl; try done.
  intros [= Hb Hl]. by rewrite Hb, (IH l' Hl).
Qed.

Lemma id_present_filter (p : Student -> bool) l id :
  id_present l id = false -> id_present (List.filter p l) id = false.
Proof.
  induction l as [|a l IH]; simpl; [done|].
  intros [Ha Hl]%orb_false_elim. destruct (p a); simpl; [|by apply IH].
  by rewrite Ha, IH.
Qed.

Lemma unique_ids_filter (p : Student -> bool) l :
  unique_ids l = true -> unique_ids (List.filter p l) = true.
Proof.
  induction l as [|a l IH]; simpl; [done|].
  intros [Ha Hl]%andb_prop. destruct (p a); simpl; [|by apply IH].
  rewrite IH by done. apply negb_true_iff in Ha.
  by rewrite id_present_filter.
Qed.

Lemma id_present_delete i l id :
  id_present l id = false -> id_present (delete i l) id = false.
Proof.
  revert i. induction l as [|a l IH]; intros [|i]; simpl; try done.
  - by intros [_ ?]%orb_false_elim.
  - intros [Ha Hl]%orb_false_elim. by rewrite Ha, IH.
Qed.

Lemma unique_ids_delete i l :
  unique_ids l = true -> unique_ids (delete i l) = true.
Proof.
  revert i. induction l as [|a l IH]; intros [|i]; simpl; try done.
  - by intros [_ ?]%andb_prop.
  - intros [Ha Hl]%andb_prop. rewrite IH by done.
    apply negb_true_iff in Ha. by rewrite id_present_delete.
Qed.

Lemma unique_ids_insert i l s s' :
  l !! i = Some s -> student_id s' = student_id s ->
  unique_ids (<[i := s']> l) = unique_ids l.
Proof.
  intros Hi Hid. apply unique_ids_ext.
  rewrite list_fmap_insert, Hid. apply list_insert_id.
  by rewrite list_lookup_fmap, Hi.
Qed.

Lemma setattr_keeps_id s key v s' :
  key <> "student_id" -> setattr s key v = Ok s' -> student_id s' = student_id s.
Proof.
  intros Hkey. unfold setattr. destruct (mem key field_names).
  - intros [= <-]. simpl. by rewrite (proj2 (String.eqb_neq _ _) Hkey).
  - destruct (_ || _); [done|]. destruct (String.eqb key "__weakref__"); [done|].
    by intros [= <-].
Qed.

Lemma apply_kwargs_keeps_id kwargs : forall s s' e,
  mem "student_id" (map fst kwargs) = false ->
  apply_kwargs s kwargs = (s', e) -> student_id s' = student_id s.
Proof.
  induction kwargs as [|[key v] rest IH]; intros s s' e Hkeys; simpl.
  - by intros [= <- _].
  - unfold mem in Hkeys. cbn [map fst existsb] in Hkeys.
    apply orb_false_elim in Hkeys as [Hkey Hrest].
    apply String.eqb_neq in Hkey.
    destruct (hasattr s key); [|by apply IH].
    destruct (setattr s key v) as [s1|e1] eqn:Hset.
    + intros Happly. rewrite (IH s1 s' e Hrest Happly).
      eapply setattr_keeps_id; [|done]. congruence.
    + by intros [= <- _].
Qed.

Lemma import_row_keeps_ids_distinct clk i row st st' :
  import_row clk i row st = Ok st' ->
  unique_ids (imp_students st) = true ->
  unique_ids (imp_students st') = true.
Proof.
  unfold import_row.
  destruct (validate_student_data row) as [[|r rs]|]; try done.
  - cbn [mbind pyres_bind].
    destruct (from_dict clk row) as [s|]; [|done]. cbn [mbind pyres_bind].
    destruct (id_present (imp_students st) (student_id s)) eqn:Hdup; simpl.
    + by intros [= <-].
    + intros [= <-] Huniq. simpl. by apply unique_ids_snoc.
  - cbn [mbind pyres_bind]. by intros [= <-].
Qed.

Lemma import_row_extends clk i row st st' :
  import_row clk i row st = Ok st' ->
  exists new, imp_students st' = imp_students st ++ new.
Proof.
  unfold import_row.
  destruct (validate_student_data row) as [[|r rs]|]; try done.
  - cbn [mbind pyres_bind].
    destruct (from_dict clk row) as [s|]; [|done]. cbn [mbind pyres_bind].
    destruct (id_present (imp_students st) (student_id s)); simpl.
    + intros [= <-]. exists []. by rewrite app_nil_r.
    + intros [= <-]. by exists [s].
  - cbn [mbind pyres_bind]. intros [= <-]. exists []. by rewrite app_nil_r.
Qed.

Lemma import_rows_invariants clk rows : forall i st,
  (unique_ids (imp_students st) = true ->
   unique_ids (imp_students (fst (import_rows clk i rows st))) = true)
  /\ exists new,
       imp_students (fst (import_rows clk i rows st)) = imp_students st ++ new.
Proof.
  induction rows as [|row rows IH]; intros i st; simpl.
  - split; [done|]. exists []. by rewrite app_nil_r.
  - destruct (import_row clk i row st) as [st'|e] eqn:Hrow; simpl.
    + destruct (IH (i + 1) st') as [IH1 (new' & IH2)]. split.
      * intros Huniq. apply IH1. by eapply import_row_keeps_ids_distinct.
      * destruct (import_row_extends _ _ _ _ _ Hrow) as [new Hnew].
        exists (new ++ new'). by rewrite IH2, Hnew, app_assoc.
    + split; [done|]. exists []. by rewrite app_nil_r.
Qed.

(** The students a save leaves in the list are those it was given. *)
Lemma save_students_students io_ok m :
  students (fst (save_students io_ok m)) = students m.
Proof.
  unfold save_students. destruct io_ok; [|done].
  by destruct (to_dicts (students m)).
Qed.

Lemma update_student_ids io_ok clk m id kwargs :
  keywords kwargs = true ->
  map student_id (students (fst (update_student io_ok clk m id kwargs)))
  = map student_id (students m).
Proof.
  intros [_ Hkeys%negb_true_iff]%andb_prop. unfold update_student.
  destruct (find_student (students m) id) as [i|]; [|done].
  destruct (students m !! i) as [s|] eqn:Hs; [|done].
  destruct (apply_kwargs s kwargs) as [s' [e|]] eqn:Happly.
  - simpl. rewrite list_fmap_insert.
    rewrite (apply_kwargs_keeps_id _ _ _ _ Hkeys Happly).
    apply list_insert_id. by rewrite list_lookup_fmap, Hs.
  - pose proof (save_students_students io_ok
      (with_students m
         (<[i := set_last_updated s' (VStr (now clk))]> (students m)))) as Hsave.
    destruct (save_students io_ok _) as [m' saved]. simpl in Hsave.
    assert (students m' = <[i := set_last_updated s' (VStr (now clk))]> (students m))
      as Hm' by exact Hsave.
    assert (map student_id (students m') = map student_id (students m)) as Hids.
    { rewrite Hm', list_fmap_insert. simpl.
      rewrite (apply_kwargs_keeps_id _ _ _ _ Hkeys Happly).
      apply list_insert_id. by rewrite list_lookup_fmap, Hs. }
    by destruct saved.
Qed.

(** C3, as the code has it.  In the persistent variant, adding a student
    whose id equals the id of a student of the list fails with "Student ID
    already exists" and changes nothing, whether the save would succeed or
    not; and no operation of this variant makes two students of the list
    share an id: on a list whose ids are pairwise distinct they are so
    after [add_student], [update_student] (which cannot be given another
    id: [student_id] is the parameter that names the student),
    [delete_student], [bulk_delete_students] and [import_from_csv],
    however these end. *)
Theorem add_student_rejects_duplicate_id io_ok clk m :
  (forall s,
     id_present (students m) (student_id s) = true ->
     add_student io_ok m s = (m, (false, Text "Student ID already exists")))
  /\ (unique_ids (students m) = true ->
      (forall s, unique_ids (students (fst (add_student io_ok m s))) = true)
      /\ (forall id kwargs,
            keywords kwargs = true ->
            unique_ids (students (fst (update_student io_ok clk m id kwargs)))
            = true)
      /\ (forall id,
            unique_ids (students (fst (delete_student io_ok m id))) = true)
      /\ (forall ids,
            unique_ids (students (fst (bulk_delete_students io_ok m ids)))
            = true)
      /\ (forall file,
            unique_ids (students (fst (import_from_csv io_ok clk file m)))
            = true)).
Proof.
  split.
  - intros s Hdup. unfold add_student. by rewrite Hdup.
  - intros Huniq. split; [|split; [|split; [|split]]].
    + intros s. unfold add_student.
      destruct (id_present _ _) eqn:Hdup; [done|].
      pose proof (save_students_students io_ok
                    (with_students m (students m ++ [s]))) as Hsave.
      destruct (save_students io_ok _) as [m' saved]. simpl in Hsave.
      destruct saved; simpl; rewrite Hsave.
      * by apply unique_ids_snoc.
      * by rewrite removelast_last.
    + intros id kwargs Hkeys.
      rewrite (unique_ids_ext _ (students m)); [done|].
      by apply update_student_ids.
    + intros id. unfold delete_student.
      destruct (find_student _ _) as [i|]; [|done].
      pose proof (save_students_students io_ok
                    (with_students m (delete i (students m)))) as Hsave.
      destruct (save_students io_ok _) as [m' saved]. simpl in Hsave.
      assert (unique_ids (students m') = true) as Hm'.
      { rewrite Hsave. by apply unique_ids_delete. }
      by destruct saved.
    + intros ids. unfold bulk_delete_students.
      pose proof (save_students_students io_ok
        (with_students m
           (List.filter (fun s => not_in (student_id s) ids) (students m))))
        as Hsave.
      destruct (save_students io_ok _) as [m' saved]. simpl in Hsave.
      assert (unique_ids (students m') = true) as Hm'.
      { rewrite Hsave. by apply unique_ids_filter. }
      by destruct saved.
    + intros file. unfold import_from_csv. destruct file as [f|]; [|done].
      pose proof (proj1 (import_rows_invariants clk (DictReader f) 2
        {| imp_students := students m; imported_count := 0; errors := [] |})
        Huniq) as Hst.
      destruct (import_rows _ _ _ _) as [st [e|]]; simpl in *; [done|].
      pose proof (save_students_students io_ok
                    (with_students m (imp_students st))) as Hsave.
      destruct (save_students io_ok _) as [m' saved]. simpl in Hsave.
      assert (unique_ids (students m') = true) as Hm' by (by rewrite Hsave).
      by destruct saved.
Qed.

Lemma add_student_rejects_duplicate_id_witness :
  let m := Samples.saved [Samples.alice; Samples.bob] in
  add_student true m Samples.alice
  = (m, (false, Text "Student ID already exists"))
  /\ unique_ids
       (students
          (fst (add_student true (Samples.saved [Samples.alice]) Samples.bob)))
     = true
  /\ unique_ids
       (students
          (fst (update_student true Samples.later m (VStr "STU002")
                  [("name", VStr "Alice Smith"); ("grade", VStr "A")])))
     = true
  /\ unique_ids
       (students
          (fst (import_from_csv true Samples.clk (Some Samples.colliding_file) m)))
     = true.
Proof.
  intros m.
  destruct (add_student_rejects_duplicate_id true Samples.later m)
    as [Hdup Hkeep].
  destruct (Hkeep eq_refl) as (_ & Hupdate & _ & _ & _).
  destruct (add_student_rejects_duplicate_id true Samples.clk
              (Samples.saved [Samples.alice])) as [_ Hkeep1].
  destruct (Hkeep1 eq_refl) as (Hadd & _).
  destruct (add_student_rejects_duplicate_id true Samples.clk m) as [_ Hkeep2].
  destruct (Hkeep2 eq_refl) as (_ & _ & _ & _ & Himport).
  split; [exact (Hdup Samples.alice eq_refl)|].
  split; [exact (Hadd Samples.bob)|].
  split.
  { exact (Hupdate (VStr "STU002")
             [("name", VStr "Alice Smith"); ("grade", VStr "A")] eq_refl). }
  exact (Himport (Some Samples.colliding_file)).
Defined.

(** C3 fails as stated.  The in-memory variant appends without looking at
    the ids: a second student under the id ST001 is accepted, and the list
    then holds two students with that id. *)
Lemma duplicate_id_accepted :
  Advanced.add_student (Samples.fresh [Samples.aarav]) Samples.impostor
  = (Samples.fresh [Samples.aarav; Samples.impostor],
     (true, Text "Student added successfully"))
  /\ Advanced.student_id Samples.aarav = VStr "ST001"
  /\ Advanced.student_id Samples.impostor = VStr "ST001"
  /\ Advanced.unique_ids [Samples.aarav] = true
  /\ Advanced.unique_ids [Samples.aarav; Samples.impostor] = false.
Proof. repeat split; reflexivity. Qed.

End DuplicateIds.

(** ** Partial updates *)

Section PartialUpdate.
Import Persistent.

Lemma hasattr_any s s' key : hasattr s key = hasattr s' key.
Proof. reflexivity. Qed.

Lemma apply_kwargs_known s kwargs :
  apply_kwargs s (known s kwargs) = apply_kwargs s kwargs.
Proof.
  revert s. induction kwargs as [|[key v] rest IH]; intros s; [done|].
  unfold known in *. simpl.
  destruct (hasattr s key) eqn:Hk; simpl; rewrite ?Hk.
  - destruct (setattr s key v) as [s'|e]; [|done].
    rewrite <- (IH s'). done.
  - apply IH.
Qed.

Ltac field_cases H :=
  unfold mem, field_names in H; simpl in H;
  repeat (apply orb_prop in H; destruct H as [H|H]);
  try discriminate H; apply String.eqb_eq in H; subst.

Lemma instance_attribute_set_field_eq s key v :
  mem key field_names = true ->
  instance_attribute (set_field s key v) key = Some v.
Proof. intros H. field_cases H; reflexivity. Qed.

Lemma instance_attribute_set_field_ne s key v key' :
  key <> key' ->
  instance_attribute (set_field s key v) key' = instance_attribute s key'.
Proof.
  intros Hne. unfold instance_attribute.
  repeat match goal with
  | |- context [String.eqb key' ?lit] =>
      destruct (String.eqb_spec key' lit) as [->|_];
      [simpl; by rewrite (proj2 (String.eqb_neq key lit) Hne)|]
  end.
  reflexivity.
Qed.

Lemma find_filter_ne (l : list (string * value)) key key' :
  key <> key' ->
  find (fun kv => String.eqb (fst kv) key')
    (List.filter (fun kv => negb (String.eqb (fst kv) key)) l)
  = find (fun kv => String.eqb (fst kv) key') l.
Proof.
  intros Hne. induction l as [|[k v] l IH]; simpl; [done|].
  destruct (String.eqb_spec k key) as [->|Hk]; simpl.
  - by rewrite (proj2 (String.eqb_neq key key') Hne).
  - by rewrite IH.
Qed.

Lemma instance_attribute_set_shadowed_eq s key v :
  mem key field_names = false ->
  instance_attribute (set_shadowed s key v) key = Some v.
Proof.
  intros H. unfold mem, field_names in H. simpl in H.
  repeat (apply orb_false_elim in H; destruct H as [? H]).
  unfold instance_attribute.
  repeat match goal with
  | E : String.eqb key ?lit = false |- _ => rewrite E; clear E
  end.
  simpl. by rewrite String.eqb_refl.
Qed.

Lemma instance_attribute_set_shadowed_ne s key v key' :
  key <> key' ->
  instance_attribute (set_shadowed s key v) key' = instance_attribute s key'.
Proof.
  intros Hne. unfold instance_attribute.
  repeat match goal with
  | |- context [String.eqb key' ?lit] =>
      destruct (String.eqb_spec key' lit) as [->|_]; [reflexivity|]
  end.
  simpl. rewrite (proj2 (String.eqb_neq key key') Hne).
  by rewrite find_filter_ne.
Qed.

Lemma setattr_same s key v s' :
  setattr s key v = Ok s' -> instance_attribute s' key = Some v.
Proof.
  unfold setattr. destruct (mem key field_names) eqn:Hf.
  - intros [= <-]. by apply instance_attribute_set_field_eq.
  - destruct (_ || _); [done|]. destruct (String.eqb key "__weakref__"); [done|].
    intros [= <-]. by apply instance_attribute_set_shadowed_eq.
Qed.

Lemma setattr_other s key v s' key' :
  setattr s key v = Ok s' -> key <> key' ->
  instance_attribute s' key' = instance_attribute s key'.
Proof.
  unfold setattr. destruct (mem key field_names) eqn:Hf.
  - intros [= <-] ?. by apply instance_attribute_set_field_ne.
  - destruct (_ || _); [done|]. destruct (String.eqb key "__weakref__"); [done|].
    intros [= <-] ?. by apply instance_attribute_set_shadowed_ne.
Qed.

(** The attributes after the loop over [kwargs]: the names that [hasattr]
    found hold their new values, the other attributes hold their old ones. *)
Lemma apply_kwargs_attributes kwargs : forall s s',
  apply_kwargs s kwargs = (s', None) ->
  NoDup (map fst kwargs) ->
  (forall key v, In (key, v) kwargs -> hasattr s key = true ->
     instance_attribute s' key = Some v)
  /\ (forall key, (forall v, In (key, v) kwargs -> hasattr s key = false) ->
        instance_attribute s' key = instance_attribute s key).
Proof.
  induction kwargs as [|[k w] rest IH]; intros s s' Happly Hnd.
  - injection Happly as <-. split; [intros ? ? []|done].
  - apply NoDup_cons in Hnd as [Hk Hnd]. simpl in Happly.
    destruct (hasattr s k) eqn:Hh.
    + destruct (setattr s k w) as [s1|e] eqn:Hset; [|done].
      destruct (IH s1 s' Happly Hnd) as [IH1 IH2]. split.
      * intros key v [[= -> ->]|Hin] Hkey.
        -- rewrite IH2; [by eapply setattr_same|].
           intros v' Hin'. exfalso. apply Hk.
           apply list_elem_of_In, in_map_iff. by exists (key, v').
        -- by apply IH1 with (v := v).
      * intros key Hkey.
        assert (k <> key) as Hne.
        { intros ->. specialize (Hkey w (or_introl eq_refl)). congruence. }
        rewrite IH2; [by eapply setattr_other|].
        intros v Hin. apply (Hkey v). by right.
    + destruct (IH s s' Happly Hnd) as [IH1 IH2]. split.
      * intros key v [[= -> ->]|Hin] Hkey; [congruence|by apply IH1 with (v := v)].
      * intros key Hkey. apply IH2. intros v Hin. apply (Hkey v). by right.
Qed.

End PartialUpdate.

Section PartialUpdateClaim.
Import Persistent.

(** C4, as the code has it.  For an id of the list, [update_student] sets
    the entries of [kwargs] whose names are attributes of the student and
    passes over the others in silence: the call does what the call without
    them does.  When it reports success, the message is "Student updated
    successfully", [last_updated] is the time of the call, every attribute
    named in [kwargs] holds the value given and every other attribute, but
    [last_updated], holds its old value. *)
Theorem update_student_applies_known_fields io_ok clk m id kwargs i s :
  NoDup (map fst kwargs) ->
  find_student (students m) id = Some i ->
  students m !! i = Some s ->
  update_student io_ok clk m id kwargs
  = update_student io_ok clk m id (known s kwargs)
  /\ forall m' msg,
       update_student io_ok clk m id kwargs = (m', Ok (true, msg)) ->
       msg = Text "Student updated successfully"
       /\ exists s',
            students m' !! i = Some s'
            /\ last_updated s' = VStr (now clk)
            /\ (forall key v,
                  In (key, v) kwargs -> hasattr s key = true ->
                  key <> "last_updated" ->
                  instance_attribute s' key = Some v)
            /\ (forall key,
                  (forall v, In (key, v) kwargs -> hasattr s key = false) ->
                  key <> "last_updated" ->
                  instance_attribute s' key = instance_attribute s key).
Proof.
  intros Hnd Hi Hs. split.
  - unfold update_student. rewrite Hi, Hs.
    by rewrite apply_kwargs_known.
  - intros m' msg. unfold update_student. rewrite Hi, Hs.
    destruct (apply_kwargs s kwargs) as [s1 [e|]] eqn:Happly; [done|].
    pose proof (save_students_students io_ok
      (with_students m
         (<[i := set_last_updated s1 (VStr (now clk))]> (students m)))) as Hsave.
    destruct (save_students io_ok _) as [m1 saved]. simpl in Hsave.
    destruct saved; [|done].
    intros [= <- <-]. split; [done|].
    destruct (apply_kwargs_attributes kwargs s s1 Happly Hnd) as [H1 H2].
    exists (set_last_updated s1 (VStr (now clk))). rewrite Hsave.
    split; [|split; [done|split]].
    + apply list_lookup_insert_eq. by eapply lookup_lt_Some.
    + intros key v Hin Hkey Hne. unfold set_last_updated.
      rewrite instance_attribute_set_field_ne by done. by eapply H1.
    + intros key Hkey Hne. unfold set_last_updated.
      rewrite instance_attribute_set_field_ne by done. by apply H2.
Qed.

Lemma update_student_applies_known_fields_witness :
  let m := Samples.saved [Samples.alice; Samples.bob] in
  let kwargs := [("nickname", VStr "Al"); ("grade", VStr "B")] in
  update_student true Samples.later m (VStr "STU001") kwargs
  = update_student true Samples.later m (VStr "STU001") [("grade", VStr "B")]
  /\ forall m' msg,
       update_student true Samples.later m (VStr "STU001") kwargs
       = (m', Ok (true, msg)) ->
       msg = Text "Student updated successfully"
       /\ exists s',
            students m' !! 0%nat = Some s'
            /\ last_updated s' = VStr "2024-03-02 09:30:00"
            /\ (forall key v,
                  In (key, v) kwargs -> hasattr Samples.alice key = true ->
                  key <> "last_updated" ->
                  instance_attribute s' key = Some v)
            /\ (forall key,
                  (forall v, In (key, v) kwargs ->
                             hasattr Samples.alice key = false) ->
                  key <> "last_updated" ->
                  instance_attribute s' key
                  = instance_attribute Samples.alice key).
Proof.
  intros m kwargs.
  apply (update_student_applies_known_fields true Samples.later m
           (VStr "STU001") kwargs 0%nat Samples.alice).
  - apply (bool_decide_unpack _). vm_compute. exact I.
  - reflexivity.
  - reflexivity.
Defined.

(** C4 fails as stated.  A name that is no attribute of the student is not
    rejected: the call reports success, and nothing but [last_updated]
    has changed.  Both variants do so. *)
Lemma update_student_accepts_unknown_field :
  hasattr Samples.alice "nickname" = false
  /\ update_student true Samples.later
       (Samples.saved [Samples.alice; Samples.bob]) (VStr "STU001")
       [("nickname", VStr "Al")]
     = (Samples.saved
          [set_last_updated Samples.alice (VStr "2024-03-02 09:30:00");
           Samples.bob],
        Ok (true, Text "Student updated successfully"))
  /\ Advanced.update_student Samples.later (Samples.fresh [Samples.aarav])
       (VStr "ST001") [("nickname", VStr "Al")]
     = (Samples.fresh
          [Advanced.set_field Samples.aarav "last_updated"
             (VStr "2024-03-02 09:30:00")],
        (true, Text "Student updated successfully")).
Proof. repeat split; reflexivity. Qed.

End PartialUpdateClaim.


(** ** Reading back a formatted number *)

Lemma of_chars_chars s : of_chars (chars s) = s.
Proof. apply string_of_list_ascii_of_string. Qed.

Lemma chars_of_chars l : chars (of_chars l) = l.
Proof. apply list_ascii_of_string_of_list_ascii. Qed.

Lemma chars_append s t : chars (s +:+ t) = chars s ++ chars t.
Proof. induction s as [|c s IH]; simpl; [done|]. by rewrite <- IH. Qed.

Lemma lstrip_by_none p l :
  Forall (fun c => p c = false) l -> lstrip_by p l = l.
Proof. destruct 1 as [|c l Hc _]; simpl; [done|]. by rewrite Hc. Qed.

Lemma strip_by_none p l :
  Forall (fun c => p c = false) l -> strip_by p l = l.
Proof.
  intros H. unfold strip_by. rewrite (lstrip_by_none p l H).
  rewrite lstrip_by_none; [apply rev_involutive|].
  by apply List.Forall_rev.
Qed.

Lemma digits_tail_string_of_uint u :
  digits_tail (chars (NilEmpty.string_of_uint u)) = (u, []).
Proof. induction u; simpl; [done|..]; by rewrite IHu. Qed.

Lemma digitpart_string_of_uint u :
  u <> Decimal.Nil ->
  digitpart (chars (NilEmpty.string_of_uint u)) = Some (u, []).
Proof.
  destruct u; [done|..]; intros _; simpl;
    by rewrite digits_tail_string_of_uint.
Qed.

Lemma sign_string_of_uint u :
  sign (chars (NilEmpty.string_of_uint u))
  = (false, chars (NilEmpty.string_of_uint u)).
Proof. by destruct u. Qed.

Lemma no_space_string_of_uint u :
  Forall (fun c => is_number_space c = false)
    (chars (NilEmpty.string_of_uint u)).
Proof. induction u; simpl; constructor; done. Qed.

Lemma length_string_of_uint u :
  String.length (NilEmpty.string_of_uint u) = Decimal.nb_digits u.
Proof. induction u; simpl; [done|..]; by f_equal. Qed.

(** Padding with zeros is padding the number with leading zeros, which
    do not change it. *)
Lemma zeros_string_of_uint k u :
  zeros k +:+ NilEmpty.string_of_uint u
  = NilEmpty.string_of_uint (Nat.iter k Decimal.D0 u).
Proof.
  induction k as [|k IH]; [done|].
  change (String "0" (zeros k +:+ NilEmpty.string_of_uint u)
          = String "0" (NilEmpty.string_of_uint (Nat.iter k Decimal.D0 u))).
  by rewrite IH.
Qed.

Lemma of_uint_leading_zeros k u :
  Z.of_uint (Nat.iter k Decimal.D0 u) = Z.of_uint u.
Proof. induction k as [|k IH]; simpl; [done|]. exact IH. Qed.

Lemma nb_digits_leading_zeros k u :
  Decimal.nb_digits (Nat.iter k Decimal.D0 u) = (k + Decimal.nb_digits u)%nat.
Proof. induction k as [|k IH]; simpl; [done|]. by rewrite IH. Qed.

Lemma leading_zeros_nonnil k u :
  u <> Decimal.Nil -> Nat.iter k Decimal.D0 u <> Decimal.Nil.
Proof. destruct k; simpl; done. Qed.

Lemma to_uint_nonnil n : N.to_uint n <> Decimal.Nil.
Proof. destruct n; simpl; [done|]. apply DecimalPos.Unsigned.to_uint_nonnil. Qed.

Lemma of_uint_to_uint n : Z.of_uint (N.to_uint n) = Z.of_N n.
Proof.
  unfold Z.of_uint. f_equal. exact (DecimalN.Unsigned.of_to n).
Qed.

(** What [f"{n:03d}"] prints, [int] reads back. *)
Lemma int_of_string_format_03d n text :
  format_03d n = Ok text -> int_of_string text = Ok n.
Proof.
  unfold format_03d, zero_pad, digits.
  rewrite length_string_of_uint.
  destruct (Nat.leb_spec (Decimal.nb_digits (N.to_uint (Z.abs_N n)))
              max_str_digits) as [Hlen|]; [|done].
  assert (forall k,
            (k + Decimal.nb_digits (N.to_uint (Z.abs_N n)) <= 3)%nat
            \/ k = 0%nat ->
            (Decimal.nb_digits
               (Nat.iter k Decimal.D0 (N.to_uint (Z.abs_N n)))
             <=? max_str_digits)%nat = true) as Hfit.
  { intros k Hk. apply Nat.leb_le. rewrite nb_digits_leading_zeros.
    unfold max_str_digits in *. lia. }
  destruct (Z.ltb_spec n 0) as [Hneg|Hpos]; intros [= <-].
  - rewrite zeros_string_of_uint.
    set (k := (2 - _)%nat) in *.
    set (u := Nat.iter k Decimal.D0 (N.to_uint (Z.abs_N n))).
    unfold int_of_string. simpl chars.
    rewrite strip_by_none
      by (constructor; [done|apply no_space_string_of_uint]).
    simpl. rewrite digitpart_string_of_uint
      by apply leading_zeros_nonnil, to_uint_nonnil.
    unfold u. rewrite Hfit by (unfold k; lia).
    rewrite of_uint_leading_zeros, of_uint_to_uint. f_equal. lia.
  - rewrite zeros_string_of_uint.
    set (k := (3 - _)%nat) in *.
    set (u := Nat.iter k Decimal.D0 (N.to_uint (Z.abs_N n))).
    unfold int_of_string.
    rewrite strip_by_none by apply no_space_string_of_uint.
    rewrite sign_string_of_uint.
    rewrite digitpart_string_of_uint
      by apply leading_zeros_nonnil, to_uint_nonnil.
    unfold u. rewrite Hfit by (unfold k; lia).
    rewrite of_uint_leading_zeros, of_uint_to_uint. f_equal. lia.
Qed.

Lemma slice_from_prefix p s : slice_from (String.length p) (p +:+ s) = s.
Proof.
  unfold slice_from. rewrite chars_append.
  replace (String.length p) with (length (chars p)).
  - by rewrite drop_app_length, of_chars_chars.
  - induction p; simpl; [done|]. by f_equal.
Qed.

(** *** The number of digits of a number *)

Section Digits.
Import DecimalPos.Unsigned.
Local Open Scope N_scope.

Lemma usize_nb_digits d : usize d = N.of_nat (Decimal.nb_digits d).
Proof.
  induction d; simpl Decimal.nb_digits; simpl usize; [done|..];
    rewrite IHd; lia.
Qed.

(** The value of a number written in digits is its first digit times the
    power of ten of the others, plus the value of the others. *)
Lemma of_uint_head (digit : Decimal.uint -> Decimal.uint) d :
  In digit [Decimal.D0; Decimal.D1; Decimal.D2; Decimal.D3; Decimal.D4;
            Decimal.D5; Decimal.D6; Decimal.D7; Decimal.D8; Decimal.D9] ->
  N.of_uint (digit d) = hd (digit Decimal.Nil) * 10 ^ usize d + N.of_uint d.
Proof.
  assert (forall x, N.of_uint x = of_lu (Decimal.rev x)) as Halt.
  { intros x. unfold N.of_uint. apply of_uint_alt. }
  intros Hdigit. rewrite !Halt. simpl in Hdigit.
  repeat (destruct Hdigit as [<-|Hdigit]); try done;
    unfold Decimal.rev at 1; simpl Decimal.revapp;
    rewrite of_lu_revapp; simpl of_lu; simpl hd; lia.
Qed.

Lemma of_uint_below d : N.of_uint d < 10 ^ usize d.
Proof.
  induction d; simpl usize; [done|..]; rewrite N.pow_succ_r';
    match goal with
    | |- N.of_uint (?digit d) < _ =>
        rewrite (of_uint_head digit d) by (simpl; tauto)
    end; simpl hd; lia.
Qed.

Lemma of_uint_above d :
  Decimal.unorm d = d -> N.of_uint d <> 0 -> 10 ^ usize d <= 10 * N.of_uint d.
Proof.
  intros Hnorm Hpos.
  destruct d; simpl usize; rewrite ?N.pow_succ_r';
    [done| |
     match goal with
     | |- _ <= 10 * N.of_uint (?digit d) =>
         rewrite (of_uint_head digit d) by (simpl; tauto)
     end; simpl hd; pose proof (of_uint_below d); nia ..].
  (* a head digit of zero *)
  exfalso. rewrite DecimalFacts.unorm_D0 in Hnorm.
  destruct (Decimal.uint_eq_dec (Decimal.nzhead d) Decimal.Nil) as [Hnil|Hnil].
  - unfold Decimal.unorm in Hnorm. rewrite Hnil in Hnorm.
    injection Hnorm as <-. by apply Hpos.
  - rewrite (DecimalFacts.unorm_nzhead d Hnil) in Hnorm.
    pose proof (DecimalFacts.nb_digits_nzhead d) as Hle.
    rewrite Hnorm in Hle. simpl in Hle. lia.
Qed.

(** A number below [10 ^ k] has [k] digits at most. *)
Lemma digits_length n k :
  (0 < k)%nat -> n < 10 ^ N.of_nat k -> (String.length (digits n) <= k)%nat.
Proof.
  intros Hk Hn. unfold digits. rewrite length_string_of_uint.
  destruct (N.eq_dec n 0) as [->|Hpos]; [simpl; lia|].
  pose proof (of_uint_above (N.to_uint n)) as Habove.
  rewrite DecimalN.Unsigned.of_to in Habove.
  rewrite usize_nb_digits in Habove.
  assert (Decimal.unorm (N.to_uint n) = N.to_uint n) as Hnorm.
  { rewrite <- DecimalN.Unsigned.to_of.
    by rewrite DecimalN.Unsigned.of_to. }
  specialize (Habove Hnorm Hpos).
  destruct (Nat.le_gt_cases (Decimal.nb_digits (N.to_uint n)) k) as [|Hgt];
    [done|exfalso].
  assert (10 ^ N.of_nat (S k) <= 10 ^ N.of_nat (Decimal.nb_digits (N.to_uint n)))
    as Hpow by (apply N.pow_le_mono_r; lia).
  rewrite Nat2N.inj_succ, N.pow_succ_r' in Hpow. lia.
Qed.

End Digits.

Lemma int_limit_large : 1000 < int_limit.
Proof. vm_compute. reflexivity. Qed.

Lemma format_03d_ok n :
  Z.abs n < int_limit -> exists text, format_03d n = Ok text.
Proof.
  intros Hn. unfold format_03d.
  assert (String.length (digits (Z.abs_N n)) <= max_str_digits)%nat as Hlen.
  { apply digits_length; [unfold max_str_digits; apply Nat.lt_0_succ|].
    apply N2Z.inj_lt. rewrite N2Z.inj_abs_N, N2Z.inj_pow.
    rewrite nat_N_Z. exact Hn. }
  apply Nat.leb_le in Hlen. rewrite Hlen. by eexists.
Qed.

Lemma int_of_string_bound s k :
  int_of_string s = Ok k -> Z.abs k < int_limit.
Proof.
  unfold int_of_string. destruct (sign _) as [neg l].
  destruct (digitpart l) as [[u [|c r]]|]; try done.
  destruct (Nat.leb_spec (Decimal.nb_digits u) max_str_digits) as [Hlen|];
    [|done].
  intros [= <-].
  assert (Z.of_uint u < int_limit) as Hu.
  { unfold Z.of_uint, int_limit. pose proof (of_uint_below u) as Hbelow.
    rewrite usize_nb_digits in Hbelow.
    apply N2Z.inj_lt in Hbelow. rewrite N2Z.inj_pow, nat_N_Z in Hbelow.
    eapply Z.lt_le_trans; [exact Hbelow|].
    apply Z.pow_le_mono_r; [done|]. by apply Nat2Z.inj_le. }
  assert (0 <= Z.of_uint u) as Hpos by (unfold Z.of_uint; apply N2Z.is_nonneg).
  generalize dependent (Z.of_uint u). generalize int_limit.
  intros; destruct neg; lia.
Qed.

Lemma int_of_string_raises s e : int_of_string s = Raise e -> e = ValueError.
Proof.
  unfold int_of_string. destruct (sign _) as [neg l].
  destruct (digitpart l) as [[u [|c r]]|]; try congruence.
  destruct (_ <=? _)%nat; congruence.
Qed.

Lemma float_of_string_raises s e : float_of_string s = Raise e -> e = ValueError.
Proof.
  unfold float_of_string. destruct (sign _) as [neg l].
  destruct (_ || _); [done|]. destruct (String.eqb _ _); [done|].
  destruct (number_part l) as [[[ip fp] r]|]; [|congruence].
  destruct (exponent_part r) as [[e' [|c r']]|]; congruence.
Qed.

Lemma max_list_ge x l : x <= Persistent.max_list x l.
Proof.
  unfold Persistent.max_list. revert x.
  induction l as [|y l IH]; intros x; simpl; [lia|].
  specialize (IH (Z.max x y)). lia.
Qed.

Lemma max_list_upper x l y : In y l -> y <= Persistent.max_list x l.
Proof.
  unfold Persistent.max_list. revert x.
  induction l as [|z l IH]; intros x; simpl; [done|].
  intros [->|Hin].
  - pose proof (max_list_ge (Z.max x y) l) as H.
    unfold Persistent.max_list in H. lia.
  - by apply IH.
Qed.

Lemma max_list_bound x l y : In y (x :: l) -> y <= Persistent.max_list x l.
Proof. intros [<-|Hin]; [apply max_list_ge|by apply max_list_upper]. Qed.

(** The largest number of a list is one of its numbers. *)
Lemma max_list_in x l : In (Persistent.max_list x l) (x :: l).
Proof.
  unfold Persistent.max_list. revert x.
  induction l as [|y l IH]; intros x; simpl; [by left|].
  destruct (IH (Z.max x y)) as [H|H].
  - rewrite <- H. destruct (Z.max_spec x y) as [[_ ->]|[_ ->]]; tauto.
  - tauto.
Qed.

(** ** Identifier allocation *)

Lemma persistent_id_numbers_in l : forall nums n,
  Persistent.id_numbers l = Ok nums ->
  In n nums
  <-> exists s, In s l /\ id_number 3 (Persistent.student_id s) = Some n.
Proof.
  induction l as [|a l IH]; intros nums n Hnums; simpl in Hnums.
  - injection Hnums as <-. split; [done|]. by intros (s & [] & _).
  - unfold id_number at 1.
    destruct (Persistent.student_id a) as [| | | |id|] eqn:Hid; try done.
    destruct (int_of_string (slice_from 3 id)) as [num|e] eqn:Hnum.
    + destruct (Persistent.id_numbers l) as [nums'|] eqn:Hl; [|done].
      injection Hnums as <-. specialize (IH nums' n eq_refl). split.
      * intros [<-|Hin].
        -- exists a. split; [by left|]. unfold id_number. by rewrite Hid, Hnum.
        -- apply IH in Hin as (s & Hs & Hk). exists s. split; [by right|done].
      * intros (s & [<-|Hs] & Hk).
        -- unfold id_number in Hk. rewrite Hid, Hnum in Hk.
           injection Hk as <-. by left.
        -- right. apply IH. by exists s.
    + assert (Persistent.id_numbers l = Ok nums) as Hl by (by destruct e).
      rewrite (IH nums n Hl). split.
      * intros (s & Hs & Hk). exists s. split; [by right|done].
      * intros (s & [<-|Hs] & Hk); [|by exists s].
        unfold id_number in Hk. by rewrite Hid, Hnum in Hk.
Qed.

Lemma persistent_id_numbers_strings l nums :
  Persistent.id_numbers l = Ok nums ->
  Spec.strings (map Persistent.student_id l).
Proof.
  revert nums. induction l as [|a l IH]; intros nums Hnums; [constructor|].
  simpl in Hnums.
  destruct (Persistent.student_id a) as [| | | |id|] eqn:Hid; try done.
  simpl. rewrite Hid. constructor; [by eexists|].
  destruct (int_of_string _) as [num|e].
  - destruct (Persistent.id_numbers l) as [nums'|] eqn:Hl; [|done].
    by eapply IH.
  - destruct e; try done. by eapply IH.
Qed.

Lemma persistent_id_numbers_ok l :
  Spec.strings (map Persistent.student_id l) ->
  exists nums, Persistent.id_numbers l = Ok nums.
Proof.
  induction l as [|a l IH]; intros Hstr; [by eexists|].
  inversion Hstr as [|? ? [id Hid] Hrest]; subst.
  destruct (IH Hrest) as [nums Hnums]. simpl. rewrite Hid, Hnums.
  destruct (int_of_string _) as [num|e] eqn:Hnum; [by eexists|].
  apply int_of_string_raises in Hnum as ->. by eexists.
Qed.

Lemma advanced_id_numbers_in l : forall nums n,
  Advanced.id_numbers l = Ok nums ->
  In n nums
  <-> exists s, In s l /\ id_number 2 (Advanced.student_id s) = Some n.
Proof.
  induction l as [|a l IH]; intros nums n Hnums; simpl in Hnums.
  - injection Hnums as <-. split; [done|]. by intros (s & [] & _).
  - unfold id_number at 1.
    destruct (Advanced.student_id a) as [| | | |id|] eqn:Hid; try done.
    destruct (int_of_string (slice_from 2 id)) as [num|e] eqn:Hnum; [|done].
    cbn [mbind pyres_bind] in Hnums.
    destruct (Advanced.id_numbers l) as [nums'|] eqn:Hl; [|done].
    injection Hnums as <-. specialize (IH nums' n eq_refl). split.
    + intros [<-|Hin].
      * exists a. split; [by left|]. unfold id_number. by rewrite Hid, Hnum.
      * apply IH in Hin as (s & Hs & Hk). exists s. split; [by right|done].
    + intros (s & [<-|Hs] & Hk).
      * unfold id_number in Hk. rewrite Hid, Hnum in Hk.
        injection Hk as <-. by left.
      * right. apply IH. by exists s.
Qed.

(** In the in-memory variant every id must hold a number. *)
Lemma advanced_id_numbers_all l nums :
  Advanced.id_numbers l = Ok nums ->
  Forall (fun s => exists id k, Advanced.student_id s = VStr id
                     /\ id_number 2 (VStr id) = Some k) l.
Proof.
  revert nums. induction l as [|a l IH]; intros nums Hnums; [constructor|].
  simpl in Hnums.
  destruct (Advanced.student_id a) as [| | | |id|] eqn:Hid; try done.
  destruct (int_of_string (slice_from 2 id)) as [num|e] eqn:Hnum; [|done].
  cbn [mbind pyres_bind] in Hnums.
  destruct (Advanced.id_numbers l) as [nums'|] eqn:Hl; [|done].
  constructor; [|by eapply IH].
  exists id, num. split; [done|]. unfold id_number. by rewrite Hnum.
Qed.

Lemma advanced_id_numbers_ok l :
  Forall (fun s => is_Some (id_number 2 (Advanced.student_id s))) l ->
  exists nums, Advanced.id_numbers l = Ok nums /\ length nums = length l.
Proof.
  induction l as [|a l IH]; intros Hall; [by eexists|].
  inversion Hall as [|? ? [k Hk] Hrest]; subst.
  destruct (IH Hrest) as (nums & Hnums & Hlen). simpl.
  unfold id_number in Hk.
  destruct (Advanced.student_id a) as [| | | |id|]; try done.
  destruct (int_of_string _) as [num|]; [|done].
  cbn [mbind pyres_bind]. rewrite Hnums. eexists. split; [done|].
  simpl. by rewrite Hlen.
Qed.

(** The number that follows the numbers read. *)
Lemma next_number_of_list (p : nat) (ids : list value) (x : Z) (l : list Z) :
  (forall n, In n (x :: l) <-> exists id, In id ids /\ id_number p id = Some n) ->
  Spec.next_number p ids (Persistent.max_list x l + 1).
Proof.
  intros Hnums. split.
  - intros id k Hin Hk.
    assert (In k (x :: l)) as Hk' by (apply Hnums; by exists id).
    apply max_list_bound in Hk'. lia.
  - right. apply Hnums. replace (_ + 1 - 1) with (Persistent.max_list x l) by lia.
    apply max_list_in.
Qed.

(** An id made of the prefix and a number above the numbers read is the
    id of no student. *)
Lemma formatted_id_fresh (prefix : string) (ids : list value) n text :
  (forall id k, In id ids -> id_number (String.length prefix) id = Some k ->
     k < n) ->
  format_03d n = Ok text ->
  existsb (fun id => py_eq id (VStr (prefix +:+ text))) ids = false.
Proof.
  intros Hbelow Htext. apply not_true_is_false.
  intros (id & Hin & Heq)%existsb_exists.
  assert (id = VStr (prefix +:+ text)) as ->.
  { destruct id; try done. by apply py_eq_str in Heq as ->. }
  specialize (Hbelow _ n Hin). unfold id_number in Hbelow.
  rewrite slice_from_prefix, (int_of_string_format_03d _ _ Htext) in Hbelow.
  specialize (Hbelow eq_refl). lia.
Qed.

Lemma id_present_map l id :
  Persistent.id_present l id
  = existsb (fun i => py_eq i id) (map Persistent.student_id l).
Proof.
  unfold Persistent.id_present.
  induction l as [|a l IH]; simpl; [done|]. by rewrite IH.
Qed.

Lemma has_id_map l id :
  Advanced.has_id l id
  = existsb (fun i => py_eq i id) (map Advanced.student_id l).
Proof.
  unfold Advanced.has_id.
  induction l as [|a l IH]; simpl; [done|]. by rewrite IH.
Qed.

Lemma in_ids {A} (f : A -> value) l (P : value -> Prop) :
  (exists s, In s l /\ P (f s)) <-> (exists id, In id (map f l) /\ P id).
Proof.
  split.
  - intros (s & Hs & HP). exists (f s). split; [by apply in_map|done].
  - intros (id & (s & <- & Hs)%in_map_iff & HP). by exists s.
Qed.

Lemma id_number_bound p id k : id_number p id = Some k -> Z.abs k < int_limit.
Proof.
  unfold id_number. destruct id; try done.
  destruct (int_of_string _) as [k'|] eqn:Hint; [|done].
  intros [= <-]. by eapply int_of_string_bound.
Qed.

(** On ids that hold numbers below a bound, the next id is found, and its
    number is the bound at most. *)
Lemma advanced_next_id_below bound m :
  Spec.ids_below bound (Advanced.students m) = true ->
  bound < int_limit ->
  exists n text,
    Advanced.get_next_student_id m = Ok ("ST" +:+ text)
    /\ format_03d n = Ok text /\ n <= bound.
Proof.
  intros [Hone Hbelow]%andb_prop Hbound. apply Z.leb_le in Hone.
  unfold Advanced.get_next_student_id.
  destruct (Advanced.students m) as [|a l] eqn:Hl.
  { exists 1, "001". by repeat split. }
  rewrite <- Hl in *. rewrite forallb_forall in Hbelow.
  destruct (advanced_id_numbers_ok (Advanced.students m))
    as (nums & Hnums & Hlen).
  { apply List.Forall_forall. intros s Hs. specialize (Hbelow s Hs).
    destruct (id_number 2 _); [by eexists|done]. }
  rewrite Hnums. cbn [mbind pyres_bind].
  destruct nums as [|x nums]; [by rewrite Hl in Hlen|].
  pose proof (max_list_in x nums) as Hmax.
  apply (advanced_id_numbers_in _ _ _ Hnums) in Hmax as (s & Hs & Hk).
  specialize (Hbelow s Hs). rewrite Hk in Hbelow. apply Z.ltb_lt in Hbelow.
  apply id_number_bound in Hk.
  destruct (format_03d_ok (Persistent.max_list x nums + 1)) as [text Htext];
    [lia|].
  exists (Persistent.max_list x nums + 1), text. rewrite Htext.
  split; [done|]. split; [done|lia].
Qed.

(** C2, as the code has it.  In both variants the id that
    [get_next_student_id] returns is the prefix followed by one more than
    the largest number read in the ids of the students of the list, in
    three digits or more; 1 follows when the list is empty (and, in the
    persistent variant, when no id holds a number).  So it is the id of no
    student of the list.  It is returned whenever the ids are strings (in
    the in-memory variant: strings that hold a number) and
    the number to print is below [int_limit], the limit of the numbers
    that are printed. *)
Theorem next_student_id_unused_in_store :
  (forall m id,
     Persistent.get_next_student_id m = Ok id ->
     exists n text,
       format_03d n = Ok text /\ id = "STU" +:+ text
       /\ Spec.next_number 3 (map Persistent.student_id (Persistent.students m)) n
       /\ Persistent.id_present (Persistent.students m) (VStr id) = false)
  /\ (forall m,
        Spec.strings (map Persistent.student_id (Persistent.students m)) ->
        (forall s k, In s (Persistent.students m) ->
           id_number 3 (Persistent.student_id s) = Some k ->
           k < int_limit - 1) ->
        exists id, Persistent.get_next_student_id m = Ok id)
  /\ (forall m id,
        Advanced.get_next_student_id m = Ok id ->
        exists n text,
          format_03d n = Ok text /\ id = "ST" +:+ text
          /\ Spec.next_number 2 (map Advanced.student_id (Advanced.students m)) n
          /\ Forall (fun s => is_Some (id_number 2 (Advanced.student_id s)))
               (Advanced.students m)
          /\ Advanced.has_id (Advanced.students m) (VStr id) = false)
  /\ (forall m,
        Spec.ids_below (int_limit - 1) (Advanced.students m) = true ->
        exists id, Advanced.get_next_student_id m = Ok id).
Proof.
  split; [|split; [|split]].
  - intros m id. unfold Persistent.get_next_student_id.
    destruct (Persistent.students m) as [|a l] eqn:Hl.
    { intros [= <-]. exists 1, "001". repeat split; try done.
      left. split; [done|]. by intros ? []. }
    rewrite <- Hl. clear Hl a l.
    destruct (Persistent.id_numbers _) as [nums|] eqn:Hnums; [|done].
    cbn [mbind pyres_bind].
    set (n := match nums with [] => 1 | x :: l => _ end).
    destruct (format_03d n) as [text|] eqn:Htext; [|done].
    intros [= <-]. exists n, text.
    assert (Spec.next_number 3
              (map Persistent.student_id (Persistent.students m)) n) as Hnext.
    { pose proof (persistent_id_numbers_in (Persistent.students m) nums) as Hin.
      destruct nums as [|x nums].
      - split.
        + intros id k Hid Hk. destruct (proj2 (Hin k Hnums)).
          apply (in_ids Persistent.student_id _
                   (fun id => id_number 3 id = Some k)). by exists id.
        + left. split; [done|]. intros id Hid.
          destruct (id_number 3 id) as [k|] eqn:Hk; [|done].
          destruct (proj2 (Hin k Hnums)).
          apply (in_ids Persistent.student_id _
                   (fun id => id_number 3 id = Some k)). by exists id.
      - apply next_number_of_list. intros k. rewrite (Hin k Hnums).
        apply (in_ids Persistent.student_id _
                 (fun id => id_number 3 id = Some k)). }
    repeat split; try done; try apply Hnext.
    rewrite id_present_map.
    apply (formatted_id_fresh "STU" _ n); [apply Hnext|done].
  - intros m Hstr Hbound. unfold Persistent.get_next_student_id.
    destruct (Persistent.students m) as [|a l] eqn:Hl; [by eexists|].
    rewrite <- Hl in *. clear Hl a l.
    destruct (persistent_id_numbers_ok _ Hstr) as [nums Hnums].
    rewrite Hnums. cbn [mbind pyres_bind].
    set (n := match nums with [] => 1 | x :: l => _ end).
    destruct (format_03d_ok n) as [text Htext].
    + pose proof int_limit_large as Hlarge.
      destruct nums as [|x nums]; [subst n; lia|].
      pose proof (max_list_in x nums) as Hmax.
      apply (persistent_id_numbers_in _ _ _ Hnums) in Hmax as (s & Hs & Hk).
      pose proof (Hbound _ _ Hs Hk).
      unfold id_number in Hk.
      destruct (Persistent.student_id s); try discriminate Hk.
      destruct (int_of_string _) as [k|] eqn:Hint; [|discriminate Hk].
      injection Hk as Hk. apply int_of_string_bound in Hint.
      subst n. lia.
    + rewrite Htext. by eexists.
  - intros m id. unfold Advanced.get_next_student_id.
    destruct (Advanced.students m) as [|a l] eqn:Hl.
    { intros [= <-]. exists 1, "001". repeat split; try done.
      left. split; [done|]. by intros ? []. }
    rewrite <- Hl. clear Hl a l.
    destruct (Advanced.id_numbers _) as [nums|] eqn:Hnums; [|done].
    cbn [mbind pyres_bind]. destruct nums as [|x nums]; [done|].
    destruct (format_03d _) as [text|] eqn:Htext; [|done].
    intros [= <-]. eexists _, text.
    assert (Spec.next_number 2
              (map Advanced.student_id (Advanced.students m))
              (Persistent.max_list x nums + 1)) as Hnext.
    { apply next_number_of_list. intros k.
      rewrite (advanced_id_numbers_in _ _ k Hnums).
      apply (in_ids Advanced.student_id _
               (fun id => id_number 2 id = Some k)). }
    repeat split; try done; try apply Hnext.
    + eapply List.Forall_impl; [|exact (advanced_id_numbers_all _ _ Hnums)].
      intros s (sid & k & -> & ->). by eexists.
    + rewrite has_id_map.
      apply (formatted_id_fresh "ST" _ (Persistent.max_list x nums + 1) text);
        [apply Hnext|done].
  - intros m Hbelow.
    destruct (advanced_next_id_below _ m Hbelow) as (n & text & Hid & _);
      [lia|].
    by eexists.
Qed.

(** The example of the specification: STU001 and STU002 added, STU001
    deleted, the next id is STU003; it is one more than the number of
    STU002 and it is unused. *)
Lemma next_student_id_unused_in_store_witness :
  Persistent.get_next_student_id (Samples.saved [Samples.bob]) = Ok "STU003"
  /\ (exists n text,
        format_03d n = Ok text /\ "STU003" = "STU" +:+ text
        /\ Spec.next_number 3 [VStr "STU002"] n
        /\ Persistent.id_present [Samples.bob] (VStr "STU003") = false)
  /\ Spec.ids_below (int_limit - 1) [Samples.aarav; Samples.priya] = true
  /\ (exists id,
        Advanced.get_next_student_id
          (Samples.fresh [Samples.aarav; Samples.priya]) = Ok id).
Proof.
  split; [reflexivity|]. split; [|split].
  - apply (proj1 next_student_id_unused_in_store
             (Samples.saved [Samples.bob]) "STU003").
    reflexivity.
  - vm_compute. reflexivity.
  - apply (proj2 (proj2 (proj2 next_student_id_unused_in_store))
             (Samples.fresh [Samples.aarav; Samples.priya])).
    vm_compute. reflexivity.
Defined.

(** C2 fails as stated.  STU001 and STU002 are allocated and added, the
    student STU002 is deleted: the next id is STU002 again. *)
Lemma next_student_id_reuses_deleted_id :
  let m0 := Samples.saved [] in
  let m1 := fst (Persistent.add_student true m0 Samples.alice) in
  let m2 := fst (Persistent.add_student true m1 Samples.bob) in
  let m3 := fst (Persistent.delete_student true m2 (VStr "STU002")) in
  Persistent.get_next_student_id m0 = Ok "STU001"
  /\ Persistent.student_id Samples.alice = VStr "STU001"
  /\ Persistent.get_next_student_id m1 = Ok "STU002"
  /\ Persistent.student_id Samples.bob = VStr "STU002"
  /\ Persistent.id_present (Persistent.students m2) (VStr "STU002") = true
  /\ Persistent.students m3 = [Samples.alice]
  /\ Persistent.get_next_student_id m3 = Ok "STU002".
Proof. repeat split; reflexivity. Qed.

(** ** Validation *)

Section Validation.
Import Persistent.

Lemma append_if_spec bad msg errors :
  append_if bad msg errors = errors ++ (if bad then [msg] else []).
Proof. unfold append_if. destruct bad; [done|by rewrite app_nil_r]. Qed.

(** What the validation reads for a field of a textual record. *)
Lemma textual_field d f :
  Rules.textual d = true ->
  d !! Rules.key f = Some (VStr (Rules.text d f))
  \/ d !! Rules.key f = None /\ Rules.text d f = Rules.default f.
Proof.
  unfold Rules.textual. rewrite forallb_forall. intros Hall.
  assert (In f Rules.fields) as Hin by (destruct f; simpl; tauto).
  specialize (Hall f Hin). unfold Rules.text.
  destruct (d !! Rules.key f) as [[]|]; try done; tauto.
Qed.

Ltac field_cases d f H :=
  let Hv := fresh "Hv" in
  let Ht := fresh "Ht" in
  unfold dict_get;
  destruct (textual_field d f H) as [Hv|[Hv Ht]];
  simpl Rules.key in Hv; rewrite Hv; [|rewrite Ht; simpl Rules.default];
  generalize (Rules.text d f); intros ?.

Lemma negb_if {A} (b : bool) (x y : A) :
  (if negb b then x else y) = (if b then y else x).
Proof. by destruct b. Qed.

Lemma check_name_verdict d errors :
  Rules.textual d = true ->
  check_name d errors
  = Ok (errors ++ Rules.verdict Rules.Name (Rules.text d Rules.Name)).
Proof.
  intros H. unfold check_name, Rules.verdict.
  destruct (textual_field d Rules.Name H) as [Hv|[Hv Ht]];
    unfold dict_get; simpl Rules.key in Hv; rewrite Hv, ?Ht;
    cbn [validate_name mbind pyres_bind Rules.default];
    by rewrite append_if_spec, negb_if.
Qed.

Lemma check_age_verdict d errors :
  Rules.textual d = true ->
  check_age d errors
  = Ok (errors ++ Rules.verdict Rules.Age (Rules.text d Rules.Age)).
Proof.
  intros H. unfold check_age, Rules.verdict.
  destruct (textual_field d Rules.Age H) as [Hv|[Hv Ht]];
    unfold dict_get; simpl Rules.key in Hv; rewrite Hv, ?Ht.
  2: { by vm_compute. }
  cbn [py_int Rules.keeps Rules.message].
  destruct (int_of_string _) as [age|e] eqn:Hint.
  - cbn [mbind pyres_bind except_ValueError].
    by rewrite append_if_spec, negb_if.
  - by apply int_of_string_raises in Hint as ->.
Qed.

Lemma check_grade_verdict d errors :
  Rules.textual d = true ->
  check_grade d errors
  = Ok (errors ++ Rules.verdict Rules.Grade (Rules.text d Rules.Grade)).
Proof.
  intros H. unfold check_grade, Rules.verdict.
  destruct (textual_field d Rules.Grade H) as [Hv|[Hv Ht]];
    unfold dict_get; simpl Rules.key in Hv; rewrite Hv, ?Ht;
    cbn [Rules.default]; by rewrite append_if_spec, negb_if.
Qed.

Lemma check_email_verdict d errors :
  Rules.textual d = true ->
  check_email d errors
  = Ok (errors ++ Rules.verdict Rules.Email (Rules.text d Rules.Email)).
Proof.
  intros H. unfold check_email, Rules.verdict.
  destruct (textual_field d Rules.Email H) as [Hv|[Hv Ht]];
    unfold dict_get; simpl Rules.key in Hv; rewrite Hv, ?Ht;
    cbn [validate_email mbind pyres_bind Rules.default];
    by rewrite append_if_spec, negb_if.
Qed.

Lemma check_performance_verdict d errors :
  Rules.textual d = true ->
  check_performance d errors
  = Ok (errors
        ++ Rules.verdict Rules.Performance (Rules.text d Rules.Performance)).
Proof.
  intros H. unfold check_performance, Rules.verdict.
  destruct (textual_field d Rules.Performance H) as [Hv|[Hv Ht]];
    unfold dict_get; simpl Rules.key in Hv; rewrite Hv, ?Ht.
  2: { replace (Rules.keeps Rules.Performance (Rules.default Rules.Performance))
         with true by (by vm_compute).
       rewrite app_nil_r. by vm_compute. }
  cbn [py_float Rules.keeps Rules.message].
  destruct (float_of_string _) as [performance|e] eqn:Hfloat.
  - cbn [mbind pyres_bind except_ValueError].
    by rewrite append_if_spec, negb_if.
  - by apply float_of_string_raises in Hfloat as ->.
Qed.

Lemma check_phone_verdict d errors :
  Rules.textual d = true ->
  check_phone d errors
  = Ok (errors ++ Rules.verdict Rules.Phone (Rules.text d Rules.Phone)).
Proof.
  intros H. unfold check_phone, Rules.verdict.
  destruct (textual_field d Rules.Phone H) as [Hv|[Hv Ht]];
    unfold dict_get; simpl Rules.key in Hv; rewrite Hv, ?Ht;
    [|by rewrite app_nil_r].
  unfold validate_phone. cbn [truthy Rules.keeps Rules.message].
  destruct (String.eqb _ "");
    cbn [negb orb mbind pyres_bind]; [by rewrite app_nil_r|].
  by rewrite append_if_spec, negb_if.
Qed.

Lemma check_course_verdict d errors :
  Rules.textual d = true ->
  check_course d errors
  = Ok (errors ++ Rules.verdict Rules.Course (Rules.text d Rules.Course)).
Proof.
  intros H. unfold check_course, Rules.verdict.
  destruct (textual_field d Rules.Course H) as [Hv|[Hv Ht]];
    unfold dict_get; simpl Rules.key in Hv; rewrite Hv, ?Ht; [|done].
  cbn [truthy Rules.keeps Rules.message]. unfold Rules.long_enough.
  destruct (String.eqb_spec (Rules.text d Rules.Course) "") as [->|_];
    cbn [negb]; [done|].
  rewrite append_if_spec. rewrite Nat.ltb_antisym. by rewrite negb_if.
Qed.

Lemma violations_verdicts d :
  Rules.violations d
  = concat (map (fun f => Rules.verdict f (Rules.text d f)) Rules.fields).
Proof.
  unfold Rules.violations, Rules.broken, Rules.verdict.
  induction Rules.fields as [|f l IH]; simpl; [done|].
  destruct (Rules.keeps f _); simpl; by rewrite IH.
Qed.

(** The validator against the rules. *)
Lemma validate_student_data_violations d :
  Rules.textual d = true ->
  validate_student_data d = Ok (Rules.violations d).
Proof.
  intros H. unfold validate_student_data.
  rewrite (check_name_verdict d [] H). cbn [mbind pyres_bind].
  rewrite (check_age_verdict d _ H). cbn [mbind pyres_bind].
  rewrite (check_grade_verdict d _ H). cbn [mbind pyres_bind].
  rewrite (check_email_verdict d _ H). cbn [mbind pyres_bind].
  rewrite (check_performance_verdict d _ H). cbn [mbind pyres_bind].
  rewrite (check_phone_verdict d _ H). cbn [mbind pyres_bind].
  rewrite (check_course_verdict d _ H).
  rewrite violations_verdicts. unfold Rules.fields.
  cbn [map concat]. by rewrite app_nil_r, <- !app_assoc.
Qed.

(** A message tells its field. *)
Lemma message_field f g s t : Rules.message f s = Rules.message g t -> f = g.
Proof.
  destruct f, g; simpl; try done;
    repeat match goal with
           | |- context [match ?x with Ok _ => _ | Raise _ => _ end] =>
               destruct x
           end; discriminate.
Qed.

Lemma fields_distinct : List.NoDup Rules.fields.
Proof.
  unfold Rules.fields.
  repeat (apply List.NoDup_cons; [simpl; intuition discriminate|]).
  apply List.NoDup_nil.
Qed.

Lemma violations_distinct d : List.NoDup (Rules.violations d).
Proof.
  unfold Rules.violations.
  assert (List.NoDup (Rules.broken d)) as Hbroken
    by apply List.NoDup_filter, fields_distinct.
  induction Hbroken as [|f l Hf Hl IH]; simpl; constructor; [|done].
  intros (g & Hmsg & Hg)%in_map_iff.
  apply message_field in Hmsg as ->. done.
Qed.

Lemma violations_nil d :
  Rules.violations d = []
  <-> forall f, Rules.keeps f (Rules.text d f) = true.
Proof.
  unfold Rules.violations, Rules.broken. split.
  - intros Hnil%map_eq_nil f.
    destruct (Rules.keeps f (Rules.text d f)) eqn:Hf; [done|].
    assert (In f (List.filter (fun f => negb (Rules.keeps f (Rules.text d f)))
                    Rules.fields)) as Hin.
    { apply filter_In. split; [destruct f; simpl; tauto|by rewrite Hf]. }
    by rewrite Hnil in Hin.
  - intros Hall. replace (List.filter _ _) with (@nil Rules.field); [done|].
    symmetry. induction Rules.fields as [|f l IH]; simpl; [done|].
    by rewrite Hall.
Qed.

End Validation.

Section TypedValidation.
Import Advanced.

Lemma student_data_fields name age grade email performance phone course
    department attendance :
  let d := student_data name age grade email performance phone course
             department attendance in
  d !! "name" = Some (VStr name)
  /\ d !! "age" = Some (VInt age)
  /\ d !! "grade" = Some (VStr grade)
  /\ d !! "email" = Some (VStr email)
  /\ d !! "performance" = Some (VFloat performance)
  /\ d !! "phone" = Some (VStr phone)
  /\ d !! "course" = Some (VStr course)
  /\ d !! "department" = Some (VStr department)
  /\ d !! "attendance" = Some (VFloat attendance).
Proof.
  unfold student_data.
  repeat split;
    repeat first [ by rewrite lookup_insert_eq
                 | rewrite lookup_insert_ne by done ].
Qed.

Lemma outside_number x lo hi :
  outside x lo hi
  = match number x with
    | Some n =>
        Ok (match num_compare n (NInt lo), num_compare n (NInt hi) with
            | Some Lt, _ | _, Some Gt => true
            | _, _ => false
            end)
    | None => outside x lo hi
    end.
Proof.
  destruct (number x) as [n|] eqn:Hn; [|done].
  unfold outside, py_gt, py_lt. rewrite Hn. cbn [number mbind pyres_bind].
  rewrite (num_compare_antisym n (NInt hi)).
  by destruct (num_compare n (NInt lo)) as [[]|],
    (num_compare n (NInt hi)) as [[]|].
Qed.

Lemma short_test s :
  (if negb (negb (String.eqb s ""))
   then Ok true else Ok (String.length (strip s) <? 2)%nat)
  = Ok (negb (Rules.long_enough s)).
Proof.
  unfold Rules.long_enough.
  destruct (String.eqb_spec s "") as [->|_]; [done|].
  cbn [negb]. by rewrite Nat.ltb_antisym.
Qed.

Lemma age_test age :
  (if negb (negb (age =? 0)) then Ok true else outside (VInt age) 15 70)
  = Ok (negb ((15 <=? age) && (age <=? 70))).
Proof.
  rewrite outside_number. cbn [number num_compare num_point point_compare].
  destruct (Z.eqb_spec age 0) as [->|_]; [done|]. cbn [negb]. f_equal.
  unfold Qcompare. simpl. rewrite !Z.mul_1_r.
  destruct (Z.compare_spec age 15), (Z.compare_spec age 70),
    (Z.leb_spec 15 age), (Z.leb_spec age 70); simpl; try done; lia.
Qed.

Lemma email_test email :
  (if negb (negb (String.eqb email ""))
   then Ok true else Ok (negb (contains_char "@" email)))
  = Ok (negb (contains_char "@" email)).
Proof. by destruct (String.eqb_spec email "") as [->|_]. Qed.

Lemma performance_test performance :
  (if negb (negb (is_zero performance))
   then Ok true else outside (VFloat performance) 0 100)
  = Ok (is_zero performance || Rules.off_percentage performance).
Proof.
  rewrite outside_number. unfold Rules.off_percentage. cbn [number].
  by destruct (is_zero performance).
Qed.

Lemma attendance_test attendance :
  (if negb (is_zero attendance)
   then outside (VFloat attendance) 0 100 else Ok false)
  = Ok (Rules.off_percentage attendance).
Proof.
  rewrite outside_number. unfold Rules.off_percentage. cbn [number].
  by destruct attendance.
Qed.

(** The validator of the in-memory variant against what it checks. *)
Lemma typed_validate_student_data name age grade email performance phone
    course department attendance :
  validate_student_data
    (student_data name age grade email performance phone course department
       attendance)
  = Ok (Rules.typed_violations name age email performance course attendance).
Proof.
  destruct (student_data_fields name age grade email performance phone course
              department attendance)
    as (Hname & Hage & _ & Hemail & Hperformance & _ & Hcourse & _ & Hattendance).
  unfold validate_student_data, missing_or, dict_get.
  rewrite Hname, Hage, Hemail, Hperformance, Hcourse, Hattendance.
  unfold Rules.typed_violations.
  cbn [truthy stripped_short no_at_sign].
  rewrite !short_test, age_test, email_test, performance_test, attendance_test.
  cbn [mbind pyres_bind]. rewrite !append_if_spec, !negb_if.
  by rewrite app_nil_l, <- !app_assoc.
Qed.

End TypedValidation.

(** C9, as the code has it.  For a record whose validated fields hold
    strings or are absent, the validator of the persistent variant returns
    the violations of the rules: one message for each field that breaks
    its rule, in the order of the fields, each field judged on its own
    text.  So [k] broken rules give [k] messages, pairwise distinct; there
    is none exactly when every rule is kept; and a message tells its
    field, no two fields sharing one.  The validator of the in-memory
    variant, on the data its callers build, returns the messages of the
    fields it checks: name, age, e-mail address, score, course and
    attendance. *)
Theorem validate_student_data_collects_all :
  (forall d,
     Rules.textual d = true ->
     exists errors,
       Persistent.validate_student_data d = Ok errors
       /\ errors = Rules.violations d
       /\ Forall2 (fun msg f => msg = Rules.message f (Rules.text d f))
            errors (Rules.broken d)
       /\ List.NoDup errors
       /\ (errors = [] <-> forall f, Rules.keeps f (Rules.text d f) = true))
  /\ (forall f g s t, Rules.message f s = Rules.message g t -> f = g)
  /\ (forall name age grade email performance phone course department
        attendance,
        Advanced.validate_student_data
          (Advanced.student_data name age grade email performance phone
             course department attendance)
        = Ok (Rules.typed_violations name age email performance course
                attendance)).
Proof.
  split; [|split].
  - intros d Hd. exists (Rules.violations d).
    split; [by apply validate_student_data_violations|].
    split; [done|]. split; [|split].
    + unfold Rules.violations.
      induction (Rules.broken d) as [|f l IH]; simpl; by constructor.
    + apply violations_distinct.
    + apply violations_nil.
  - apply message_field.
  - apply typed_validate_student_data.
Qed.

(** The row with three fields spoilt has the three messages of these
    fields. *)
Lemma validate_student_data_collects_all_witness :
  Rules.textual Samples.bad_row = true
  /\ Rules.broken Samples.bad_row = [Rules.Age; Rules.Email; Rules.Course]
  /\ exists errors,
       Persistent.validate_student_data Samples.bad_row = Ok errors
       /\ errors = Rules.violations Samples.bad_row
       /\ Forall2 (fun msg f => msg = Rules.message f (Rules.text Samples.bad_row f))
            errors (Rules.broken Samples.bad_row)
       /\ List.NoDup errors
       /\ (errors = [] <->
           forall f, Rules.keeps f (Rules.text Samples.bad_row f) = true).
Proof.
  split; [vm_compute; reflexivity|]. split; [vm_compute; reflexivity|].
  apply (proj1 validate_student_data_collects_all Samples.bad_row).
  vm_compute. reflexivity.
Defined.

(** C9 fails as stated.  A record of a file that stops after the id has
    None for its other fields, and the validator of the persistent variant
    raises on it.  The validator of the in-memory variant has a message
    for a score of zero, which is within [0, 100], and none for a grade
    and a telephone number that break their rules. *)
Lemma validate_student_data_misses_rules :
  Persistent.validate_student_data
    (Persistent.row_dict Samples.header ["STU006"])
  = Raise AttributeError
  /\ Rules.percentage (float_of_Z 0) = true
  /\ Advanced.validate_student_data
       (Advanced.student_data "Asha Rao" 20 "A" "asha@uni.edu" (float_of_Z 0)
          "" "Physics" "Science" (float_of_Z 95))
     = Ok [Advanced.msg_performance]
  /\ Rules.keeps Rules.Grade "Z" = false
  /\ Rules.keeps Rules.Phone "12" = false
  /\ Advanced.validate_student_data
       (Advanced.student_data "Asha Rao" 20 "Z" "asha@uni.edu" (float_of_Z 80)
          "12" "Physics" "Science" (float_of_Z 95))
     = Ok [].
Proof. repeat split; vm_compute; reflexivity. Qed.

(** ** Import into the persistent store *)

Section PersistentImport.
Import Persistent.

(** C10.  A row that passes the validation and whose id is the id of a
    student already in the list, be it a student of the store or one
    appended earlier in the same import, leaves the loop where it was: no
    student appended, the count unchanged, no error recorded. *)
Theorem import_skips_colliding_row clk i row rows st s :
  validate_student_data row = Ok [] ->
  from_dict clk row = Ok s ->
  id_present (imp_students st) (student_id s) = true ->
  import_row clk i row st = Ok st
  /\ import_rows clk i (row :: rows) st = import_rows clk (i + 1) rows st.
Proof.
  intros Hvalid Hs Hdup.
  assert (import_row clk i row st = Ok st) as Hrow.
  { unfold import_row. rewrite Hvalid. cbn [mbind pyres_bind].
    rewrite Hs. cbn [mbind pyres_bind]. by rewrite Hdup. }
  split; [done|]. simpl. by rewrite Hrow.
Qed.

Lemma import_skips_colliding_row_witness :
  let start :=
    {| imp_students := [Samples.alice]; imported_count := 0; errors := [] |} in
  let row := row_dict Samples.header Samples.alice_again in
  let rows := map (row_dict Samples.header) [Samples.eve; Samples.eve_twin] in
  import_row Samples.clk 2 row start = Ok start
  /\ import_rows Samples.clk 2 (row :: rows) start
     = import_rows Samples.clk (2 + 1) rows start.
Proof.
  intros start row rows.
  apply (import_skips_colliding_row Samples.clk 2 row rows start
           (Student_init Samples.clk (VStr "STU001") (VStr "Alice Again")
              (VStr "21") (VStr "B") (VStr "again@uni.edu") (VStr "70")
              (VStr "") (VStr "Physics") (VStr "Science") VNone));
    vm_compute; reflexivity.
Defined.

Lemma importable_record clk d :
  Spec.importable d = true ->
  Rules.textual d = true /\ exists s, from_dict clk d = Ok s.
Proof.
  unfold Spec.importable. intros [Htext Hkeys]%andb_prop. split; [done|].
  cbn [forallb] in Hkeys.
  repeat match type of Hkeys with
         | _ && _ = true =>
             let H := fresh "Hkey" in
             apply andb_prop in Hkeys as [H Hkeys];
             apply bool_decide_eq_true in H as [? H]
         end.
  unfold from_dict, dict_item.
  rewrite Hkey, Hkey0, Hkey1, Hkey2, Hkey3, Hkey4.
  cbn [mbind pyres_bind]. by eexists.
Qed.

Lemma accepted_length clk rows : forall store,
  (length store <= length (Spec.accepted clk store rows))%nat.
Proof.
  induction rows as [|d rows IH]; intros store; simpl; [done|].
  destruct (Rules.violations d); [|apply IH].
  destruct (from_dict clk d) as [s|]; [|apply IH].
  destruct (id_present store (student_id s)); [apply IH|].
  etransitivity; [|apply IH]. rewrite length_app. simpl. lia.
Qed.

(** The loop on rows that can be imported: it ends without an exception,
    with the rows that break no rule accepted and the others reported. *)
Lemma import_rows_accepted clk rows : forall i st,
  Forall (fun d => Spec.importable d = true) rows ->
  import_rows clk i rows st
  = ({| imp_students := Spec.accepted clk (imp_students st) rows;
        imported_count :=
          imported_count st
          + (Z.of_nat (length (Spec.accepted clk (imp_students st) rows))
             - Z.of_nat (length (imp_students st)));
        errors := errors st ++ Spec.rejected i rows |}, None).
Proof.
  induction rows as [|d rows IH]; intros i st Hrows.
  - simpl. rewrite app_nil_r, Z.sub_diag, Z.add_0_r. by destruct st.
  - inversion Hrows as [|? ? Hd Hrest]; subst.
    destruct (importable_record clk d Hd) as [Htext [s Hs]].
    cbn [import_rows Spec.accepted Spec.rejected]. unfold import_row.
    rewrite (validate_student_data_violations d Htext), Hs.
    cbn [mbind pyres_bind].
    destruct (Rules.violations d) as [|reason reasons].
    + cbn [mbind pyres_bind].
      destruct (id_present (imp_students st) (student_id s)); cbn [negb].
      * by rewrite (IH _ st Hrest).
      * rewrite (IH _ _ Hrest). cbn [imp_students imported_count errors].
        do 2 f_equal. rewrite length_app. simpl.
        pose proof (accepted_length clk rows (imp_students st ++ [s])) as Hlen.
        rewrite length_app in Hlen. simpl in Hlen. lia.
    + rewrite (IH _ _ Hrest). cbn [imp_students imported_count errors].
      do 2 f_equal. by rewrite <- app_assoc.
Qed.

End PersistentImport.

(** ** Import into the in-memory store *)

Section AdvancedImport.
Import Advanced.

Variable py_str : value -> string.
Variable parse : list string -> csv_records -> pyres (list (value * dict)).

Lemma get_next_student_id_students m m' :
  students m = students m' ->
  get_next_student_id m = get_next_student_id m'.
Proof. unfold get_next_student_id. by intros ->. Qed.

Lemma ids_below_mono b b' l :
  b <= b' -> Spec.ids_below b l = true -> Spec.ids_below b' l = true.
Proof.
  unfold Spec.ids_below. intros Hle [Hone Hall]%andb_prop.
  apply andb_true_intro. split; [apply Z.leb_le; apply Z.leb_le in Hone; lia|].
  rewrite forallb_forall in *. intros s Hs. specialize (Hall s Hs).
  destruct (id_number 2 (student_id s)); [|done].
  apply Z.ltb_lt. apply Z.ltb_lt in Hall. lia.
Qed.

Lemma ids_below_snoc b l s n :
  Spec.ids_below b l = true ->
  id_number 2 (student_id s) = Some n -> n <= b ->
  Spec.ids_below (b + 1) (l ++ [s]) = true.
Proof.
  intros Hl Hs Hn.
  pose proof (ids_below_mono b (b + 1) l ltac:(lia) Hl) as Hl'.
  unfold Spec.ids_below in *. apply andb_prop in Hl' as [Hone Hall].
  rewrite Hone, forallb_app, Hall. simpl. rewrite Hs.
  rewrite andb_true_r. apply Z.ltb_lt. lia.
Qed.

Lemma row_number_default i :
  row_number py_str (VInt i) = Ok (str_of_Z (i + 1)).
Proof. reflexivity. Qed.

(** The loop on a frame with the default labels, in a store with room
    for as many ids as the frame has rows. *)
Lemma import_rows_enrolled clk m frame : forall i st,
  map fst frame = map (fun k => VInt (Z.of_nat k)) (seq i (length frame)) ->
  Spec.ids_below (int_limit - Z.of_nat (length frame)) (imp_students st) = true ->
  exists students',
    Spec.enrolled clk (imp_students st)
      (Spec.valid_data py_str (map snd frame)) = Ok students'
    /\ length students'
       = (length (imp_students st)
          + length (Spec.valid_data py_str (map snd frame)))%nat
    /\ import_rows py_str clk frame st m
       = ({| imp_students := students';
             imported_count :=
               imported_count st
               + Z.of_nat (length (Spec.valid_data py_str (map snd frame)));
             errors :=
               errors st
               ++ Spec.error_entries py_str (Z.of_nat i + 1) (map snd frame) |},
          None).
Proof.
  induction frame as [|[label row] frame IH]; intros i st Hlabels Hbelow.
  - exists (imp_students st). split; [done|]. split; [simpl; lia|].
    simpl. rewrite app_nil_r, Z.add_0_r. by destruct st.
  - simpl in Hlabels. injection Hlabels as -> Hlabels.
    cbn [map snd import_rows Spec.error_entries].
    unfold Spec.valid_data. cbn [omap list_omap].
    fold (Spec.valid_data py_str (map snd frame)).
    replace (Z.of_nat i + 1 + 1) with (Z.of_nat (S i) + 1) by lia.
    set (b := int_limit - Z.of_nat (length ((VInt (Z.of_nat i), row) :: frame)))
      in Hbelow.
    assert (b + 1 = int_limit - Z.of_nat (length frame)) as Hb
      by (subst b; simpl length; lia).
    unfold import_row, import_row_try, Spec.judge.
    destruct (student_data_of py_str row) as [data|e]; cbn [mbind pyres_bind].
    2: { (* the data cannot be built *)
      rewrite row_number_default. cbn [mbind pyres_bind].
      destruct (IH (S i)
                  {| imp_students := imp_students st;
                     imported_count := imported_count st;
                     errors := errors st
                       ++ [row_failed (str_of_Z (Z.of_nat i + 1)) e] |}
                  Hlabels) as (students' & Henrol & Hlen & ->).
      { rewrite <- Hb. by apply (ids_below_mono b); [lia|]. }
      exists students'. split; [done|]. split; [done|].
      cbn [imp_students imported_count errors]. by rewrite <- app_assoc. }
    destruct (validate_student_data data) as [[|reason reasons]|e];
      cbn [mbind pyres_bind].
    + (* a valid row *)
      destruct (advanced_next_id_below b (with_students m (imp_students st)))
        as (n & text & Hid & Htext & Hn); [done|lia|].
      rewrite Hid. cbn [mbind pyres_bind].
      set (s := student_of_data clk ("ST" +:+ text) data).
      destruct (IH (S i)
                  {| imp_students := imp_students st ++ [s];
                     imported_count := imported_count st + 1;
                     errors := errors st |}
                  Hlabels) as (students' & Henrol & Hlen & ->).
      { rewrite <- Hb. apply (ids_below_snoc b _ s n); [done| |done].
        change (student_id s) with (VStr ("ST" +:+ text)).
        unfold id_number.
        change 2%nat with (String.length "ST").
        by rewrite slice_from_prefix, (int_of_string_format_03d _ _ Htext). }
      exists students'. split; [|split].
      * cbn [Spec.enrolled].
        rewrite (get_next_student_id_students
                   {| students := imp_students st;
                      cache_stats := None; cache_time := None |}
                   (with_students m (imp_students st)) eq_refl).
        rewrite Hid. cbn [mbind pyres_bind]. exact Henrol.
      * rewrite Hlen. cbn [imp_students]. rewrite length_app. simpl. lia.
      * cbn [imp_students imported_count errors length app].
        do 2 f_equal. lia.
    + (* an invalid row *)
      rewrite row_number_default. cbn [mbind pyres_bind].
      destruct (IH (S i)
                  {| imp_students := imp_students st;
                     imported_count := imported_count st;
                     errors := errors st
                       ++ [row_invalid (str_of_Z (Z.of_nat i + 1))
                             (reason :: reasons)] |}
                  Hlabels) as (students' & Henrol & Hlen & ->).
      { rewrite <- Hb. by apply (ids_below_mono b); [lia|]. }
      exists students'. split; [done|]. split; [done|].
      cbn [imp_students imported_count errors]. by rewrite <- app_assoc.
    + (* the validation raises *)
      rewrite row_number_default. cbn [mbind pyres_bind].
      destruct (IH (S i)
                  {| imp_students := imp_students st;
                     imported_count := imported_count st;
                     errors := errors st
                       ++ [row_failed (str_of_Z (Z.of_nat i + 1)) e] |}
                  Hlabels) as (students' & Henrol & Hlen & ->).
      { rewrite <- Hb. by apply (ids_below_mono b); [lia|]. }
      exists students'. split; [done|]. split; [done|].
      cbn [imp_students imported_count errors]. by rewrite <- app_assoc.
Qed.

End AdvancedImport.

(** C5, as the code has it.  In the persistent variant, on a file whose
    rows can be imported (their validated fields hold text and they have
    the columns of a record, the id among them), the rows that break a
    rule are passed over, each leaving an error entry with its number and
    its reasons, the rows being numbered from 2; the rows that break none
    are appended unless their id is in the list already; the count is the
    number of students appended; and the whole is saved.  In the in-memory
    variant, on a file pandas reads into a frame with the default labels
    and a store whose ids hold numbers that leave room for the rows, every
    row that passes the validation is enrolled under the next id and
    counted, every other row leaves an error entry with its number, the
    rows being numbered from 1, and the import succeeds. *)
Theorem import_from_csv_partial_success :
  (forall io_ok clk file m,
     Forall (fun d => Spec.importable d = true) (Persistent.DictReader file) ->
     let rows := Persistent.DictReader file in
     let accepted := Spec.accepted clk (Persistent.students m) rows in
     let errors := Spec.rejected 2 rows in
     let count :=
       Z.of_nat (length accepted)
       - Z.of_nat (length (Persistent.students m)) in
     Persistent.import_from_csv io_ok clk (Some file) m
     = (let (m', saved) :=
          Persistent.save_students io_ok (Persistent.with_students m accepted) in
        if saved
        then (m', (true, Text (Persistent.import_message count errors), errors))
        else (m', (false, Text "Failed to save imported data", errors))))
  /\ (forall py_str parse clk text frame m,
        Advanced.read_csv parse text = Ok frame ->
        Spec.default_index frame ->
        Spec.ids_below (int_limit - Z.of_nat (length frame))
          (Advanced.students m) = true ->
        let rows := map snd frame in
        let data := Spec.valid_data py_str rows in
        exists students',
          Spec.enrolled clk (Advanced.students m) data = Ok students'
          /\ length students'
             = (length (Advanced.students m) + length data)%nat
          /\ Advanced.import_from_csv py_str parse clk text m
             = (Advanced.clear_cache (Advanced.with_students m students'),
                (true,
                 Text ("Successfully imported "
                       +:+ str_of_Z (Z.of_nat (length data)) +:+ " students"),
                 Spec.error_entries py_str 1 rows))).
Proof.
  split.
  - intros io_ok clk file m Hrows rows accepted errors count.
    unfold Persistent.import_from_csv.
    rewrite (import_rows_accepted clk _ 2 _ Hrows).
    cbn [Persistent.imp_students Persistent.imported_count Persistent.errors].
    rewrite Z.add_0_l, app_nil_l. reflexivity.
  - intros py_str parse clk text frame m Hread Hindex Hbelow rows data.
    unfold Advanced.import_from_csv. rewrite Hread.
    destruct (import_rows_enrolled py_str clk m frame 0
                {| Advanced.imp_students := Advanced.students m;
                   Advanced.imported_count := 0;
                   Advanced.errors := [] |} Hindex Hbelow)
      as (students' & Henrol & Hlen & ->).
    exists students'. split; [done|]. split; [done|].
    cbn [Advanced.imp_students Advanced.imported_count Advanced.errors].
    by rewrite Z.add_0_l, app_nil_l.
Qed.

(** The scenario of the specification.  In the in-memory variant, on a
    store that holds ST001 and ST002, the rows 1 and 3 are committed as
    ST003 and ST004, the count is 2, and the one error entry is that of
    row 2 and its age.  In the persistent variant, the file having a
    column of ids, the rows are committed and counted alike and the error
    entry names the row 3, the header being the row 1. *)
Lemma import_from_csv_partial_success_witness :
  let m := Samples.fresh [Samples.aarav; Samples.priya] in
  let result :=
    Advanced.import_from_csv Samples.text_of Samples.typed_rows Samples.clk
      Samples.scenario_file m in
  (exists frame,
     Advanced.read_csv Samples.typed_rows Samples.scenario_file = Ok frame
     /\ exists students',
          Spec.enrolled Samples.clk (Advanced.students m)
            (Spec.valid_data Samples.text_of (map snd frame)) = Ok students'
          /\ length students'
             = (length (Advanced.students m)
                + length (Spec.valid_data Samples.text_of (map snd frame)))%nat
          /\ result
             = (Advanced.clear_cache (Advanced.with_students m students'),
                (true,
                 Text ("Successfully imported "
                       +:+ str_of_Z
                             (Z.of_nat
                                (length (Spec.valid_data Samples.text_of
                                           (map snd frame))))
                       +:+ " students"),
                 Spec.error_entries Samples.text_of 1 (map snd frame))))
  /\ snd result
     = (true, Text "Successfully imported 2 students",
        [Text "Row 2: Age must be between 15 and 70"])
  /\ map Advanced.student_id (Advanced.students (fst result))
     = [VStr "ST001"; VStr "ST002"; VStr "ST003"; VStr "ST004"]
  /\ map Advanced.name (Advanced.students (fst result))
     = [VStr "Aarav Sharma"; VStr "Priya Patel"; VStr "Meera Nair";
        VStr "Isha Rao"]
  /\ Persistent.import_from_csv true Samples.clk
       (Some Samples.scenario_with_ids) (Samples.saved [])
     = (let (m', saved) :=
          Persistent.save_students true
            (Persistent.with_students (Samples.saved [])
               (Spec.accepted Samples.clk []
                  (Persistent.DictReader Samples.scenario_with_ids))) in
        if saved
        then (m', (true,
                   Text "Successfully imported 2 students. 1 rows had errors",
                   ["Row 3: Age must be between 15 and 70 years"]))
        else (m', (false, Text "Failed to save imported data",
                   ["Row 3: Age must be between 15 and 70 years"]))).
Proof.
  intros m result. split; [|split; [|split; [|split]]].
  - eexists. split; [reflexivity|].
    apply (proj2 import_from_csv_partial_success Samples.text_of
             Samples.typed_rows Samples.clk Samples.scenario_file _ m).
    + reflexivity.
    + reflexivity.
    + vm_compute. reflexivity.
  - vm_compute. reflexivity.
  - vm_compute. reflexivity.
  - vm_compute. reflexivity.
  - apply (proj1 import_from_csv_partial_success true Samples.clk
             Samples.scenario_with_ids (Samples.saved [])).
    apply List.Forall_forall, forallb_forall. vm_compute. reflexivity.
Defined.

(** C5 fails as stated.  In the persistent variant the file of the
    scenario, which has no column of ids, aborts the import at its first
    row and nothing is committed; and a row that stops after its id
    aborts it too, the row before it left in the list and not saved.  In
    the in-memory variant, on a store that holds an id without a number,
    no valid row is committed: each leaves an error entry. *)
Lemma import_aborts_or_commits_nothing :
  Persistent.import_from_csv true Samples.clk (Some Samples.scenario_file)
    (Samples.saved [])
  = (Samples.saved [], (false, ErrorText "Error importing data: " KeyError, []))
  /\ (let result :=
        Persistent.import_from_csv true Samples.clk
          (Some Samples.truncated_file) (Samples.saved []) in
      map Persistent.student_id (Persistent.students (fst result))
      = [VStr "STU005"]
      /\ Persistent.data_file (fst result) = Holds []
      /\ snd result
         = (false, ErrorText "Error importing data: " AttributeError, []))
  /\ (let result :=
        Advanced.import_from_csv Samples.text_of Samples.typed_rows
          Samples.clk Samples.scenario_file (Samples.fresh [Samples.guest]) in
      Advanced.students (fst result) = [Samples.guest]
      /\ snd result
         = (true, Text "Successfully imported 0 students",
            [ErrorText "Row 1: Error processing - " ValueError;
             Text "Row 2: Age must be between 15 and 70";
             ErrorText "Row 3: Error processing - " ValueError])).
Proof. repeat split; vm_compute; reflexivity. Qed.

(** ** Correlation *)

Section Correlation.
Import Advanced.

(** C6 on the code.  With two students of performance 80 and attendances
    90 and 95 the variance of the performances is zero and the
    correlation entry is a nan, not 0.  With one student the entry is the
    int 0; with none, the analysis is the empty dict and has no entry. *)
Theorem correlation_nan_on_zero_variance :
  correlation_of (Samples.fresh [Samples.neha; Samples.arun])
  = Ok (Some (CorrFloat S754_nan))
  /\ correlation_of (Samples.fresh [Samples.neha]) = Ok (Some CorrZero)
  /\ correlation_of (Samples.fresh []) = Ok None.
Proof. repeat split; vm_compute; reflexivity. Qed.

End Correlation.

(** ** The performance trend *)

Section Trend.
Import Persistent.

Lemma to_float_total a : Spec.total_or_overflow (to_float a).
Proof.
  destruct a as [z|x]; [|left; by eexists].
  unfold to_float, float_of_int.
  destruct (is_infinite _); [by right|left; by eexists].
Qed.

Lemma num_add_total a b : Spec.total_or_overflow (num_add a b).
Proof.
  assert (Spec.total_or_overflow
            (x ← to_float a; y ← to_float b; Ok (NFloat (fadd x y)))) as H.
  { destruct (to_float_total a) as [[x ->]| ->]; [|by right].
    cbn [mbind pyres_bind].
    destruct (to_float_total b) as [[y ->]| ->]; [|by right].
    left. by eexists. }
  destruct a, b; try exact H. left. by eexists.
Qed.

Lemma py_sum_total l : forall acc,
  Forall (fun v => is_Some (number v)) l -> Spec.total_or_overflow (py_sum acc l).
Proof.
  induction l as [|v l IH]; intros acc Hl; simpl; [left; by eexists|].
  inversion Hl as [|? ? [x Hx] Hrest]; subst. rewrite Hx.
  destruct (num_add_total acc x) as [[acc' ->]| ->]; [|by right].
  cbn [mbind pyres_bind]. by apply IH.
Qed.

Lemma div_count_total total n :
  n <> 0%nat -> Spec.total_or_overflow (div_count total n).
Proof.
  intros Hn. unfold div_count.
  destruct (Nat.eqb_spec n 0) as [|_]; [done|].
  destruct total as [z|x]; [|left; by eexists].
  unfold int_truediv. destruct (Z.abs z); try (left; by eexists).
  destruct (Z.abs (Z.of_nat n)); try (left; by eexists).
  destruct (is_infinite _); [by right|left; by eexists].
Qed.

Lemma mean_total l :
  l <> [] -> Forall (fun v => is_Some (number v)) l ->
  Spec.total_or_overflow (mean l).
Proof.
  intros Hne Hl. unfold mean.
  destruct (py_sum_total l (NInt 0) Hl) as [[total ->]| ->]; [|by right].
  cbn [mbind pyres_bind]. apply div_count_total. by destruct l.
Qed.

Lemma for_each_ok {A} (f : A -> pyres unit) l :
  Forall (fun x => f x = Ok tt) l -> for_each f l = Ok tt.
Proof. induction 1 as [|x l Hx _ IH]; simpl; [done|]. by rewrite Hx. Qed.

Lemma calculate_status_ok s :
  is_Some (number (performance s)) ->
  exists status, calculate_status s = Ok status.
Proof.
  intros [x Hx]. unfold calculate_status, py_ge, py_le. simpl. rewrite Hx.
  cbn [mbind pyres_bind].
  repeat match goal with
  | |- context [if ?b then _ else _] => destruct b
  end; by eexists.
Qed.

(** The recent students are the students enrolled on the cutoff date or
    later. *)
Lemma filter_recently_added_filter cutoff l : forall recent,
  filter_recently_added cutoff l = Ok recent ->
  recent = List.filter (Spec.enrolled_since cutoff) l.
Proof.
  unfold filter_recently_added.
  induction l as [|s l IH]; intros recent; simpl; [by intros [= <-]|].
  unfold py_ge, py_le.
  destruct (enrollment_date s) as [| | | |d|] eqn:Hd; try done. simpl.
  destruct (comprehension _ l) as [rest|]; [|done].
  cbn [mbind pyres_bind]. intros [= <-]. rewrite <- (IH rest eq_refl).
  replace (Spec.enrolled_since cutoff s) with (String.leb cutoff d)
    by (unfold Spec.enrolled_since; by rewrite Hd).
  by destruct (String.leb cutoff d).
Qed.

Lemma filter_recently_added_strings cutoff l :
  Forall (fun s => exists d, enrollment_date s = VStr d) l ->
  filter_recently_added cutoff l
  = Ok (List.filter (Spec.enrolled_since cutoff) l).
Proof.
  unfold filter_recently_added.
  induction 1 as [|s l [d Hd] _ IH]; simpl; [done|].
  rewrite IH. unfold py_ge, py_le. rewrite Hd. simpl.
  replace (Spec.enrolled_since cutoff s) with (String.leb cutoff d)
    by (unfold Spec.enrolled_since; by rewrite Hd).
  by destruct (String.leb cutoff d).
Qed.

(** The label of the code is the signal of the specification. *)
Lemma trend_label_signal recent_avg avg :
  trend_label recent_avg avg
  = match Spec.trend_signal recent_avg avg with
    | Some t => Spec.label t
    | None => "stable"
    end.
Proof.
  unfold trend_label, Spec.trend_signal, fgt, flt.
  rewrite (num_compare_antisym (NFloat recent_avg) (NFloat avg)).
  by destruct (num_compare (NFloat recent_avg) (NFloat avg)) as [[]|].
Qed.

Lemma hashable_or_undeclared v :
  (forall l, v <> VList l) ->
  hashable (if truthy v then v else VStr "Undeclared") = Ok tt.
Proof.
  intros Hv. destruct (truthy v); [|done].
  destruct v; try done. by destruct (Hv l).
Qed.

Lemma well_typed_inv s :
  Spec.well_typed s = true ->
  is_Some (number (age s))
  /\ is_Some (number (performance s))
  /\ (exists d, enrollment_date s = VStr d)
  /\ hashable (if truthy (course s) then course s else VStr "Undeclared") = Ok tt
  /\ hashable (if truthy (department s) then department s else VStr "Undeclared")
     = Ok tt
  /\ shadows s "calculate_status" = false.
Proof.
  unfold Spec.well_typed.
  intros [[[[[Ha Hp]%andb_prop Hd]%andb_prop Hc]%andb_prop Hdep]%andb_prop
            Hs]%andb_prop.
  apply bool_decide_eq_true in Ha, Hp. apply negb_true_iff in Hs.
  repeat split; try done.
  - destruct (enrollment_date s); try done. by eexists.
  - apply hashable_or_undeclared. intros l Hl. by rewrite Hl in Hc.
  - apply hashable_or_undeclared. intros l Hl. by rewrite Hl in Hdep.
Qed.

(** On well-typed students nothing but the means can raise. *)
Lemma get_statistics_well_typed cutoff m :
  students m <> [] ->
  forallb Spec.well_typed (students m) = true ->
  get_statistics cutoff m
  = (avg_age ← mean (map age (students m));
     avg_performance ← mean (map performance (students m));
     let recent := List.filter (Spec.enrolled_since cutoff) (students m) in
     trend ←
       match recent with
       | [] => Ok []
       | _ =>
           recent_avg ← mean (map performance recent);
           Ok [trend_label recent_avg avg_performance]
       end;
     Ok (Some {| total_students := length (students m);
                 avg_age := avg_age;
                 avg_performance := avg_performance;
                 recent_students := recent;
                 performance_trend := trend |})).
Proof.
  intros Hne Htyped.
  assert (forall s, In s (students m) -> Spec.well_typed s = true) as Hall
    by (by apply forallb_forall).
  assert (for_each (fun s => call_calculate_status s ≫= fun _ => Ok tt)
            (students m) = Ok tt) as Hstatus.
  { apply for_each_ok, List.Forall_forall. intros s Hs.
    destruct (well_typed_inv s (Hall s Hs)) as (_ & Hp & _ & _ & _ & Hshadow).
    unfold call_calculate_status, call. rewrite Hshadow.
    by destruct (calculate_status_ok s Hp) as [status ->]. }
  assert (for_each (fun s =>
            hashable (if truthy (course s) then course s else VStr "Undeclared");;
            hashable (if truthy (department s) then department s
                      else VStr "Undeclared")) (students m) = Ok tt) as Hhash.
  { apply for_each_ok, List.Forall_forall. intros s Hs.
    destruct (well_typed_inv s (Hall s Hs)) as (_ & _ & _ & -> & -> & _). done. }
  assert (filter_recently_added cutoff (students m)
          = Ok (List.filter (Spec.enrolled_since cutoff) (students m)))
    as Hrecent.
  { apply filter_recently_added_strings, List.Forall_forall. intros s Hs.
    by apply well_typed_inv, Hall. }
  unfold get_statistics.
  destruct (students m) as [|s0 l0] eqn:Hl; [done|]. rewrite <- Hl in *.
  destruct (mean (map age (students m))) as [avg_age|]; [|done].
  cbn [mbind pyres_bind].
  destruct (mean (map performance (students m))) as [avg|]; [|done].
  cbn [mbind pyres_bind].
  rewrite Hstatus. cbn [mbind pyres_bind].
  rewrite Hhash. cbn [mbind pyres_bind].
  rewrite Hrecent. cbn [mbind pyres_bind]. reflexivity.
Qed.

(** C7, as the code has it.  In the persistent variant, when
    [get_statistics] returns statistics, the recent students are those
    enrolled on the cutoff date or later, the overall mean is the mean of
    the performances of all, and the trend is the empty list when there
    is no recent student, and otherwise the one label of the signal the
    specification gives to the mean of the recent performances against the
    overall mean: improving when greater, declining when smaller, stable
    when equal (and when a mean is a nan).  The means are the sums of
    floating-point arithmetic divided by the counts.  Statistics are
    returned on every store that is not empty and whose students are well
    typed, unless a number is too large for a float, which raises an
    OverflowError. *)
Theorem trend_compares_recent_mean_with_overall_mean cutoff m :
  (forall st,
     get_statistics cutoff m = Ok (Some st) ->
     recent_students st
     = List.filter (Spec.enrolled_since cutoff) (students m)
     /\ mean (map performance (students m)) = Ok (avg_performance st)
     /\ match recent_students st with
        | [] => performance_trend st = []
        | recent =>
            exists recent_avg,
              mean (map performance recent) = Ok recent_avg
              /\ performance_trend st
                 = [match Spec.trend_signal recent_avg (avg_performance st) with
                    | Some t => Spec.label t
                    | None => "stable"
                    end]
        end)
  /\ (students m <> [] ->
      forallb Spec.well_typed (students m) = true ->
      (exists st, get_statistics cutoff m = Ok (Some st))
      \/ get_statistics cutoff m = Raise OverflowError).
Proof.
  split.
  - intros st. unfold get_statistics.
    destruct (students m) as [|s0 l0] eqn:Hl; [done|]. rewrite <- Hl.
    destruct (mean (map age (students m))) as [avg_age|]; [|done].
    cbn [mbind pyres_bind].
    destruct (mean (map performance (students m))) as [avg|]; [|done].
    cbn [mbind pyres_bind].
    do 2 match goal with
         | |- (?c ≫= _) = _ -> _ => destruct c; [cbn [mbind pyres_bind]|done]
         end.
    destruct (filter_recently_added cutoff (students m)) as [recent|] eqn:Hrecent;
      [|done].
    apply filter_recently_added_filter in Hrecent.
    cbn [mbind pyres_bind]. destruct recent as [|r0 recent].
    + cbn [mbind pyres_bind]. intros [= <-]. by cbn.
    + destruct (mean (map performance (r0 :: recent))) as [recent_avg|]
        eqn:Hmean; [|done].
      cbn [mbind pyres_bind]. intros [= <-].
      cbn [recent_students avg_performance performance_trend].
      split; [done|]. split; [done|]. exists recent_avg. split; [done|].
      by rewrite trend_label_signal.
  - intros Hne Htyped. rewrite (get_statistics_well_typed _ _ Hne Htyped).
    assert (forall l, (forall s, In s l -> In s (students m)) ->
              Forall (fun v => is_Some (number v)) (map performance l)) as Hperf.
    { intros l Hl. apply Forall_map, List.Forall_forall. intros s Hs.
      apply well_typed_inv. rewrite forallb_forall in Htyped.
      by apply Htyped, Hl. }
    destruct (mean_total (map age (students m))) as [[avg_age ->]| ->];
      [by destruct (students m)| | |by right].
    { apply Forall_map, List.Forall_forall. intros s Hs.
      apply well_typed_inv. rewrite forallb_forall in Htyped. by apply Htyped. }
    cbn [mbind pyres_bind].
    destruct (mean_total (map performance (students m))) as [[avg ->]| ->];
      [by destruct (students m)|by apply Hperf| |by right].
    cbn [mbind pyres_bind].
    destruct (List.filter _ (students m)) as [|r0 recent] eqn:Hr.
    { left. by eexists. }
    destruct (mean_total (map performance (r0 :: recent)))
      as [[recent_avg ->]| ->]; [done| |left; by eexists|by right].
    apply Hperf. intros s Hs. rewrite <- Hr in Hs.
    by apply filter_In in Hs as [Hs _].
Qed.

End Trend.

Section TrendExamples.

(** Three students with performances 50, 90 and 60, the last alone
    enrolled within the thirty days before the first of March 2024: the
    mean of the recent, 60, is below the mean of all, and the trend is
    declining. *)
Lemma trend_compares_recent_mean_with_overall_mean_witness :
  exists st,
    Persistent.get_statistics "2024-01-31" Samples.three_students = Ok (Some st)
    /\ Persistent.performance_trend st = ["declining"]
    /\ Persistent.recent_students st
       = List.filter (Spec.enrolled_since "2024-01-31")
           (Persistent.students Samples.three_students)
    /\ mean (map Persistent.performance
               (Persistent.students Samples.three_students))
       = Ok (Persistent.avg_performance st)
    /\ match Persistent.recent_students st with
       | [] => Persistent.performance_trend st = []
       | recent =>
           exists recent_avg,
             mean (map Persistent.performance recent) = Ok recent_avg
             /\ Persistent.performance_trend st
                = [match Spec.trend_signal recent_avg
                           (Persistent.avg_performance st) with
                   | Some t => Spec.label t
                   | None => "stable"
                   end]
       end.
Proof.
  destruct (proj2 (trend_compares_recent_mean_with_overall_mean
                     "2024-01-31" Samples.three_students))
    as [[st Hst]|Hraise].
  - discriminate.
  - vm_compute. reflexivity.
  - exists st. split; [exact Hst|]. split.
    + vm_compute in Hst. injection Hst as <-. reflexivity.
    + exact (proj1 (trend_compares_recent_mean_with_overall_mean
                      "2024-01-31" Samples.three_students) st Hst).
  - vm_compute in Hraise. discriminate Hraise.
Defined.

(** C7 fails as stated.  On the three students of the witness the
    in-memory variant compares the last performance, 60, with the first,
    50, and returns Improving where the mean of the recent is below the
    mean of all.  And of three students of the persistent variant with
    the same performance, 50.2, the last alone recent, the trend is
    declining: the sum of the three divided by three is the float above
    50.2. *)
Lemma trend_of_in_memory_variant_differs :
  let l := [Samples.early_low; Samples.early_high; Samples.recent_middle] in
  map Advanced.performance l
  = [VFloat (Samples.tenths 500); VFloat (Samples.tenths 900);
     VFloat (Samples.tenths 600)]
  /\ map Advanced.enrollment_date l
     = [VStr "2023-09-01"; VStr "2023-09-01"; VStr "2024-02-20"]
  /\ (Persistent.performance_trend <$>
        (match Persistent.get_statistics "2024-01-31" Samples.three_students with
         | Ok st => st
         | Raise _ => None
         end))
     = Some ["declining"]
  /\ (Advanced.performance_trend <$>
        (match snd (Advanced.get_statistics (float_of_Z 1709287200)
                      (Samples.fresh l)) with
         | Ok st => st
         | Raise _ => None
         end))
     = Some "Improving"
  /\ map Persistent.performance (Persistent.students Samples.level_students)
     = [VFloat (Samples.tenths 502); VFloat (Samples.tenths 502);
        VFloat (Samples.tenths 502)]
  /\ (Persistent.performance_trend <$>
        (match Persistent.get_statistics "2024-01-31" Samples.level_students with
         | Ok st => st
         | Raise _ => None
         end))
     = Some ["declining"].
Proof. repeat split; vm_compute; reflexivity. Qed.

End TrendExamples.

(** ** Export and import of an empty store *)

Section EmptyStore.

(** C8, as the code has it.  The export of an empty store succeeds and
    writes nothing but, in the in-memory variant, one empty line: no
    header.  Importing what was exported leaves the store empty and
    returns no error entry: the persistent variant reports 0 students
    imported (or the failure of its save), the in-memory variant reports
    that the import failed, pandas finding no column to parse. *)
Theorem export_import_empty_store :
  (forall py_str filename file clk io_ok,
     let m := {| Persistent.students := []; Persistent.data_file := file |} in
     Persistent.export_to_csv py_str true filename m
     = (Some [], (true, Text ("Data exported successfully to " +:+ filename)))
     /\ Persistent.import_from_csv io_ok clk (Some []) m
        = (if io_ok
           then ({| Persistent.students := [];
                    Persistent.data_file := Holds [] |},
                 (true, Text "Successfully imported 0 students", []))
           else (m, (false, Text "Failed to save imported data", []))))
  /\ (forall py_str parse clk stats time,
        let m := {| Advanced.students := [];
                    Advanced.cache_stats := stats;
                    Advanced.cache_time := time |} in
        Advanced.export_to_csv py_str m
        = (true, Text "Data exported successfully", Some [[]])
        /\ Advanced.import_from_csv py_str parse clk [[]] m
           = (m, (false, ErrorText "Import failed: " EmptyDataError, []))).
Proof.
  split.
  - intros py_str filename file clk io_ok m. split; [reflexivity|].
    by destruct io_ok.
  - intros py_str parse clk stats time m. by split.
Qed.

(** C8 fails as stated.  With a student in the store the first record of
    the export names the columns; with none there is no such record. *)
Lemma export_of_empty_store_has_no_header :
  head (default []
          (fst (Persistent.export_to_csv Samples.text_of true
                  "data/students_export.csv" (Samples.saved [Samples.alice]))))
  = Some ["student_id"; "name"; "age"; "grade"; "email"; "performance";
          "phone"; "course"; "department"; "enrollment_date"; "last_updated"]
  /\ fst (Persistent.export_to_csv Samples.text_of true
            "data/students_export.csv" (Samples.saved []))
     = Some []
  /\ head (default []
             (snd (Advanced.export_to_csv Samples.text_of
                     (Samples.fresh [Samples.aarav]))))
     = Some ["student_id"; "name"; "age"; "grade"; "email"; "performance";
             "phone"; "course"; "department"; "enrollment_date"; "attendance";
             "last_updated"]
  /\ snd (Advanced.export_to_csv Samples.text_of (Samples.fresh []))
     = Some [[]].
Proof. repeat split; reflexivity. Qed.

End EmptyStore.
